(** * AI hotline webhook server: a shallow embedding of
    [src/webhook/hotline_server.py] and [src/tts_server.py], and the
    properties of the turn handlers, backend clients and audio cache.

    Python values that come out of a JSON decoder are modelled by [value];
    exceptions by the [Raise] case of [result]; the effects of a handler
    (outbound HTTP requests, files of the audio cache, draws of [uuid.uuid4])
    by a state-and-exception monad over [World].  What the outside world
    answers to an outbound request is a parameter ([network] of [Env]).

    A TwiML document is the text that the f-strings of the source build, the
    reply pasted into it as it is; [read_twiml] is what an XML reader makes
    of that text. *)

From Stdlib Require Import ZArith Ascii String List Lia SpecFloat DecimalString.
From stdpp Require Import base option list strings gmap.

Set Warnings "-register-all".

Local Open Scope Z_scope.
Local Open Scope string_scope.

(** ** Strings

    A Python [str] is modelled by the bytes of its UTF-8 encoding.  A [str]
    may hold a surrogate code point on its own ([json.loads] accepts the
    escape [\ud800]), which UTF-8 refuses; such a code point is modelled by
    the three bytes that the encoding scheme would give it: ED, then a byte
    from A0 to BF, then a continuation byte.  Text never has ED followed by
    A0 or more. *)

(** The line feed and the double quote, which a string literal cannot
    hold. *)
Definition nl : string := String (ascii_of_nat 10) EmptyString.
Definition dq : string := String (ascii_of_nat 34) EmptyString.

(** [str.lower] on one character.  Only the letters A-Z change; a byte
    outside ASCII (part of a UTF-8 sequence) is left as it is.  [lower] is
    used to look for the closing phrases only, and finds them where
    [str.lower] does: the phrases are ASCII, and the only ASCII letters that
    a character outside ASCII lowers to are [i] and [k], which no phrase
    holds. *)
Definition lower_ascii (c : ascii) : ascii :=
  let n := nat_of_ascii c in
  if ((65 <=? n) && (n <=? 90))%nat then ascii_of_nat (n + 32) else c.

(** [s.lower()] *)
Fixpoint lower (s : string) : string :=
  match s with
  | EmptyString => EmptyString
  | String c rest => String (lower_ascii c) (lower rest)
  end.

(** [s.startswith(p)] *)
Fixpoint startswith (p s : string) : bool :=
  match p, s with
  | EmptyString, _ => true
  | String a p', String b s' => if Ascii.eqb a b then startswith p' s' else false
  | String _ _, EmptyString => false
  end.

(** [p in s] for two strings: [p] occurs in [s] as a substring. *)
Fixpoint contains (p s : string) : bool :=
  startswith p s ||
  match s with
  | EmptyString => false
  | String _ s' => contains p s'
  end.

(** Every character of [s] passes the test [ok]. *)
Fixpoint all_chars (ok : ascii -> bool) (s : string) : bool :=
  match s with
  | EmptyString => true
  | String c rest => ok c && all_chars ok rest
  end.

Definition not_slash (c : ascii) : bool := negb (Ascii.eqb c "/").

(** The bytes [a], [b] start the encoding of a surrogate. *)
Definition starts_surrogate (a b : ascii) : bool :=
  ((nat_of_ascii a =? 237) && (160 <=? nat_of_ascii b))%nat.

(** The string holds a surrogate: [s.encode("utf-8")] raises. *)
Fixpoint has_lone_surrogate (s : string) : bool :=
  match s with
  | String a (String b _ as rest) => starts_surrogate a b || has_lone_surrogate rest
  | _ => false
  end.

(** ["\n".join(lines)]: the lines of a triple-quoted literal. *)
Definition lines (ls : list string) : string := String.concat nl ls.

(** ["".join(parts)] *)
Definition join (parts : list string) : string := fold_right String.append "" parts.

(** ** Python values, exceptions and results *)

Definition bytes := list Byte.byte.

(** What [json.loads] can return, and what [json.dumps] is given.  A [float]
    is a binary64 number: [json.loads] rounds a literal to the nearest one
    (so [1e-400] is read as zero and [1e400] as infinity) and accepts [NaN]
    and [Infinity].  A [VDict] lists the items of the dict that the decoder
    built, in their order; a key occurs once in it. *)
Inductive value : Type :=
| VNone
| VBool (b : bool)
| VInt (n : Z)
| VFloat (f : spec_float)
| VStr (s : string)
| VList (items : list value)
| VDict (items : list (string * value)).

Inductive exn : Type :=
| AttributeError
| IndexError
| KeyError
| TypeError
| JSONDecodeError
| InvalidJSONError
| UnicodeEncodeError
| HTTPError
| Timeout
| ConnectionError
| IsADirectoryError
| FileNotFoundError.

Inductive result (A : Type) : Type :=
| Ok (a : A)
| Raise (e : exn).
Arguments Ok {A} a.
Arguments Raise {A} e.

(** [f == 0.0], for both zeros. *)
Definition float_is_zero (f : spec_float) : bool :=
  match f with S754_zero _ => true | _ => false end.

(** [math.isfinite(f)] *)
Definition float_is_finite (f : spec_float) : bool :=
  match f with S754_zero _ | S754_finite _ _ _ => true | _ => false end.

(** [bool(v)]: what [if v], [not v] and [v or d] test.  [NaN] is true. *)
Definition truthy (v : value) : bool :=
  match v with
  | VNone => false
  | VBool b => b
  | VInt n => negb (n =? 0)%Z
  | VFloat f => negb (float_is_zero f)
  | VStr s => negb (String.eqb s "")
  | VList items => match items with [] => false | _ => true end
  | VDict items => match items with [] => false | _ => true end
  end.

(** [a or b] *)
Definition py_or (a b : value) : value := if truthy a then a else b.

(** Lookup of a key in the items of a dict. *)
Fixpoint dict_lookup (items : list (string * value)) (key : string) : option value :=
  match items with
  | [] => None
  | (k, v) :: rest => if String.eqb k key then Some v else dict_lookup rest key
  end.

(** [d.get(key, default)].  Only a dict has the method. *)
Definition py_get (d : value) (key : string) (default : value) : result value :=
  match d with
  | VDict items =>
      match dict_lookup items key with
      | Some v => Ok v
      | None => Ok default
      end
  | _ => Raise AttributeError
  end.

(** The continuation bytes that [s] starts with: the rest of a character
    whose first byte came before [s]. *)
Fixpoint continuation_bytes (s : string) : string :=
  match s with
  | EmptyString => EmptyString
  | String c rest =>
      if ((128 <=? nat_of_ascii c) && (nat_of_ascii c <? 192))%nat
      then String c (continuation_bytes rest)
      else EmptyString
  end.

(** [v[0]].  A list or a string gives its first element (a string its first
    character, one byte or more) and raises [IndexError] when empty; a dict
    decoded from JSON has only string keys, so the key [0] is never found;
    nothing else can be subscripted. *)
Definition py_index0 (v : value) : result value :=
  match v with
  | VList [] => Raise IndexError
  | VList (x :: _) => Ok x
  | VStr EmptyString => Raise IndexError
  | VStr (String c rest) => Ok (VStr (String c (continuation_bytes rest)))
  | VDict _ => Raise KeyError
  | _ => Raise TypeError
  end.

(** [json.dumps(v, allow_nan=False)] succeeds: no [NaN] and no infinity
    anywhere in [v]. *)
Fixpoint json_compliant (v : value) : bool :=
  match v with
  | VFloat f => float_is_finite f
  | VList items => forallb json_compliant items
  | VDict items => forallb (fun item => json_compliant (snd item)) items
  | _ => true
  end.

(** [str(v)] encodes as UTF-8.  Only a string can hold a surrogate: the
    [repr] of the strings inside a list or a dict writes one as an escape. *)
Definition printable (v : value) : bool :=
  match v with
  | VStr s => negb (has_lone_surrogate s)
  | _ => true
  end.

(** ** The outside world *)

(** An outbound [requests.post(url, json=..., timeout=...)]. *)
Record request : Type := Request {
  req_url : string;
  req_json : value;
  req_timeout : Z
}.

(** The [requests.Response] a backend sends back: [json] is what
    [response.json()] decodes from the body, [None] when the body is not
    JSON. *)
Record response : Type := Response {
  status_code : Z;
  content : bytes;
  json : option value
}.

(** What a [requests.post] call comes to: a response, or an exception of the
    transport ([Timeout], [ConnectionError]). *)
Inductive reply : Type :=
| Answers (r : response)
| Fails (e : exn).

(** An entry of a directory. *)
Inductive node : Type :=
| File (data : bytes)
| Dir.

(** The directory in which [send_file] looks a file of [AUDIO_DIR] up.
    [Path.mkdir], [Path.exists] and [Path.write_bytes] resolve a relative
    [AUDIO_DIR] (the default is [./audio_cache]) against the working
    directory of the process; Flask's [send_file] joins a relative path to
    [app.root_path], the directory of the module.  The two are the same
    directory when [AUDIO_DIR] is absolute or the server was started in the
    directory of the module; otherwise [send_file] looks at another path,
    where there is nothing or a directory with entries of its own. *)
Inductive root_view : Type :=
| SameDirectory
| OtherDirectory (entries : option (gmap string node)).

(** The state a handler reads and changes: the entries of [AUDIO_DIR] by
    name, the requests sent so far (oldest first) and the number of UUIDs
    drawn. *)
Record World : Type := mkWorld {
  audio_dir : gmap string node;
  outbox : list request;
  draws : nat
}.

(** The configuration read from the process environment at start; the two
    sources of non-determinism: what the network answers to a request (given
    the requests sent before it), and the 128 random bits behind the n-th
    [uuid.uuid4()]; where [send_file] looks; and what the interpreter writes
    for the [repr] of a float, a list or a dict, which is not modelled. *)
Record Env : Type := mkEnv {
  BASE_URL : string;
  TTS_URL : string;
  LLM_URL : string;
  LANGFLOW_URL : string;
  LANGFLOW_FLOW_ID : string;
  SYSTEM_PROMPT : string;
  network : list request -> request -> reply;
  urandom : nat -> N;
  send_file_root : root_view;
  repr : value -> string
}.

(** [str(v)], what an f-string writes for [{v}]. *)
Definition py_str (E : Env) (v : value) : string :=
  match v with
  | VStr s => s
  | VNone => "None"
  | VBool true => "True"
  | VBool false => "False"
  | VInt n => NilZero.string_of_int (Z.to_int n)
  | _ => repr E v
  end.

(** ** The monad of handlers: state and exceptions *)

Definition M (A : Type) : Type := World -> result A * World.

Definition ret {A} (a : A) : M A := fun w => (Ok a, w).

Definition raise {A} (e : exn) : M A := fun w => (Raise e, w).

Definition bind {A B} (m : M A) (k : A -> M B) : M B :=
  fun w =>
    match m w with
    | (Ok a, w') => k a w'
    | (Raise e, w') => (Raise e, w')
    end.

(** A pure computation that may raise, run inside a handler. *)
Definition lift {A} (r : result A) : M A := fun w => (r, w).

(** [try: m  except Exception: handler].  What [m] did to the world before it
    raised stays done. *)
Definition try_except {A} (m : M A) (handler : exn -> M A) : M A :=
  fun w =>
    match m w with
    | (Ok a, w') => (Ok a, w')
    | (Raise e, w') => handler e w'
    end.

Declare Scope py_scope.
Delimit Scope py_scope with py.
Notation "x <- m ;; k" := (bind m (fun x => k))
  (at level 100, m at next level, right associativity) : py_scope.
Notation "m ;;; k" := (bind m (fun _ => k))
  (at level 100, right associativity) : py_scope.
Local Open Scope py_scope.

(** ** UUIDs *)

Definition hex_digit (n : N) : ascii :=
  nth (N.to_nat n) (list_ascii_of_string "0123456789abcdef") "0"%char.

(** ['%0<width>x' % n], for [n] below [16 ^ width]. *)
Fixpoint hex_fixed (width : nat) (n : N) : string :=
  match width with
  | O => EmptyString
  | S k => hex_fixed k (n / 16)%N +:+ String (hex_digit (n mod 16)%N) EmptyString
  end.

(** [uuid.UUID(bytes=..., version=4).int]: the variant bits are set to 10 and
    the version nibble to 4. *)
Definition uuid4_int (random : N) : N :=
  let i := (random mod 2 ^ 128)%N in
  let i := N.ldiff i (N.shiftl 0xc000 48) in
  let i := N.lor i (N.shiftl 0x8000 48) in
  let i := N.ldiff i (N.shiftl 0xf000 64) in
  N.lor i (N.shiftl 4 76).

(** [str(u)] for a UUID: 8-4-4-4-12 hexadecimal digits. *)
Definition uuid_str (i : N) : string :=
  let hex := hex_fixed 32 i in
  substring 0 8 hex +:+ "-" +:+ substring 8 4 hex +:+ "-" +:+
  substring 12 4 hex +:+ "-" +:+ substring 16 4 hex +:+ "-" +:+
  substring 20 12 hex.

(** ** Control documents and HTTP responses of the server *)

(** A verb of a TwiML document.  Every [<Gather>] of the source carries the
    same attributes [input="speech" method="POST" speechTimeout="auto"
    language="en-US"]; only its [action] and the verbs nested in it vary.
    The text of a [<Say>] and the URL of a [<Play>] are what the f-string
    interpolates. *)
Inductive twiml : Type :=
| Play (url : value)
| Say (voice : option string) (text : value)
| Gather (action : string) (nested : list twiml)
| Hangup.

(** The body of a response: the text of an XML document, a JSON value, or
    the bytes of a file. *)
Inductive body : Type :=
| Xml (text : string)
| Json (v : value)
| FileBytes (data : bytes).

Record http_response : Type := HttpResponse {
  status : Z;
  mimetype : string;
  payload : body
}.

(** [jsonify(v)] *)
Definition jsonify (v : value) : http_response :=
  HttpResponse 200 "application/json" (Json v).

(** [request.form.get(key, default)] on the fields of a form. *)
Fixpoint form_get (form : list (string * string)) (key default : string) : string :=
  match form with
  | [] => default
  | (k, v) :: rest => if String.eqb k key then v else form_get rest key default
  end.

(** [any(phrase in text for phrase in phrases)] *)
Definition any_phrase_in (phrases : list string) (text : string) : bool :=
  existsb (fun phrase => contains phrase text) phrases.

(** ** Reading an XML document

    What the telephony provider makes of the text of a TwiML document: the
    text is cut into tags and character data, the tags are nested into
    elements, and the elements below [<Response>] are read as verbs.  The
    reader knows the XML declaration, start, end and empty-element tags with
    quoted attributes, character data, and the five predefined entities;
    comments, CDATA sections and numeric character references are beyond it
    (it gives [None]). *)

Inductive token : Type :=
| TDecl
| TOpen (name : string) (attrs : list (string * string))
| TEmpty (name : string) (attrs : list (string * string))
| TClose (name : string)
| TText (text : string).

(** [s] followed by the character [c]. *)
Fixpoint snoc (s : string) (c : ascii) : string :=
  match s with
  | EmptyString => String c EmptyString
  | String a rest => String a (snoc rest c)
  end.

Definition is_space (c : ascii) : bool :=
  let n := nat_of_ascii c in
  ((n =? 32) || (n =? 10) || (n =? 9) || (n =? 13))%nat.

(** A character of a tag or attribute name. *)
Definition is_name_char (c : ascii) : bool :=
  let n := nat_of_ascii c in
  (((65 <=? n) && (n <=? 90)) || ((97 <=? n) && (n <=? 122)) ||
   ((48 <=? n) && (n <=? 57)) || (n =? 45) || (n =? 95) || (n =? 58) ||
   (n =? 46))%nat.

(** The character that the reference [&name;] stands for. *)
Definition entity (name : string) : option ascii :=
  if String.eqb name "amp" then Some "&"%char
  else if String.eqb name "lt" then Some "<"%char
  else if String.eqb name "gt" then Some ">"%char
  else if String.eqb name "quot" then Some (ascii_of_nat 34)
  else if String.eqb name "apos" then Some "'"%char
  else None.

(** Where the reader is in the text. *)
Inductive lexer : Type :=
| InText (acc : string)
| InTextRef (acc ref : string)
| AfterLt
| InDecl (question : bool)
| InCloseName (name : string)
| AfterCloseName (name : string)
| InName (name : string)
| InTag (name : string) (attrs : list (string * string))
| InKey (name : string) (attrs : list (string * string)) (key : string)
| AfterEq (name : string) (attrs : list (string * string)) (key : string)
| InValue (name : string) (attrs : list (string * string)) (key : string)
    (quote : ascii) (acc : string)
| InValueRef (name : string) (attrs : list (string * string)) (key : string)
    (quote : ascii) (acc ref : string)
| AfterValue (name : string) (attrs : list (string * string))
| AfterSlash (name : string) (attrs : list (string * string)).

(** One character: the next state and the tokens that are complete. *)
Definition step (st : lexer) (c : ascii) : option (lexer * list token) :=
  match st with
  | InText acc =>
      if Ascii.eqb c "<" then Some (AfterLt, [TText acc])
      else if Ascii.eqb c "&" then Some (InTextRef acc "", [])
      else Some (InText (snoc acc c), [])
  | InTextRef acc ref =>
      if Ascii.eqb c ";" then
        match entity ref with
        | Some x => Some (InText (snoc acc x), [])
        | None => None
        end
      else if is_name_char c then Some (InTextRef acc (snoc ref c), [])
      else None
  | AfterLt =>
      if Ascii.eqb c "?" then Some (InDecl false, [])
      else if Ascii.eqb c "/" then Some (InCloseName "", [])
      else if is_name_char c then Some (InName (String c ""), [])
      else None
  | InDecl question =>
      if Ascii.eqb c ">" && question then Some (InText "", [TDecl])
      else Some (InDecl (Ascii.eqb c "?"), [])
  | InCloseName name =>
      if is_name_char c then Some (InCloseName (snoc name c), [])
      else if String.eqb name "" then None
      else if Ascii.eqb c ">" then Some (InText "", [TClose name])
      else if is_space c then Some (AfterCloseName name, [])
      else None
  | AfterCloseName name =>
      if Ascii.eqb c ">" then Some (InText "", [TClose name])
      else if is_space c then Some (AfterCloseName name, [])
      else None
  | InName name =>
      if is_name_char c then Some (InName (snoc name c), [])
      else if Ascii.eqb c ">" then Some (InText "", [TOpen name []])
      else if Ascii.eqb c "/" then Some (AfterSlash name [], [])
      else if is_space c then Some (InTag name [], [])
      else None
  | InTag name attrs =>
      if is_name_char c then Some (InKey name attrs (String c ""), [])
      else if Ascii.eqb c ">" then Some (InText "", [TOpen name attrs])
      else if Ascii.eqb c "/" then Some (AfterSlash name attrs, [])
      else if is_space c then Some (InTag name attrs, [])
      else None
  | InKey name attrs key =>
      if is_name_char c then Some (InKey name attrs (snoc key c), [])
      else if Ascii.eqb c "=" then Some (AfterEq name attrs key, [])
      else None
  | AfterEq name attrs key =>
      if Ascii.eqb c (ascii_of_nat 34) || Ascii.eqb c "'"
      then Some (InValue name attrs key c "", [])
      else None
  | InValue name attrs key quote acc =>
      if Ascii.eqb c quote
      then Some (AfterValue name (attrs ++ [(key, acc)])%list, [])
      else if Ascii.eqb c "<" then None
      else if Ascii.eqb c "&" then Some (InValueRef name attrs key quote acc "", [])
      else Some (InValue name attrs key quote (snoc acc c), [])
  | InValueRef name attrs key quote acc ref =>
      if Ascii.eqb c ";" then
        match entity ref with
        | Some x => Some (InValue name attrs key quote (snoc acc x), [])
        | None => None
        end
      else if is_name_char c
      then Some (InValueRef name attrs key quote acc (snoc ref c), [])
      else None
  | AfterValue name attrs =>
      if Ascii.eqb c ">" then Some (InText "", [TOpen name attrs])
      else if Ascii.eqb c "/" then Some (AfterSlash name attrs, [])
      else if is_space c then Some (InTag name attrs, [])
      else None
  | AfterSlash name attrs =>
      if Ascii.eqb c ">" then Some (InText "", [TEmpty name attrs])
      else None
  end.

(** The state after the characters of [s], and the tokens completed on the
    way. *)
Fixpoint run (st : lexer) (s : string) : option (lexer * list token) :=
  match s with
  | EmptyString => Some (st, [])
  | String c rest =>
      match step st c with
      | Some (st', out) =>
          match run st' rest with
          | Some (st'', out') => Some (st'', (out ++ out')%list)
          | None => None
          end
      | None => None
      end
  end.

(** The tokens of a whole text, which has to end outside of a tag. *)
Definition tokens (s : string) : option (list token) :=
  match run (InText "") s with
  | Some (InText acc, out) => Some (out ++ [TText acc])%list
  | _ => None
  end.

(** An element with its attributes and children, or character data. *)
Inductive xml : Type :=
| Element (name : string) (attrs : list (string * string)) (children : list xml)
| Text (text : string).

(** An element whose end tag has not been read yet. *)
Record frame : Type := Frame {
  frame_name : string;
  frame_attrs : list (string * string);
  frame_children : list xml
}.

(** A finished node becomes the last child of the innermost open element,
    or the last node of the top level. *)
Definition add_node (x : xml) (stack : list frame) (top : list xml)
    : list frame * list xml :=
  match stack with
  | [] => ([], (top ++ [x])%list)
  | Frame name attrs children :: rest =>
      (Frame name attrs (children ++ [x])%list :: rest, top)
  end.

(** Nests the tokens: [stack] holds the open elements, innermost first. *)
Fixpoint build (ts : list token) (stack : list frame) (top : list xml)
    : option (list xml) :=
  match ts with
  | [] => match stack with [] => Some top | _ => None end
  | TDecl :: rest => build rest stack top
  | TText text :: rest =>
      let '(stack', top') := add_node (Text text) stack top in
      build rest stack' top'
  | TEmpty name attrs :: rest =>
      let '(stack', top') := add_node (Element name attrs []) stack top in
      build rest stack' top'
  | TOpen name attrs :: rest => build rest (Frame name attrs [] :: stack) top
  | TClose name :: rest =>
      match stack with
      | Frame open attrs children :: outer =>
          if String.eqb name open then
            let '(stack', top') := add_node (Element open attrs children) outer top in
            build rest stack' top'
          else None
      | [] => None
      end
  end.

Definition parse_xml (s : string) : option (list xml) :=
  match tokens s with
  | Some ts => build ts [] []
  | None => None
  end.

(** The value of the attribute [key]. *)
Fixpoint attribute (attrs : list (string * string)) (key : string) : option string :=
  match attrs with
  | [] => None
  | (k, v) :: rest => if String.eqb k key then Some v else attribute rest key
  end.

(** The character data of an element that holds nothing else. *)
Definition text_of (children : list xml) : option string :=
  match children with
  | [] => Some ""
  | [Text text] => Some text
  | _ => None
  end.

Definition is_blank (x : xml) : bool :=
  match x with
  | Text text => all_chars is_space text
  | Element _ _ _ => false
  end.

(** A verb that holds text only: [<Say>], [<Play>], [<Hangup>].  White
    space between verbs is skipped. *)
Definition read_simple (x : xml) : option (list twiml) :=
  match x with
  | Text text => if all_chars is_space text then Some [] else None
  | Element name attrs children =>
      match text_of children with
      | Some text =>
          if String.eqb name "Say" then Some [Say (attribute attrs "voice") (VStr text)]
          else if String.eqb name "Play" then Some [Play (VStr text)]
          else if String.eqb name "Hangup" then
            if all_chars is_space text then Some [Hangup] else None
          else None
      | None => None
      end
  end.

(** Reads every node with [read] and puts the verbs in a row. *)
Fixpoint read_all (read : xml -> option (list twiml)) (nodes : list xml)
    : option (list twiml) :=
  match nodes with
  | [] => Some []
  | x :: rest =>
      match read x, read_all read rest with
      | Some verbs, Some more => Some (verbs ++ more)%list
      | _, _ => None
      end
  end.

(** A verb of the top level: a [<Gather>] with the simple verbs nested in
    it, or a simple verb. *)
Definition read_verb (x : xml) : option (list twiml) :=
  match x with
  | Element name attrs children =>
      if String.eqb name "Gather" then
        match read_all read_simple children with
        | Some nested =>
            Some [Gather (default "" (attribute attrs "action")) nested]
        | None => None
        end
      else read_simple x
  | Text _ => read_simple x
  end.

(** The verbs of a TwiML document: the document is one [<Response>]
    element. *)
Definition read_twiml (s : string) : option (list twiml) :=
  match parse_xml s with
  | Some nodes =>
      match List.filter (fun x => negb (is_blank x)) nodes with
      | [Element name _ children] =>
          if String.eqb name "Response" then read_all read_verb children else None
      | _ => None
      end
  | None => None
  end.

(** ** Writing a TwiML document

    The layout of the documents of the source: the declaration, then
    [<Response>] with one verb per line, four spaces in; the verbs nested
    in a [<Gather>] four spaces further in.  Texts are written as they are:
    nothing is escaped. *)

Definition xml_declaration : string :=
  "<?xml version=" +:+ dq +:+ "1.0" +:+ dq +:+ " encoding=" +:+ dq +:+ "UTF-8"
    +:+ dq +:+ "?>".

(** The start of a [<Gather>] tag, up to its last attribute: it takes two
    lines. *)
Definition gather_tag (action : string) : string :=
  "<Gather input=" +:+ dq +:+ "speech" +:+ dq +:+ " action=" +:+ dq +:+ action
    +:+ dq +:+ " method=" +:+ dq +:+ "POST" +:+ dq +:+ nl +:+
  "            speechTimeout=" +:+ dq +:+ "auto" +:+ dq +:+ " language=" +:+ dq
    +:+ "en-US" +:+ dq.

Definition simple_verb_xml (E : Env) (verb : twiml) : string :=
  match verb with
  | Play url => "<Play>" +:+ py_str E url +:+ "</Play>"
  | Say None text => "<Say>" +:+ py_str E text +:+ "</Say>"
  | Say (Some voice) text =>
      "<Say voice=" +:+ dq +:+ voice +:+ dq +:+ ">" +:+ py_str E text +:+ "</Say>"
  | Hangup => "<Hangup/>"
  | Gather action _ => gather_tag action +:+ "/>"
  end.

Definition verb_xml (E : Env) (verb : twiml) : string :=
  match verb with
  | Gather action (first :: others) =>
      gather_tag action +:+ ">" +:+
      join (map (fun inner => nl +:+ "        " +:+ simple_verb_xml E inner)
              (first :: others)) +:+
      nl +:+ "    </Gather>"
  | _ => simple_verb_xml E verb
  end.

Definition twiml_xml (E : Env) (doc : list twiml) : string :=
  xml_declaration +:+ nl +:+ "<Response>" +:+
  join (map (fun verb => nl +:+ "    " +:+ verb_xml E verb) doc) +:+
  nl +:+ "</Response>".

(** The response that carries the document [doc]. *)
Definition xml_response (E : Env) (doc : list twiml) : http_response :=
  HttpResponse 200 "text/xml" (Xml (twiml_xml E doc)).

Section Server.

Variable E : Env.

(** *** Primitives *)

(** [requests.post(url, json=body, timeout=timeout)].  The body is written
    with [json.dumps(body, allow_nan=False)]: for a body that holds [NaN] or
    an infinity the call raises and nothing is sent. *)
Definition requests_post (url : string) (body : value) (timeout : Z) : M response :=
  fun w =>
    if json_compliant body then
      let req := Request url body timeout in
      let w' := mkWorld (audio_dir w) (outbox w ++ [req])%list (draws w) in
      match network E (outbox w) req with
      | Answers r => (Ok r, w')
      | Fails e => (Raise e, w')
      end
    else (Raise InvalidJSONError, w).

(** [response.raise_for_status()]: raises for a status from 400 to 599. *)
Definition raise_for_status (r : response) : M unit :=
  if ((400 <=? status_code r) && (status_code r <? 600))%Z
  then raise HTTPError else ret tt.

(** [response.json()] *)
Definition response_json (r : response) : M value :=
  match json r with
  | Some v => ret v
  | None => raise JSONDecodeError
  end.

(** [print(f"...{v}...")] for values decoded from JSON.  The standard output
    is taken to encode as UTF-8 with the strict error handler, the default:
    the call raises when a value is a string that holds a surrogate.  The
    other calls of [print] write text that encodes and are left out: the
    fields of a form (the decoder of a form replaces what is not UTF-8), and
    the messages of the exceptions caught by the clients, which the
    libraries build. *)
Definition print (vs : list value) : M unit :=
  if forallb printable vs then ret tt else raise UnicodeEncodeError.

(** [Response(twiml, mimetype="text/xml")].  The text is encoded as UTF-8,
    which raises on a surrogate; [interpolated] are the values decoded from
    JSON that the f-string wrote into [twiml].  Its other parts are text of
    the source, UUIDs, and [BASE_URL], which is taken to be text that
    encodes. *)
Definition Response_xml (twiml : string) (interpolated : list value) : M http_response :=
  if forallb printable interpolated
  then ret (HttpResponse 200 "text/xml" (Xml twiml))
  else raise UnicodeEncodeError.

(** [str(uuid.uuid4())] *)
Definition uuid4 : M string :=
  fun w =>
    (Ok (uuid_str (uuid4_int (urandom E (draws w)))),
     mkWorld (audio_dir w) (outbox w) (S (draws w))).

(** The names that are no entry of a directory: the empty name and the dot
    name the directory itself, two dots name its parent. *)
Definition special_name (name : string) : bool :=
  String.eqb name "" || String.eqb name "." || String.eqb name "..".

(** The entry that [dir / name] names, for a directory [dir] that exists and
    a [name] with no slash: a directory for a special name, and else the
    entry of that name in [dir]. *)
Definition path_lookup (dir : gmap string node) (name : string) : option node :=
  if special_name name then Some Dir else dir !! name.

(** [(AUDIO_DIR / name).exists()].  [AUDIO_DIR] exists: the module creates
    it when it is loaded (line 47). *)
Definition path_exists (name : string) : M bool :=
  fun w => (Ok (bool_decide (is_Some (path_lookup (audio_dir w) name))), w).

(** [(AUDIO_DIR / name).write_bytes(data)] *)
Definition write_bytes (name : string) (data : bytes) : M unit :=
  fun w =>
    match path_lookup (audio_dir w) name with
    | Some Dir => (Raise IsADirectoryError, w)
    | _ => (Ok tt, mkWorld (<[name := File data]> (audio_dir w)) (outbox w) (draws w))
    end.

(** What [send_file] finds for [AUDIO_DIR / name]: it looks in the directory
    that [send_file_root] gives. *)
Definition served_entry (w : World) (name : string) : option node :=
  match send_file_root E with
  | SameDirectory => path_lookup (audio_dir w) name
  | OtherDirectory (Some entries) => path_lookup entries name
  | OtherDirectory None => None
  end.

(** [send_file(AUDIO_DIR / name, mimetype=...)], for a request without
    conditional or range headers. *)
Definition send_file (name mimetype : string) : M http_response :=
  fun w =>
    match served_entry w name with
    | Some (File data) => (Ok (HttpResponse 200 mimetype (FileBytes data)), w)
    | Some Dir => (Raise IsADirectoryError, w)
    | None => (Raise FileNotFoundError, w)
    end.

(** *** Helper functions of the source *)

(** Returns the URL of the stored audio, or [None]. *)
Definition call_tts (text : value) (language : string) : M value :=
  try_except
    (response <- requests_post (TTS_URL E +:+ "/tts")
                   (VDict [("text", text); ("language", VStr language)]) 30 ;;
     raise_for_status response ;;;
     audio_id <- uuid4 ;;
     write_bytes (audio_id +:+ ".wav") (content response) ;;;
     ret (VStr (BASE_URL E +:+ "/audio/" +:+ audio_id +:+ ".wav")))
    (fun _ => ret VNone).

Definition call_langflow (message : string) : M value :=
  try_except
    (response <- requests_post
                   (LANGFLOW_URL E +:+ "/api/v1/run/" +:+ LANGFLOW_FLOW_ID E)
                   (VDict [("input_value", VStr message);
                           ("output_type", VStr "chat");
                           ("input_type", VStr "chat")]) 60 ;;
     raise_for_status response ;;;
     result <- response_json response ;;
     outputs <- lift (py_get result "outputs" (VList [VDict []])) ;;
     if truthy outputs then
       o0 <- lift (py_index0 outputs) ;;
       inner <- lift (py_get o0 "outputs" (VList [VDict []])) ;;
       i0 <- lift (py_index0 inner) ;;
       results <- lift (py_get i0 "results" (VDict [])) ;;
       msg <- lift (py_get results "message" (VDict [])) ;;
       lift (py_get msg "text" (VStr ""))
     else ret (VStr "I couldn't process that through the workflow."))
    (fun _ => ret (VStr "I'm having trouble with my AI workflow. Please try again.")).

(** The float [0.7]: the binary64 number nearest to seven tenths. *)
Definition temperature : spec_float := S754_finite false 6305039478318694 (-53).

Definition call_llm (message : string) (conversation_history : value) : M value :=
  if negb (String.eqb (LANGFLOW_FLOW_ID E) "") then call_langflow message
  else
    try_except
      (let prompt := SYSTEM_PROMPT E +:+ nl +:+ nl +:+ "User: " +:+ message
                       +:+ nl +:+ "Assistant:" in
       response <- requests_post (LLM_URL E +:+ "/api/generate")
                     (VDict [("model", VStr "llama3.1:8b");
                             ("prompt", VStr prompt);
                             ("stream", VBool false);
                             ("options", VDict [("temperature", VFloat temperature);
                                                ("num_predict", VInt 150)])]) 60 ;;
       raise_for_status response ;;;
       result <- response_json response ;;
       lift (py_get result "response" (VStr "I couldn't process that.")))
      (fun _ => ret (VStr "I'm sorry, I had trouble understanding. Could you repeat that?")).

(** *** Twilio endpoints *)

(** The two lines of the [<Gather>] tag of every Twilio document, without
    the end of the tag. *)
Definition twilio_gather_tag : list string :=
  ["    <Gather input=" +:+ dq +:+ "speech" +:+ dq +:+ " action=" +:+ dq +:+
     BASE_URL E +:+ "/gather" +:+ dq +:+ " method=" +:+ dq +:+ "POST" +:+ dq;
   "            speechTimeout=" +:+ dq +:+ "auto" +:+ dq +:+ " language=" +:+ dq
     +:+ "en-US" +:+ dq].

(** [POST /voice] *)
Definition twilio_voice (form : list (string * string)) : M http_response :=
  let call_sid := form_get form "CallSid" "unknown" in
  let from_number := form_get form "From" "unknown" in
  let greeting := "Hello! I'm your AI assistant. How can I help you today?" in
  audio_url <- call_tts (VStr greeting) "en" ;;
  if truthy audio_url then
    Response_xml
      (lines [xml_declaration;
              "<Response>";
              "    <Play>" +:+ py_str E audio_url +:+ "</Play>";
              lines twilio_gather_tag +:+ ">";
              "        <Say>I'm listening.</Say>";
              "    </Gather>";
              "    <Say>I didn't hear anything. Goodbye!</Say>";
              "    <Hangup/>";
              "</Response>"]) []
  else
    Response_xml
      (lines [xml_declaration;
              "<Response>";
              "    <Say voice=" +:+ dq +:+ "alice" +:+ dq +:+ ">" +:+ greeting +:+ "</Say>";
              lines twilio_gather_tag +:+ ">";
              "        <Say>I'm listening.</Say>";
              "    </Gather>";
              "    <Say>I didn't hear anything. Goodbye!</Say>";
              "    <Hangup/>";
              "</Response>"]) [].

Definition twilio_goodbye_phrases : list string :=
  ["goodbye"; "bye"; "hang up"; "end call"; "that's all"].

(** [POST /gather] *)
Definition twilio_gather (form : list (string * string)) : M http_response :=
  let speech_result := form_get form "SpeechResult" "" in
  let call_sid := form_get form "CallSid" "unknown" in
  if negb (truthy (VStr speech_result)) then
    Response_xml
      (lines [xml_declaration;
              "<Response>";
              "    <Say voice=" +:+ dq +:+ "alice" +:+ dq +:+
                ">I didn't catch that. Could you repeat?</Say>";
              lines twilio_gather_tag +:+ "/>";
              "    <Say>Still nothing. Goodbye!</Say>";
              "    <Hangup/>";
              "</Response>"]) []
  else if any_phrase_in twilio_goodbye_phrases (lower speech_result) then
    let farewell := "Thank you for calling! Have a great day. Goodbye!" in
    audio_url <- call_tts (VStr farewell) "en" ;;
    if truthy audio_url then
      Response_xml
        (lines [xml_declaration;
                "<Response>";
                "    <Play>" +:+ py_str E audio_url +:+ "</Play>";
                "    <Hangup/>";
                "</Response>"]) []
    else
      Response_xml
        (lines [xml_declaration;
                "<Response>";
                "    <Say voice=" +:+ dq +:+ "alice" +:+ dq +:+ ">" +:+ farewell +:+ "</Say>";
                "    <Hangup/>";
                "</Response>"]) []
  else
    ai_response <- call_llm speech_result VNone ;;
    print [ai_response] ;;;
    audio_url <- call_tts ai_response "en" ;;
    if truthy audio_url then
      Response_xml
        (lines [xml_declaration;
                "<Response>";
                "    <Play>" +:+ py_str E audio_url +:+ "</Play>";
                lines twilio_gather_tag +:+ "/>";
                "    <Say>Are you still there?</Say>";
                "    <Hangup/>";
                "</Response>"]) []
    else
      Response_xml
        (lines [xml_declaration;
                "<Response>";
                "    <Say voice=" +:+ dq +:+ "alice" +:+ dq +:+ ">" +:+
                  py_str E ai_response +:+ "</Say>";
                lines twilio_gather_tag +:+ "/>";
                "    <Say>Are you still there?</Say>";
                "    <Hangup/>";
                "</Response>"]) [ai_response].

(** *** Jambonz endpoints

    [request_json] is what [request.json] evaluates to.  When Flask cannot
    decode the body (no JSON content type, a body that is not JSON), it
    aborts the request before the first line of the handler ends; these
    definitions start after that. *)

Definition jambonz_hangup : value := VDict [("verb", VStr "hangup")].

(** The gather verb of the greeting. *)
Definition jambonz_greeting_gather : value :=
  VDict [("verb", VStr "gather");
         ("input", VList [VStr "speech"]);
         ("actionHook", VStr (BASE_URL E +:+ "/jambonz-gather"));
         ("timeout", VInt 10);
         ("speechTimeout", VStr "auto");
         ("recognizer", VDict [("vendor", VStr "google");
                               ("language", VStr "en-US")])].

(** The gather verb of a turn. *)
Definition jambonz_turn_gather : value :=
  VDict [("verb", VStr "gather");
         ("input", VList [VStr "speech"]);
         ("actionHook", VStr (BASE_URL E +:+ "/jambonz-gather"));
         ("timeout", VInt 10)].

(** [POST /jambonz] *)
Definition jambonz_webhook (request_json : value) : M http_response :=
  let payload := py_or request_json (VDict []) in
  call_sid <- lift (py_get payload "call_sid" (VStr "unknown")) ;;
  from_number <- lift (py_get payload "from" (VStr "unknown")) ;;
  print [call_sid; from_number] ;;;
  let greeting := "Hello! I'm your AI assistant. How can I help you today?" in
  audio_url <- call_tts (VStr greeting) "en" ;;
  let response :=
    if truthy audio_url then
      [VDict [("verb", VStr "play"); ("url", audio_url)]]
    else
      [VDict [("verb", VStr "say");
              ("text", VStr greeting);
              ("synthesizer", VDict [("vendor", VStr "google");
                                     ("language", VStr "en-US");
                                     ("voice", VStr "en-US-Wavenet-D")])]] in
  let response := (response ++ [jambonz_greeting_gather])%list in
  let response :=
    (response ++ [VDict [("verb", VStr "say");
                         ("text", VStr "I didn't hear anything. Goodbye!")]])%list in
  let response := (response ++ [jambonz_hangup])%list in
  ret (jsonify (VList response)).

Definition jambonz_goodbye_phrases : list string :=
  ["goodbye"; "bye"; "hang up"; "end call"].

(** [POST /jambonz-gather] *)
Definition jambonz_gather (request_json : value) : M http_response :=
  let payload := py_or request_json (VDict []) in
  speech <- lift (py_get payload "speech" (VDict [])) ;;
  alternatives <- lift (py_get speech "alternatives" (VList [VDict []])) ;;
  first <- lift (py_index0 alternatives) ;;
  speech_text <- lift (py_get first "transcript" (VStr "")) ;;
  print [speech_text] ;;;
  if negb (truthy speech_text) then
    ret (jsonify (VList
           [VDict [("verb", VStr "say");
                   ("text", VStr "I didn't catch that. Could you repeat?")];
            jambonz_turn_gather;
            jambonz_hangup]))
  else
    (* [speech_text.lower()] needs a string; the text is one from here on *)
    match speech_text with
    | VStr text =>
        if any_phrase_in jambonz_goodbye_phrases (lower text) then
          let farewell := "Thank you for calling! Goodbye!" in
          audio_url <- call_tts (VStr farewell) "en" ;;
          if truthy audio_url then
            ret (jsonify (VList
                   [VDict [("verb", VStr "play"); ("url", audio_url)];
                    jambonz_hangup]))
          else
            ret (jsonify (VList
                   [VDict [("verb", VStr "say"); ("text", VStr farewell)];
                    jambonz_hangup]))
        else
          ai_response <- call_llm text VNone ;;
          audio_url <- call_tts ai_response "en" ;;
          let response :=
            if truthy audio_url then
              [VDict [("verb", VStr "play"); ("url", audio_url)]]
            else
              [VDict [("verb", VStr "say"); ("text", ai_response)]] in
          let response := (response ++ [jambonz_turn_gather])%list in
          let response := (response ++ [jambonz_hangup])%list in
          ret (jsonify (VList response))
    | _ => raise AttributeError
    end.

(** *** Audio serving *)

(** The route [/audio/<filename>]: the default converter of a route
    parameter takes one path segment, which is not empty and holds no
    slash.  Returns the parameter when the path matches. *)
Definition route_audio (path : string) : option string :=
  if startswith "/audio/" path then
    let filename := substring 7 (String.length path - 7) path in
    if negb (String.eqb filename "") && negb (contains "/" filename)
    then Some filename else None
  else None.

(** [GET /audio/<filename>] *)
Definition serve_audio (filename : string) : M http_response :=
  found <- path_exists filename ;;
  if found : bool then send_file filename "audio/wav"
  else ret (HttpResponse 404 "application/json"
              (Json (VDict [("error", VStr "Audio not found")]))).

End Server.

(** ** Requests, worlds and fixtures used to state the properties *)

(** The request [call_tts] sends. *)
Definition tts_request (E : Env) (text : value) (language : string) : request :=
  Request (TTS_URL E +:+ "/tts")
    (VDict [("text", text); ("language", VStr language)]) 30.

(** The request the direct client of [call_llm] sends. *)
Definition ollama_request (E : Env) (message : string) : request :=
  Request (LLM_URL E +:+ "/api/generate")
    (VDict [("model", VStr "llama3.1:8b");
            ("prompt", VStr (SYSTEM_PROMPT E +:+ nl +:+ nl +:+ "User: " +:+ message
                               +:+ nl +:+ "Assistant:"));
            ("stream", VBool false);
            ("options", VDict [("temperature", VFloat temperature);
                               ("num_predict", VInt 150)])]) 60.

(** The request [call_langflow] sends. *)
Definition langflow_request (E : Env) (message : string) : request :=
  Request (LANGFLOW_URL E +:+ "/api/v1/run/" +:+ LANGFLOW_FLOW_ID E)
    (VDict [("input_value", VStr message);
            ("output_type", VStr "chat");
            ("input_type", VStr "chat")]) 60.

(** The request of the Respond client that the configuration selects. *)
Definition respond_request (E : Env) (message : string) : request :=
  if negb (String.eqb (LANGFLOW_FLOW_ID E) "") then langflow_request E message
  else ollama_request E message.

(** The fixed utterance the selected Respond client returns when its call
    raises. *)
Definition respond_apology (E : Env) : string :=
  if negb (String.eqb (LANGFLOW_FLOW_ID E) "")
  then "I'm having trouble with my AI workflow. Please try again."
  else "I'm sorry, I had trouble understanding. Could you repeat that?".

(** The world after one more request was sent. *)
Definition sent (req : request) (w : World) : World :=
  mkWorld (audio_dir w) (outbox w ++ [req])%list (draws w).

(** The world after [call_tts] tried to send its request for [text]: a text
    that [json.dumps] refuses is not sent. *)
Definition tts_sent (E : Env) (text : value) (language : string) (w : World) : World :=
  if json_compliant text then sent (tts_request E text language) w else w.

(** [response.raise_for_status()] raises on this response. *)
Definition error_status (r : response) : bool :=
  ((400 <=? status_code r) && (status_code r <? 600))%Z.

(** The name of the file the next successful [call_tts] writes. *)
Definition next_audio_name (E : Env) (w : World) : string :=
  uuid_str (uuid4_int (urandom E (draws w))) +:+ ".wav".

Definition is_dict (v : value) : bool :=
  match v with VDict _ => true | _ => false end.

Definition is_str (v : value) : bool :=
  match v with VStr _ => true | _ => false end.

(** The reply that [call_langflow] takes out of the decoded body of an
    answer: its lines between [response.json()] and [return], on their
    own. *)
Definition langflow_extract (decoded : value) : result value :=
  match py_get decoded "outputs" (VList [VDict []]) with
  | Raise e => Raise e
  | Ok outputs =>
      if truthy outputs then
        match py_index0 outputs with
        | Raise e => Raise e
        | Ok o0 =>
            match py_get o0 "outputs" (VList [VDict []]) with
            | Raise e => Raise e
            | Ok inner =>
                match py_index0 inner with
                | Raise e => Raise e
                | Ok i0 =>
                    match py_get i0 "results" (VDict []) with
                    | Raise e => Raise e
                    | Ok results =>
                        match py_get results "message" (VDict []) with
                        | Raise e => Raise e
                        | Ok msg => py_get msg "text" (VStr "")
                        end
                    end
                end
            end
        end
      else Ok (VStr "I couldn't process that through the workflow.")
  end.

(** The same for the direct client of [call_llm]. *)
Definition ollama_extract (decoded : value) : result value :=
  py_get decoded "response" (VStr "I couldn't process that.").

(** The same for the client that the configuration selects. *)
Definition respond_extract (E : Env) (decoded : value) : result value :=
  if negb (String.eqb (LANGFLOW_FLOW_ID E) "") then langflow_extract decoded
  else ollama_extract decoded.

(** A failure of the Respond call: the transport raises (timeout, connection
    error), the status is an error status, the body is not JSON, or taking
    the reply out of the decoded body raises (the body is no object, or a
    level of the path to the text has another shape than the client
    expects). *)
Inductive respond_failure (E : Env) : reply -> Prop :=
| respond_fails_transport (e : exn) : respond_failure E (Fails e)
| respond_fails_status (r : response) :
    error_status r = true -> respond_failure E (Answers r)
| respond_fails_unparseable (r : response) :
    json r = None -> respond_failure E (Answers r)
| respond_fails_extraction (r : response) (v : value) (e : exn) :
    json r = Some v -> respond_extract E v = Raise e ->
    respond_failure E (Answers r).

(** A failure of the Synthesize call that [call_tts] detects: the transport
    raises, or the status is from 400 to 599. *)
Inductive synthesize_failure : reply -> Prop :=
| synthesize_fails_transport (e : exn) : synthesize_failure (Fails e)
| synthesize_fails_status (r : response) :
    error_status r = true -> synthesize_failure (Answers r).

(** The transcript decoded from a Jambonz payload: the first lines of
    [jambonz_gather], on their own. *)
Definition jambonz_speech_text (request_json : value) : result value :=
  let payload := py_or request_json (VDict []) in
  match py_get payload "speech" (VDict []) with
  | Raise e => Raise e
  | Ok speech =>
      match py_get speech "alternatives" (VList [VDict []]) with
      | Raise e => Raise e
      | Ok alternatives =>
          match py_index0 alternatives with
          | Raise e => Raise e
          | Ok first => py_get first "transcript" (VStr "")
          end
      end
  end.

(** The call id and the caller decoded from a Jambonz payload: the first
    lines of [jambonz_webhook], on their own. *)
Definition jambonz_call_fields (request_json : value) : result (list value) :=
  let payload := py_or request_json (VDict []) in
  match py_get payload "call_sid" (VStr "unknown") with
  | Raise e => Raise e
  | Ok call_sid =>
      match py_get payload "from" (VStr "unknown") with
      | Raise e => Raise e
      | Ok from_number => Ok [call_sid; from_number]
      end
  end.

(** The payload Jambonz posts for one transcript. *)
Definition jambonz_payload (transcript : value) : value :=
  VDict [("speech",
          VDict [("alternatives", VList [VDict [("transcript", transcript)]])])].

(** The steps of a call that a control document asks for, read off a
    document of either provider. *)
Inductive action : Type :=
| DoPlay (url : value)
| DoSay (text : value)
| DoGather
| DoHangup
| DoOther.

Definition twiml_action (verb : twiml) : action :=
  match verb with
  | Play url => DoPlay url
  | Say _ text => DoSay text
  | Gather _ _ => DoGather
  | Hangup => DoHangup
  end.

Definition jambonz_action (verb : value) : action :=
  match verb with
  | VDict items =>
      match dict_lookup items "verb" with
      | Some (VStr "play") =>
          match dict_lookup items "url" with Some u => DoPlay u | None => DoOther end
      | Some (VStr "say") =>
          match dict_lookup items "text" with Some t => DoSay t | None => DoOther end
      | Some (VStr "gather") => DoGather
      | Some (VStr "hangup") => DoHangup
      | _ => DoOther
      end
  | _ => DoOther
  end.

(** The steps of a document: those of the verbs that the provider reads in
    the XML text, or those of the JSON verbs.  A text that does not read as
    a TwiML document has none. *)
Definition actions (doc : body) : list action :=
  match doc with
  | Xml text =>
      match read_twiml text with
      | Some verbs => map twiml_action verbs
      | None => []
      end
  | Json (VList verbs) => map jambonz_action verbs
  | _ => []
  end.



(** The document tells the provider to say [text]. *)
Definition says (doc : body) (text : string) : bool :=
  existsb (fun a => match a with
                    | DoSay (VStr t) => String.eqb t text
                    | _ => false
                    end) (actions doc).

(** The re-prompt as the specification quotes it. *)
Definition spec_reprompt : string := "I didn't catch that, could you repeat?".

(** The entry [key] of the [options] object in the JSON body of a request. *)
Definition request_option (req : request) (key : string) : option value :=
  match req_json req with
  | VDict items =>
      match dict_lookup items "options" with
      | Some (VDict options) => dict_lookup options key
      | _ => None
      end
  | _ => None
  end.

(** The entry [key] of the JSON body of a request. *)
Definition request_field (req : request) (key : string) : option value :=
  match req_json req with
  | VDict items => dict_lookup items key
  | _ => None
  end.

(** An environment with the same configuration and another network. *)
Definition with_network (E : Env) (net : list request -> request -> reply) : Env :=
  mkEnv (BASE_URL E) (TTS_URL E) (LLM_URL E) (LANGFLOW_URL E)
    (LANGFLOW_FLOW_ID E) (SYSTEM_PROMPT E) net (urandom E)
    (send_file_root E) (repr E).

(** The same environment with the server started where [send_file] looks
    at [root]. *)
Definition with_send_file_root (E : Env) (root : root_view) : Env :=
  mkEnv (BASE_URL E) (TTS_URL E) (LLM_URL E) (LANGFLOW_URL E)
    (LANGFLOW_FLOW_ID E) (SYSTEM_PROMPT E) (network E) (urandom E)
    root (repr E).

(** The [<Gather>] of every Twilio document, with the verbs nested in it. *)
Definition twilio_gather_verb (E : Env) (nested : list twiml) : twiml :=
  Gather (BASE_URL E +:+ "/gather") nested.

(** The reply of a Twilio turn: play the URL if there is one, else say the
    text with the provider's voice. *)
Definition twilio_reply (audio_url spoken : value) : twiml :=
  if truthy audio_url then Play audio_url else Say (Some "alice") spoken.

(** The reply of a Jambonz turn. *)
Definition jambonz_reply (audio_url spoken : value) : value :=
  if truthy audio_url
  then VDict [("verb", VStr "play"); ("url", audio_url)]
  else VDict [("verb", VStr "say"); ("text", spoken)].

(** The UUID the next [call_tts] draws, as a string. *)
Definition next_uuid (E : Env) (w : World) : string :=
  uuid_str (uuid4_int (urandom E (draws w))).

(** A character that character data can hold as it is: no start of a tag
    and no start of a reference. *)
Definition plain_text_char (c : ascii) : bool :=
  negb (Ascii.eqb c "<") && negb (Ascii.eqb c "&").

(** A character that a double-quoted attribute value can hold as it is. *)
Definition plain_attr_char (c : ascii) : bool :=
  plain_text_char c && negb (Ascii.eqb c (ascii_of_nat 34)).

(** The text holds no XML markup: pasted into a document, it is read back
    as it is. *)
Definition plain_text (s : string) : bool := all_chars plain_text_char s.
Definition plain_attr (s : string) : bool := all_chars plain_attr_char s.

(** The texts of a verb hold no markup (and a nested verb nests nothing). *)
Definition simple_verb_plain (E : Env) (verb : twiml) : bool :=
  match verb with
  | Play url => plain_text (py_str E url)
  | Say voice text =>
      match voice with Some v => plain_attr v | None => true end &&
      plain_text (py_str E text)
  | Hangup => true
  | Gather _ _ => false
  end.

Definition verb_plain (E : Env) (verb : twiml) : bool :=
  match verb with
  | Gather action nested => plain_attr action && forallb (simple_verb_plain E) nested
  | _ => simple_verb_plain E verb
  end.

(** A verb as it is read back: its texts are strings. *)
Definition simple_verb_read (E : Env) (verb : twiml) : twiml :=
  match verb with
  | Play url => Play (VStr (py_str E url))
  | Say voice text => Say voice (VStr (py_str E text))
  | _ => verb
  end.

Definition verb_read (E : Env) (verb : twiml) : twiml :=
  match verb with
  | Gather action nested => Gather action (map (simple_verb_read E) nested)
  | _ => simple_verb_read E verb
  end.

(** The reply of a turn as a step of the call: play the audio when there is
    some, else say the text. *)
Definition reply_action (audio_url spoken : value) : action :=
  if truthy audio_url then DoPlay audio_url else DoSay spoken.





Module Fixtures.

(** The default configuration of the source, with every backend down and
    the server started in the directory of its module.  No fixture writes
    the [repr] of a value. *)
Definition offline : Env :=
  mkEnv "http://localhost:8080" "http://localhost:5000" "http://localhost:11434"
    "http://localhost:7860" ""
    ("You are a helpful AI voice assistant." +:+ nl +:+
     "Keep your responses brief and conversational - aim for 1-2 sentences." +:+ nl +:+
     "You're speaking on a phone call, so be natural and friendly.")
    (fun _ _ => Fails ConnectionError) (fun n => N.of_nat n)
    SameDirectory (fun _ => "").

(** An empty audio cache, nothing sent, nothing drawn. *)
Definition fresh : World := mkWorld ∅ [] 0.

(** A network whose language model answers [reply_json] with status 200 and
    whose other backends answer [r]. *)
Definition llm_answers (E : Env) (reply_json : value) (r : reply)
    : list request -> request -> reply :=
  fun _ req =>
    if String.eqb (req_url req) (LLM_URL E +:+ "/api/generate")
    then Answers (Response 200 [] (Some reply_json))
    else r.

Definition wav : bytes := [Byte.x52; Byte.x49; Byte.x46; Byte.x46].

(** The language model answers "Hi there."; Synthesize answers with the
    status 304 and no body. *)
Definition not_modified : Env :=
  with_network offline
    (llm_answers offline (VDict [("response", VStr "Hi there.")])
       (Answers (Response 304 [] None))).


(** The language model answers [{"response": null}]; Synthesize is down. *)
Definition speechless : Env :=
  with_network offline
    (llm_answers offline (VDict [("response", VNone)]) (Fails ConnectionError)).


(** The code point U+D800, a surrogate on its own, which JSON writes
    [\ud800]. *)
Definition surrogate : string :=
  String (ascii_of_nat 237) (String (ascii_of_nat 160) (String (ascii_of_nat 128) "")).

(** The language model answers with that surrogate; Synthesize is down. *)
Definition garbled : Env :=
  with_network offline
    (llm_answers offline (VDict [("response", VStr surrogate)])
       (Fails ConnectionError)).

(** Synthesize answers every request with the bytes [wav]. *)
Definition synthesizing : Env :=
  with_network offline (fun _ _ => Answers (Response 200 wav None)).

(** The same, with the server started in another directory than that of its
    module, and nothing at [audio_cache] below the module. *)
Definition started_elsewhere : Env :=
  with_send_file_root synthesizing (OtherDirectory None).

End Fixtures.

(** ** The health check and the effects of a handler *)

(** [GET /health].  [ASR_URL] is the one setting of the source that [Env]
    does not hold; no handler uses it. *)
Definition health (E : Env) (ASR_URL : string) : M http_response :=
  ret (jsonify
         (VDict [("status", VStr "ok");
                 ("service", VStr "ai-hotline-webhook");
                 ("services",
                  VDict [("tts", VStr (TTS_URL E));
                         ("asr", VStr ASR_URL);
                         ("llm", VStr (LLM_URL E));
                         ("langflow",
                          VStr (if negb (String.eqb (LANGFLOW_FLOW_ID E) "")
                                then LANGFLOW_URL E
                                else "not configured"))])])).

(** The entry [key] of the [services] object of a health answer. *)
Definition health_service (resp : http_response) (key : string) : option value :=
  match payload resp with
  | Json (VDict items) =>
      match dict_lookup items "services" with
      | Some (VDict services) => dict_lookup services key
      | _ => None
      end
  | _ => None
  end.

(** What one webhook may do to the world: send at most two requests, draw at
    most one UUID, and leave every entry of the audio directory as it was,
    the one of the next audio name apart. *)
Definition bounded_effect (E : Env) (w w' : World) : Prop :=
  (exists reqs, outbox w' = (outbox w ++ reqs)%list /\ (length reqs <= 2)%nat) /\
  (draws w <= draws w' <= S (draws w))%nat /\
  (forall name, name <> next_audio_name E w ->
                audio_dir w' !! name = audio_dir w !! name).

(** The greeting of both providers. *)
Definition greeting : string :=
  "Hello! I'm your AI assistant. How can I help you today?".

(** The greeting verb of Jambonz when there is no audio. *)
Definition jambonz_say_greeting : value :=
  VDict [("verb", VStr "say");
         ("text", VStr greeting);
         ("synthesizer", VDict [("vendor", VStr "google");
                                ("language", VStr "en-US");
                                ("voice", VStr "en-US-Wavenet-D")])].

(** The re-prompt document of Jambonz. *)
Definition jambonz_reprompt (E : Env) : http_response :=
  jsonify (VList
    [VDict [("verb", VStr "say");
            ("text", VStr "I didn't catch that. Could you repeat?")];
     jambonz_turn_gather E;
     jambonz_hangup]).

(** The body the workflow backend sends for the reply [text]. *)
Definition langflow_body (text : value) : value :=
  VDict [("outputs",
          VList [VDict [("outputs",
                         VList [VDict [("results",
                                        VDict [("message",
                                                VDict [("text", text)])])]])]])].
(** ** The synthesis server ([src/tts_server.py])

    The backend that [call_tts] posts to.  The speech engine is outside the
    source: what constructing it and what one synthesis come to are
    parameters. *)

(** What a call into the engine comes to: a value, or an exception, of which
    the handler only reads [str(e)]. *)
Inductive outcome (A : Type) : Type :=
| Done (a : A)
| Failed (message : string).
Arguments Done {A} a.
Arguments Failed {A} message.

(** [DEFAULT_SPEAKER], what the n-th construction [TTS(...)] comes to, and
    what the n-th [tts.tts_to_file(text, file_path, speaker_wav, language)]
    writes to its file. *)
Record TtsEnv : Type := mkTtsEnv {
  DEFAULT_SPEAKER : string;
  load_model : nat -> outcome unit;
  tts_to_file : nat -> value -> value -> value -> outcome bytes
}.

(** The state of the server: whether the global [tts_model] is set, how
    often [TTS(...)] was constructed, and how many temporary files were made
    ([delete=False]: none is ever removed). *)
Record TtsState : Type := mkTtsState {
  model_loaded : bool;
  loads : nat;
  temp_files : nat
}.

(** [get_tts()] *)
Definition get_tts (T : TtsEnv) (s : TtsState) : outcome unit * TtsState :=
  if model_loaded s then (Done tt, s)
  else
    match load_model T (loads s) with
    | Done _ => (Done tt, mkTtsState true (S (loads s)) (temp_files s))
    | Failed message =>
        (Failed message, mkTtsState false (S (loads s)) (temp_files s))
    end.

(** [key in container], for a string [key]: a key of a dict, an element of a
    list, a substring of a string; nothing else is iterable. *)
Definition py_in (key : string) (container : value) : result bool :=
  match container with
  | VDict items =>
      Ok match dict_lookup items key with Some _ => true | None => false end
  | VList items =>
      Ok (existsb (fun v => match v with
                            | VStr s => String.eqb s key
                            | _ => false
                            end) items)
  | VStr s => Ok (contains key s)
  | _ => Raise TypeError
  end.

(** [container[key]], for a string [key]: only a dict can be subscripted by
    a string. *)
Definition py_getitem (container : value) (key : string) : result value :=
  match container with
  | VDict items =>
      match dict_lookup items key with
      | Some v => Ok v
      | None => Raise KeyError
      end
  | _ => Raise TypeError
  end.

(** [jsonify({"error": message}), code] *)
Definition error_response (code : Z) (message : string) : http_response :=
  HttpResponse code "application/json" (Json (VDict [("error", VStr message)])).

(** [POST /tts]: [data] is what [request.get_json()] decoded.  The answer
    with the status 200 is [send_file] of the temporary file, which holds
    what the engine wrote. *)
Definition text_to_speech (T : TtsEnv) (data : value) (s : TtsState)
    : result http_response * TtsState :=
  if negb (truthy data) then (Ok (error_response 400 "Missing 'text' field"), s)
  else
    match py_in "text" data with
    | Raise e => (Raise e, s)
    | Ok false => (Ok (error_response 400 "Missing 'text' field"), s)
    | Ok true =>
        match py_getitem data "text" with
        | Raise e => (Raise e, s)
        | Ok text =>
            match py_get data "speaker_wav" (VStr (DEFAULT_SPEAKER T)) with
            | Raise e => (Raise e, s)
            | Ok speaker_wav =>
                match py_get data "language" (VStr "en") with
                | Raise e => (Raise e, s)
                | Ok language =>
                    (* try: ... except Exception as e: *)
                    match get_tts T s with
                    | (Failed message, s1) => (Ok (error_response 500 message), s1)
                    | (Done _, s1) =>
                        let s2 := mkTtsState (model_loaded s1) (loads s1)
                                    (S (temp_files s1)) in
                        match tts_to_file T (temp_files s1) text speaker_wav
                                language with
                        | Failed message => (Ok (error_response 500 message), s2)
                        | Done audio =>
                            (Ok (HttpResponse 200 "audio/wav" (FileBytes audio)), s2)
                        end
                    end
                end
            end
        end
    end.

(** The server handles the bodies of [requests] one after the other. *)
Fixpoint serve_all (T : TtsEnv) (requests : list value) (s : TtsState) : TtsState :=
  match requests with
  | [] => s
  | data :: rest => serve_all T rest (snd (text_to_speech T data s))
  end.

(** The [requests.Response] that the client sees carries the answer of the
    server: its status, and its bytes when it is a file. *)
Definition carries (r : response) (resp : http_response) : Prop :=
  status_code r = status resp /\
  forall audio, payload resp = FileBytes audio -> content r = audio.

(** ** What the reader finds in a document of the source *)

(** The attributes of every [<Gather>] of the source. *)
Definition gather_attributes (action : string) : list (string * string) :=
  [("input", "speech"); ("action", action); ("method", "POST");
   ("speechTimeout", "auto"); ("language", "en-US")].

Definition voice_attributes (voice : option string) : list (string * string) :=
  match voice with
  | Some v => [("voice", v)]
  | None => []
  end.

(** The tokens of a verb. *)
Definition simple_verb_tokens (E : Env) (verb : twiml) : list token :=
  match verb with
  | Play url => [TOpen "Play" []; TText (py_str E url); TClose "Play"]
  | Say voice text =>
      [TOpen "Say" (voice_attributes voice); TText (py_str E text); TClose "Say"]
  | Hangup => [TEmpty "Hangup" []]
  | Gather action _ => [TEmpty "Gather" (gather_attributes action)]
  end.

Definition verb_tokens (E : Env) (verb : twiml) : list token :=
  match verb with
  | Gather action (first :: others) =>
      TOpen "Gather" (gather_attributes action) ::
      (flat_map (fun inner => TText (nl +:+ "        ") :: simple_verb_tokens E inner)
         (first :: others) ++
       [TText (nl +:+ "    "); TClose "Gather"])%list
  | _ => simple_verb_tokens E verb
  end.

(** The element of a verb. *)
Definition simple_verb_node (E : Env) (verb : twiml) : xml :=
  match verb with
  | Play url => Element "Play" [] [Text (py_str E url)]
  | Say voice text => Element "Say" (voice_attributes voice) [Text (py_str E text)]
  | Hangup => Element "Hangup" [] []
  | Gather action _ => Element "Gather" (gather_attributes action) []
  end.

Definition verb_node (E : Env) (verb : twiml) : xml :=
  match verb with
  | Gather action (first :: others) =>
      Element "Gather" (gather_attributes action)
        (flat_map (fun inner => [Text (nl +:+ "        "); simple_verb_node E inner])
           (first :: others) ++ [Text (nl +:+ "    ")])%list
  | _ => simple_verb_node E verb
  end.

(** * Properties *)

Local Open Scope Z_scope.
Local Open Scope string_scope.
Local Open Scope py_scope.

(** ** Facts about strings *)

Lemma append_nil (b : string) : "" +:+ b = b.
Proof. reflexivity. Qed.

Lemma append_cons (c : ascii) (a b : string) :
  String c a +:+ b = String c (a +:+ b).
Proof. reflexivity. Qed.

Lemma append_empty (a : string) : a +:+ "" = a.
Proof.
  induction a as [|c a IH]; [reflexivity |]. rewrite append_cons, IH. reflexivity.
Qed.

Lemma append_associative (a b c : string) : (a +:+ b) +:+ c = a +:+ b +:+ c.
Proof.
  induction a as [|x a IH]; [reflexivity |].
  rewrite !append_cons, IH. reflexivity.
Qed.

Lemma startswith_spec (p s : string) :
  startswith p s = true <-> exists t, s = p +:+ t.
Proof.
  revert s. induction p as [|a p IH]; intros s; simpl.
  - split; [intros _; exists s; reflexivity | reflexivity].
  - destruct s as [|b s].
    + split; [discriminate | intros [t Ht]; discriminate].
    + destruct (Ascii.eqb_spec a b) as [->|Hne].
      * rewrite IH. split; intros [t Ht]; exists t;
          rewrite append_cons in *; congruence.
      * split; [discriminate |].
        intros [t Ht]. rewrite append_cons in Ht. congruence.
Qed.

(** [contains p s] says that [p] occurs in [s]. *)
Lemma contains_spec (p s : string) :
  contains p s = true <-> exists a b, s = a +:+ p +:+ b.
Proof.
  induction s as [|c s IH].
  - simpl. rewrite orb_false_r, startswith_spec. split.
    + intros [t Ht]. exists "", t. exact Ht.
    + intros [a [b Hab]]. destruct a; [exists b; exact Hab | discriminate].
  - cbn [contains]. rewrite orb_true_iff, startswith_spec, IH. split.
    + intros [[t Ht] | [a [b Hab]]].
      * exists "", t. exact Ht.
      * exists (String c a), b. rewrite append_cons. congruence.
    + intros [a [b Hab]]. destruct a as [|c' a].
      * left. exists b. exact Hab.
      * right. exists a, b. rewrite append_cons in Hab. congruence.
Qed.

Lemma any_phrase_in_spec (phrases : list string) (text : string) :
  any_phrase_in phrases text = true <->
  exists phrase a b, In phrase phrases /\ text = a +:+ phrase +:+ b.
Proof.
  unfold any_phrase_in. rewrite existsb_exists. split.
  - intros [p [Hin Hc]]. apply contains_spec in Hc as [a [b Hab]]. eauto.
  - intros [p [a [b [Hin Hab]]]]. exists p. split; [exact Hin |].
    apply contains_spec. eauto.
Qed.


Lemma length_append (a b : string) :
  String.length (a +:+ b) = (String.length a + String.length b)%nat.
Proof.
  induction a as [|c a IH]; [reflexivity |].
  rewrite append_cons. simpl. rewrite IH. reflexivity.
Qed.

Lemma substring_all (s : string) : substring 0 (String.length s) s = s.
Proof. induction s as [|c s IH]; simpl; [reflexivity | rewrite IH; reflexivity]. Qed.

Lemma all_chars_append ok (a b : string) :
  all_chars ok (a +:+ b) = all_chars ok a && all_chars ok b.
Proof.
  induction a as [|c a IH]; [reflexivity |].
  rewrite append_cons. simpl. rewrite IH, andb_assoc. reflexivity.
Qed.

Lemma all_chars_substring ok (s : string) :
  all_chars ok s = true -> forall n m, all_chars ok (substring n m s) = true.
Proof.
  induction s as [|c s IH]; intros Hs n m.
  - destruct n, m; reflexivity.
  - simpl in Hs. apply andb_prop in Hs as [Hc Hs].
    destruct n as [|n]; simpl.
    + destruct m as [|m]; simpl; [reflexivity |].
      rewrite Hc. simpl. apply IH. exact Hs.
    + apply IH. exact Hs.
Qed.

Lemma not_slash_not_contained (s : string) :
  all_chars not_slash s = true -> contains "/" s = false.
Proof.
  induction s as [|c s IH]; intros H.
  - reflexivity.
  - cbn [all_chars] in H. apply andb_prop in H as [Hc Hs].
    cbn [contains startswith]. rewrite (IH Hs), orb_false_r.
    unfold not_slash in Hc. rewrite Ascii.eqb_sym.
    destruct (Ascii.eqb c "/"); [discriminate | reflexivity].
Qed.

Lemma hex_digit_not_slash (n : N) : not_slash (hex_digit n) = true.
Proof.
  unfold hex_digit.
  assert (H : forall k, not_slash
            (nth k (list_ascii_of_string "0123456789abcdef") "0"%char) = true).
  { intros k. do 17 (destruct k as [|k]; [reflexivity |]). destruct k; reflexivity. }
  apply H.
Qed.

Lemma hex_fixed_not_slash (width : nat) (n : N) :
  all_chars not_slash (hex_fixed width n) = true.
Proof.
  revert n. induction width as [|k IH]; intros n; simpl; [reflexivity |].
  rewrite all_chars_append, IH. simpl. rewrite hex_digit_not_slash. reflexivity.
Qed.

Lemma uuid_str_not_slash (i : N) : all_chars not_slash (uuid_str i) = true.
Proof.
  unfold uuid_str.
  repeat rewrite all_chars_append.
  repeat rewrite (all_chars_substring _ _ (hex_fixed_not_slash 32 i)).
  reflexivity.
Qed.

(** ** The reader on the documents of the source *)

Lemma snoc_append (s : string) (c : ascii) (t : string) :
  snoc s c +:+ t = s +:+ String c t.
Proof.
  induction s as [|a s IH]; [reflexivity |].
  cbn [snoc]. rewrite !append_cons, IH. reflexivity.
Qed.

Lemma run_append (st : lexer) (a b : string) :
  run st (a +:+ b) =
    match run st a with
    | Some (st1, out1) =>
        match run st1 b with
        | Some (st2, out2) => Some (st2, (out1 ++ out2)%list)
        | None => None
        end
    | None => None
    end.
Proof.
  revert st. induction a as [|c a IH]; intros st.
  - rewrite append_nil. cbn [run]. destruct (run st b) as [[st2 out2]|]; reflexivity.
  - rewrite append_cons. cbn [run].
    destruct (step st c) as [[st' out]|]; [| reflexivity].
    rewrite IH. destruct (run st' a) as [[st1 out1]|]; [| reflexivity].
    destruct (run st1 b) as [[st2 out2]|]; [| reflexivity].
    rewrite app_assoc. reflexivity.
Qed.

(** Reading [a] and then [b] is reading [a +:+ b]. *)
Lemma run_then (st st1 st2 : lexer) (a b : string) (out1 out2 out : list token) :
  run st a = Some (st1, out1) ->
  run st1 b = Some (st2, out2) ->
  out = (out1 ++ out2)%list ->
  run st (a +:+ b) = Some (st2, out).
Proof. intros Ha Hb ->. rewrite run_append, Ha, Hb. reflexivity. Qed.

(** Character data with no markup is taken as it is. *)
Lemma run_plain_text (acc text : string) :
  plain_text text = true ->
  run (InText acc) text = Some (InText (acc +:+ text), []).
Proof.
  revert acc. induction text as [|c text IH]; intros acc Hplain.
  - rewrite append_empty. reflexivity.
  - cbn [plain_text all_chars] in Hplain. apply andb_prop in Hplain as [Hc Hrest].
    unfold plain_text_char in Hc. apply andb_prop in Hc as [Hlt Hamp].
    cbn [run step].
    destruct (Ascii.eqb c "<"); [discriminate Hlt |].
    destruct (Ascii.eqb c "&"); [discriminate Hamp |].
    rewrite (IH _ Hrest), snoc_append. reflexivity.
Qed.

(** So is an attribute value between double quotes. *)
Lemma run_plain_attr (name : string) (attrs : list (string * string))
    (key acc text : string) :
  plain_attr text = true ->
  run (InValue name attrs key (ascii_of_nat 34) acc) text =
    Some (InValue name attrs key (ascii_of_nat 34) (acc +:+ text), []).
Proof.
  revert acc. induction text as [|c text IH]; intros acc Hplain.
  - rewrite append_empty. reflexivity.
  - cbn [plain_attr all_chars] in Hplain. apply andb_prop in Hplain as [Hc Hrest].
    unfold plain_attr_char, plain_text_char in Hc.
    apply andb_prop in Hc as [Hc Hquote]. apply andb_prop in Hc as [Hlt Hamp].
    cbn [run step].
    destruct (Ascii.eqb c (ascii_of_nat 34)); [discriminate Hquote |].
    destruct (Ascii.eqb c "<"); [discriminate Hlt |].
    destruct (Ascii.eqb c "&"); [discriminate Hamp |].
    rewrite (IH _ Hrest), snoc_append. reflexivity.
Qed.

Lemma plain_attr_text (s : string) : plain_attr s = true -> plain_text s = true.
Proof.
  induction s as [|c s IH]; [reflexivity |].
  cbn [plain_attr plain_text all_chars]. unfold plain_attr_char.
  intros H. apply andb_prop in H as [Hc Hs]. apply andb_prop in Hc as [Hc _].
  rewrite Hc. exact (IH Hs).
Qed.

(** Reads a text made of literal parts and of parts without markup, part by
    part. *)
Ltac read_parts :=
  repeat (eapply run_then;
          [ first [ apply run_plain_text; assumption
                  | apply run_plain_attr; assumption
                  | reflexivity ] | | ]);
  [ first [ apply run_plain_text; assumption
          | apply run_plain_attr; assumption
          | reflexivity ] | .. ];
  reflexivity.

Lemma run_gather_tag (before action : string) :
  plain_text before = true ->
  plain_attr action = true ->
  run (InText "") (before +:+ gather_tag action) =
    Some (AfterValue "Gather" (gather_attributes action), [TText before]).
Proof.
  intros Hbefore Haction. unfold gather_tag. read_parts.
Qed.

Lemma run_simple_verb (E : Env) (before : string) (verb : twiml) :
  plain_text before = true ->
  simple_verb_plain E verb = true ->
  run (InText "") (before +:+ simple_verb_xml E verb) =
    Some (InText "", TText before :: simple_verb_tokens E verb).
Proof.
  intros Hbefore Hverb.
  destruct verb as [url | [voice|] text | action nested |]; cbn in Hverb.
  - unfold simple_verb_xml. read_parts.
  - apply andb_prop in Hverb as [Hvoice Htext].
    unfold simple_verb_xml. read_parts.
  - unfold simple_verb_xml. read_parts.
  - discriminate Hverb.
  - unfold simple_verb_xml. read_parts.
Qed.

(** The tokens of the lines of verbs, each after a line feed and the
    spaces of [indent]. *)
Lemma run_simple_verbs (E : Env) (indent : string) (verbs : list twiml) :
  plain_text indent = true ->
  forallb (simple_verb_plain E) verbs = true ->
  run (InText "")
      (join (map (fun verb => nl +:+ indent +:+ simple_verb_xml E verb) verbs)) =
    Some (InText "",
          flat_map (fun verb => TText (nl +:+ indent) :: simple_verb_tokens E verb)
            verbs).
Proof.
  intros Hindent Hverbs. induction verbs as [|verb verbs IH]; [reflexivity |].
  cbn [forallb] in Hverbs. apply andb_prop in Hverbs as [Hverb Hrest].
  cbn [map join fold_right flat_map]. fold (join (map (fun verb => nl +:+ indent +:+ simple_verb_xml E verb) verbs)).
  eapply run_then; [| apply (IH Hrest) | reflexivity].
  rewrite <- append_associative.
  apply run_simple_verb; [| exact Hverb].
  unfold plain_text. rewrite all_chars_append. exact Hindent.
Qed.

Lemma run_verb (E : Env) (verb : twiml) :
  verb_plain E verb = true ->
  run (InText "") (nl +:+ "    " +:+ verb_xml E verb) =
    Some (InText "", TText (nl +:+ "    ") :: verb_tokens E verb).
Proof.
  intros Hverb. rewrite <- append_associative.
  destruct verb as [url | voice text | action [|first others] |];
    try (apply run_simple_verb; [reflexivity | exact Hverb]).
  - cbn in Hverb. rewrite andb_true_r in Hverb.
    cbn [verb_xml simple_verb_xml verb_tokens simple_verb_tokens].
    rewrite <- append_associative.
    eapply run_then; [apply run_gather_tag; [reflexivity | exact Hverb] | |];
      reflexivity.
  - cbn [verb_plain] in Hverb. apply andb_prop in Hverb as [Haction Hnested].
    cbn [verb_xml verb_tokens].
    rewrite <- append_associative.
    eapply run_then; [apply run_gather_tag; [reflexivity | exact Haction] | |].
    + eapply run_then; [reflexivity | |].
      * eapply run_then; [apply (run_simple_verbs E "        "); [reflexivity | exact Hnested] | reflexivity |].
        reflexivity.
      * reflexivity.
    + reflexivity.
Qed.

Lemma run_verbs (E : Env) (doc : list twiml) :
  forallb (verb_plain E) doc = true ->
  run (InText "") (join (map (fun verb => nl +:+ "    " +:+ verb_xml E verb) doc)) =
    Some (InText "",
          flat_map (fun verb => TText (nl +:+ "    ") :: verb_tokens E verb) doc).
Proof.
  intros Hdoc. induction doc as [|verb doc IH]; [reflexivity |].
  cbn [forallb] in Hdoc. apply andb_prop in Hdoc as [Hverb Hrest].
  cbn [map join fold_right flat_map].
  eapply run_then; [apply run_verb, Hverb | apply (IH Hrest) | reflexivity].
Qed.

(** The tokens of a document. *)
Lemma tokens_twiml_xml (E : Env) (doc : list twiml) :
  forallb (verb_plain E) doc = true ->
  tokens (twiml_xml E doc) =
    Some ([TText ""; TDecl; TText nl; TOpen "Response" []] ++
          flat_map (fun verb => TText (nl +:+ "    ") :: verb_tokens E verb) doc ++
          [TText nl; TClose "Response"; TText ""])%list.
Proof.
  intros Hdoc.
  assert (Hrun : run (InText "") (twiml_xml E doc) =
                   Some (InText "",
                         ([TText ""; TDecl; TText nl; TOpen "Response" []] ++
                          flat_map (fun verb => TText (nl +:+ "    ") :: verb_tokens E verb)
                            doc ++
                          [TText nl; TClose "Response"])%list)).
  { unfold twiml_xml.
    eapply run_then; [reflexivity | | reflexivity].
    eapply run_then; [reflexivity | | reflexivity].
    eapply run_then; [reflexivity | | reflexivity].
    eapply run_then; [apply run_verbs, Hdoc | reflexivity | reflexivity]. }
  unfold tokens. rewrite Hrun. rewrite <- !app_assoc. reflexivity.
Qed.

Lemma build_simple_verb (E : Env) (before : string) (verb : twiml)
    (rest : list token) (name : string) (attrs : list (string * string))
    (children : list xml) (stack : list frame) (top : list xml) :
  build (TText before :: simple_verb_tokens E verb ++ rest)
    (Frame name attrs children :: stack) top =
  build rest
    (Frame name attrs (children ++ [Text before; simple_verb_node E verb]) :: stack)
    top.
Proof.
  destruct verb as [url | voice text | action nested |];
    cbn [simple_verb_tokens simple_verb_node build add_node app String.eqb
         Ascii.eqb Bool.eqb];
    rewrite <- ?app_assoc; reflexivity.
Qed.

Lemma build_simple_verbs (E : Env) (before : string) (verbs : list twiml)
    (rest : list token) (name : string) (attrs : list (string * string))
    (children : list xml) (stack : list frame) (top : list xml) :
  build (flat_map (fun verb => TText before :: simple_verb_tokens E verb) verbs ++ rest)
    (Frame name attrs children :: stack) top =
  build rest
    (Frame name attrs
       (children ++ flat_map (fun verb => [Text before; simple_verb_node E verb]) verbs)
     :: stack) top.
Proof.
  revert children. induction verbs as [|verb verbs IH]; intros children.
  - cbn [flat_map app]. rewrite app_nil_r. reflexivity.
  - cbn [flat_map]. rewrite <- !app_comm_cons, <- app_assoc.
    rewrite build_simple_verb, IH, <- app_assoc. reflexivity.
Qed.

Lemma build_verb (E : Env) (verb : twiml) (rest : list token)
    (name : string) (attrs : list (string * string)) (children : list xml)
    (stack : list frame) (top : list xml) :
  build (TText (nl +:+ "    ") :: verb_tokens E verb ++ rest)
    (Frame name attrs children :: stack) top =
  build rest
    (Frame name attrs (children ++ [Text (nl +:+ "    "); verb_node E verb]) :: stack)
    top.
Proof.
  destruct verb as [url | voice text | action [|first others] |];
    try apply build_simple_verb.
  cbn [verb_tokens verb_node].
  cbn [build add_node]. rewrite <- app_comm_cons. cbn [build].
  rewrite <- app_assoc, build_simple_verbs.
  cbn [app build add_node String.eqb Ascii.eqb Bool.eqb].
  rewrite <- !app_assoc. reflexivity.
Qed.

Lemma build_verbs (E : Env) (doc : list twiml) (rest : list token)
    (name : string) (attrs : list (string * string)) (children : list xml)
    (stack : list frame) (top : list xml) :
  build (flat_map (fun verb => TText (nl +:+ "    ") :: verb_tokens E verb) doc ++ rest)
    (Frame name attrs children :: stack) top =
  build rest
    (Frame name attrs
       (children ++
        flat_map (fun verb => [Text (nl +:+ "    "); verb_node E verb]) doc)
     :: stack) top.
Proof.
  revert children. induction doc as [|verb doc IH]; intros children.
  - cbn [flat_map app]. rewrite app_nil_r. reflexivity.
  - cbn [flat_map]. rewrite <- !app_comm_cons, <- app_assoc.
    rewrite build_verb, IH, <- app_assoc. reflexivity.
Qed.

(** The elements of a document. *)
Lemma parse_twiml_xml (E : Env) (doc : list twiml) :
  forallb (verb_plain E) doc = true ->
  parse_xml (twiml_xml E doc) =
    Some [Text ""; Text nl;
          Element "Response" []
            (flat_map (fun verb => [Text (nl +:+ "    "); verb_node E verb]) doc ++
             [Text nl])%list;
          Text ""].
Proof.
  intros Hdoc. unfold parse_xml. rewrite (tokens_twiml_xml E doc Hdoc).
  cbn [app build add_node]. rewrite build_verbs. reflexivity.
Qed.

Lemma read_all_app (read : xml -> option (list twiml)) (a b : list xml) :
  read_all read (a ++ b) =
    match read_all read a, read_all read b with
    | Some verbs, Some more => Some (verbs ++ more)%list
    | _, _ => None
    end.
Proof.
  induction a as [|x a IH].
  - cbn. destruct (read_all read b); reflexivity.
  - cbn [app read_all]. rewrite IH.
    destruct (read x) as [verbs|]; [| reflexivity].
    destruct (read_all read a) as [more|]; [| reflexivity].
    destruct (read_all read b) as [last|]; [| reflexivity].
    rewrite app_assoc. reflexivity.
Qed.

Lemma read_simple_verb_node (E : Env) (verb : twiml) :
  simple_verb_plain E verb = true ->
  read_simple (simple_verb_node E verb) = Some [simple_verb_read E verb].
Proof.
  destruct verb as [url | [voice|] text | action nested |]; intros Hverb;
    try discriminate Hverb; reflexivity.
Qed.

Lemma read_simple_verb_nodes (E : Env) (before : string) (verbs : list twiml) :
  all_chars is_space before = true ->
  forallb (simple_verb_plain E) verbs = true ->
  read_all read_simple
    (flat_map (fun verb => [Text before; simple_verb_node E verb]) verbs) =
    Some (map (simple_verb_read E) verbs).
Proof.
  intros Hblank Hverbs. induction verbs as [|verb verbs IH]; [reflexivity |].
  cbn [forallb] in Hverbs. apply andb_prop in Hverbs as [Hverb Hrest].
  cbn [flat_map app read_all]. rewrite (IH Hrest).
  cbn [read_simple]. rewrite Hblank, (read_simple_verb_node E verb Hverb).
  reflexivity.
Qed.

Lemma read_verb_node (E : Env) (verb : twiml) :
  verb_plain E verb = true ->
  read_verb (verb_node E verb) = Some [verb_read E verb].
Proof.
  destruct verb as [url | [voice|] text | action [|first others] |]; intros Hverb;
    try reflexivity.
  cbn [verb_plain] in Hverb. apply andb_prop in Hverb as [_ Hnested].
  cbn [verb_node read_verb String.eqb Ascii.eqb Bool.eqb].
  rewrite read_all_app,
    (read_simple_verb_nodes E (nl +:+ "        ") _ eq_refl Hnested).
  cbn [read_all read_simple].
  change (all_chars is_space (nl +:+ "    ")) with true.
  cbn. rewrite app_nil_r. reflexivity.
Qed.

Lemma read_verb_nodes (E : Env) (doc : list twiml) :
  forallb (verb_plain E) doc = true ->
  read_all read_verb
    (flat_map (fun verb => [Text (nl +:+ "    "); verb_node E verb]) doc) =
    Some (map (verb_read E) doc).
Proof.
  intros Hdoc. induction doc as [|verb doc IH]; [reflexivity |].
  cbn [forallb] in Hdoc. apply andb_prop in Hdoc as [Hverb Hrest].
  cbn [flat_map app read_all]. rewrite (IH Hrest), (read_verb_node E verb Hverb).
  reflexivity.
Qed.

(** A document whose texts hold no markup reads back as its verbs. *)
Lemma read_twiml_xml (E : Env) (doc : list twiml) :
  forallb (verb_plain E) doc = true ->
  read_twiml (twiml_xml E doc) = Some (map (verb_read E) doc).
Proof.
  intros Hdoc. unfold read_twiml. rewrite (parse_twiml_xml E doc Hdoc).
  cbn [List.filter is_blank all_chars negb].
  change (all_chars is_space nl) with true. cbn [negb String.eqb Ascii.eqb Bool.eqb].
  rewrite read_all_app, (read_verb_nodes E doc Hdoc).
  cbn [read_all read_verb read_simple].
  change (all_chars is_space nl) with true.
  cbn. rewrite app_nil_r. reflexivity.
Qed.

(** ** The documents of the Twilio handlers *)

(** The text that a handler builds line by line and the text that
    [twiml_xml] writes, once the concatenations are associated alike. *)
Ltac same_text :=
  unfold lines, twilio_gather_tag, twiml_xml;
  cbn [String.concat map join fold_right verb_xml simple_verb_xml py_str];
  unfold gather_tag;
  rewrite ?append_associative; reflexivity.

Lemma Response_xml_fixed (E : Env) (text : string) (doc : list twiml) (w : World) :
  text = twiml_xml E doc ->
  Response_xml text [] w = (Ok (xml_response E doc), w).
Proof. intros ->. reflexivity. Qed.

(** ** How the helper functions run *)

Section Runs.

Variable E : Env.

(** [call_tts] never raises.  A text that cannot be written as JSON is not
    sent; otherwise one request is sent, and a URL is returned only when the
    backend answered without an error status and the file was written. *)
Lemma call_tts_run (text : value) (language : string) (w : World) :
  call_tts E text language w =
    if json_compliant text then
      let w1 := sent (tts_request E text language) w in
      match network E (outbox w) (tts_request E text language) with
      | Fails _ => (Ok VNone, w1)
      | Answers r =>
          if error_status r then (Ok VNone, w1)
          else
            match path_lookup (audio_dir w) (next_audio_name E w) with
            | Some Dir => (Ok VNone, mkWorld (audio_dir w) (outbox w1) (S (draws w)))
            | _ =>
                (Ok (VStr (BASE_URL E +:+ "/audio/" +:+ next_audio_name E w)),
                 mkWorld (<[next_audio_name E w := File (content r)]> (audio_dir w))
                   (outbox w1) (S (draws w)))
            end
      end
    else (Ok VNone, w).
Proof.
  unfold call_tts, try_except, bind, requests_post, raise_for_status, uuid4,
    write_bytes, tts_request, error_status, sent, next_audio_name, ret, raise.
  cbn [json_compliant forallb snd]. rewrite !andb_true_r.
  destruct (json_compliant text); [| reflexivity].
  cbn [audio_dir outbox draws].
  destruct (network E (outbox w) _) as [r|e]; [| reflexivity].
  destruct ((400 <=? status_code r)%Z && (status_code r <? 600)%Z); [reflexivity |].
  cbn [audio_dir outbox draws].
  destruct (path_lookup (audio_dir w) _) as [[data|]|]; reflexivity.
Qed.

Lemma call_tts_returns (text : value) (language : string) (w : World) :
  exists audio_url w',
    call_tts E text language w = (Ok audio_url, w') /\
    outbox w' = outbox (tts_sent E text language w).
Proof.
  rewrite call_tts_run. unfold tts_sent. cbv zeta.
  destruct (json_compliant text); [| eauto].
  destruct (network E (outbox w) _) as [r|e]; [| eauto].
  destruct (error_status r); [eauto |].
  destruct (path_lookup (audio_dir w) _) as [[data|]|]; eauto.
Qed.

(** When the Synthesize call fails, [call_tts] returns [None]. *)
Lemma call_tts_failure (text : value) (language : string) (w : World) :
  synthesize_failure (network E (outbox w) (tts_request E text language)) ->
  call_tts E text language w = (Ok VNone, tts_sent E text language w).
Proof.
  intros H. rewrite call_tts_run. unfold tts_sent. cbv zeta.
  destruct (json_compliant text); [| reflexivity].
  inversion H as [e He | r Hr He]; [reflexivity |].
  rewrite Hr. reflexivity.
Qed.


(** What [call_tts] returns is [None] or a string. *)
Lemma call_tts_printable (text : value) (language : string) (w : World) :
  forall audio_url w',
    call_tts E text language w = (Ok audio_url, w') ->
    audio_url = VNone \/
    audio_url = VStr (BASE_URL E +:+ "/audio/" +:+ next_audio_name E w).
Proof.
  intros audio_url w'. rewrite call_tts_run. cbv zeta.
  destruct (json_compliant text); [| intros [= <- _]; auto].
  destruct (network E (outbox w) _) as [r|e]; [| intros [= <- _]; auto].
  destruct (error_status r); [intros [= <- _]; auto |].
  destruct (path_lookup (audio_dir w) _) as [[data|]|]; intros [= <- _]; auto.
Qed.

(** The workflow client: one request, and the text taken out of the answer,
    or the apology when the call raises. *)
Lemma call_langflow_run (message : string) (w : World) :
  call_langflow E message w =
    (Ok match network E (outbox w) (langflow_request E message) with
        | Fails _ =>
            VStr "I'm having trouble with my AI workflow. Please try again."
        | Answers r =>
            if error_status r
            then VStr "I'm having trouble with my AI workflow. Please try again."
            else
              match json r with
              | Some decoded =>
                  match langflow_extract decoded with
                  | Ok text => text
                  | Raise _ =>
                      VStr "I'm having trouble with my AI workflow. Please try again."
                  end
              | None =>
                  VStr "I'm having trouble with my AI workflow. Please try again."
              end
        end,
     sent (langflow_request E message) w).
Proof.
  unfold call_langflow, try_except, bind, requests_post, raise_for_status,
    response_json, lift, langflow_request, langflow_extract, sent, ret, raise,
    error_status.
  cbn [json_compliant forallb snd andb].
  destruct (network E (outbox w) _) as [r|e]; [| reflexivity].
  destruct ((400 <=? status_code r)%Z && (status_code r <? 600)%Z); [reflexivity |].
  destruct (json r) as [decoded|]; [| reflexivity].
  destruct (py_get decoded _ _) as [outputs|]; [| reflexivity].
  destruct (truthy outputs); [| reflexivity].
  destruct (py_index0 outputs) as [o0|]; [| reflexivity].
  destruct (py_get o0 _ _) as [inner|]; [| reflexivity].
  destruct (py_index0 inner) as [i0|]; [| reflexivity].
  destruct (py_get i0 _ _) as [results|]; [| reflexivity].
  destruct (py_get results _ _) as [msg|]; [| reflexivity].
  destruct (py_get msg _ _) as [text|]; reflexivity.
Qed.

(** [call_llm]: one request to the backend that the configuration selects,
    and the text taken out of the answer, or the apology of the selected
    client when the call raises. *)
Lemma call_llm_run (message : string) (history : value) (w : World) :
  call_llm E message history w =
    (Ok match network E (outbox w) (respond_request E message) with
        | Fails _ => VStr (respond_apology E)
        | Answers r =>
            if error_status r then VStr (respond_apology E)
            else
              match json r with
              | Some decoded =>
                  match respond_extract E decoded with
                  | Ok text => text
                  | Raise _ => VStr (respond_apology E)
                  end
              | None => VStr (respond_apology E)
              end
        end,
     sent (respond_request E message) w).
Proof.
  unfold call_llm, respond_request, respond_apology, respond_extract.
  destruct (String.eqb (LANGFLOW_FLOW_ID E) ""); cbn [negb].
  - unfold try_except, bind, requests_post, raise_for_status,
      response_json, lift, sent, ret, raise, error_status, ollama_extract.
    fold (ollama_request E message).
    cbn [json_compliant forallb snd andb float_is_finite temperature].
    change (json_compliant (req_json (ollama_request E message))) with true.
    destruct (network E (outbox w) _) as [r|e]; [| reflexivity].
    destruct ((400 <=? status_code r)%Z && (status_code r <? 600)%Z); [reflexivity |].
    destruct (json r) as [decoded|]; [| reflexivity].
    destruct (py_get decoded _ _); reflexivity.
  - apply call_langflow_run.
Qed.

(** [call_llm] never raises, and sends the one request of the backend that
    the configuration selects. *)
Lemma call_llm_returns (message : string) (history : value) (w : World) :
  exists text,
    call_llm E message history w = (Ok text, sent (respond_request E message) w).
Proof. rewrite call_llm_run. eauto. Qed.

(** A failed Respond call is replaced by the apology of the selected
    client. *)
Lemma call_llm_failure (message : string) (history : value) (w : World) :
  respond_failure E (network E (outbox w) (respond_request E message)) ->
  call_llm E message history w =
    (Ok (VStr (respond_apology E)), sent (respond_request E message) w).
Proof.
  intros H. rewrite call_llm_run.
  inversion H as [e He | r Hr He | r Hr He | r v e Hr Hv He]; [reflexivity | | |].
  - rewrite Hr. reflexivity.
  - rewrite Hr. destruct (error_status r); reflexivity.
  - rewrite Hr, Hv. destruct (error_status r); reflexivity.
Qed.

End Runs.

(** ** How the turn handlers run *)

(** Follows the decoding chain of [jambonz_gather] along a hypothesis about
    [jambonz_speech_text]. *)
Ltac decode_jambonz H :=
  unfold jambonz_gather, jambonz_speech_text, bind, lift in *;
  repeat match type of H with
         | context [match ?r with Ok _ => _ | Raise _ => _ end] =>
             destruct r; try discriminate H
         end.

Lemma truthy_text (text : string) : text <> "" -> truthy (VStr text) = true.
Proof.
  intros H. cbn [truthy]. destruct (String.eqb_spec text ""); [contradiction | reflexivity].
Qed.

(** What is falsy holds no surrogate. *)
Lemma falsy_printable (v : value) : truthy v = false -> printable v = true.
Proof.
  destruct v as [| | | |s| |]; try reflexivity.
  cbn [truthy printable]. destruct (String.eqb_spec s "") as [->|]; [reflexivity | discriminate].
Qed.

Section Turns.

Variable E : Env.

Lemma twilio_voice_run (form : list (string * string)) (w : World)
    (audio_url : value) (w' : World) :
  call_tts E (VStr greeting) "en" w = (Ok audio_url, w') ->
  twilio_voice E form w =
    (Ok (xml_response E
           [twilio_reply audio_url (VStr greeting);
            Gather (BASE_URL E +:+ "/gather") [Say None (VStr "I'm listening.")];
            Say None (VStr "I didn't hear anything. Goodbye!");
            Hangup]), w').
Proof.
  intros Htts. unfold twilio_voice, bind, twilio_reply. cbv zeta.
  fold greeting. rewrite Htts.
  destruct (truthy audio_url); apply Response_xml_fixed; same_text.
Qed.

Lemma twilio_gather_empty (form : list (string * string)) (w : World) :
  form_get form "SpeechResult" "" = "" ->
  twilio_gather E form w =
    (Ok (xml_response E
           [Say (Some "alice") (VStr "I didn't catch that. Could you repeat?");
            twilio_gather_verb E [];
            Say None (VStr "Still nothing. Goodbye!");
            Hangup]), w).
Proof.
  intros H. unfold twilio_gather, twilio_gather_verb. rewrite H. cbn [truthy String.eqb negb].
  apply Response_xml_fixed. same_text.
Qed.

Lemma twilio_gather_closing (form : list (string * string)) (w : World)
    (audio_url : value) (w' : World) :
  form_get form "SpeechResult" "" <> "" ->
  any_phrase_in twilio_goodbye_phrases
    (lower (form_get form "SpeechResult" "")) = true ->
  call_tts E (VStr "Thank you for calling! Have a great day. Goodbye!") "en" w =
    (Ok audio_url, w') ->
  twilio_gather E form w =
    (Ok (xml_response E
           [twilio_reply audio_url
              (VStr "Thank you for calling! Have a great day. Goodbye!");
            Hangup]), w').
Proof.
  intros Hne Hbye Htts. unfold twilio_gather, twilio_reply.
  rewrite (truthy_text _ Hne), Hbye. cbn [negb]. unfold bind. rewrite Htts.
  destruct (truthy audio_url); apply Response_xml_fixed; same_text.
Qed.

Lemma twilio_gather_turn (form : list (string * string)) (w : World)
    (ai_response : value) (w1 : World) (audio_url : value) (w2 : World) :
  form_get form "SpeechResult" "" <> "" ->
  any_phrase_in twilio_goodbye_phrases
    (lower (form_get form "SpeechResult" "")) = false ->
  call_llm E (form_get form "SpeechResult" "") VNone w = (Ok ai_response, w1) ->
  printable ai_response = true ->
  call_tts E ai_response "en" w1 = (Ok audio_url, w2) ->
  twilio_gather E form w =
    (Ok (xml_response E
           [twilio_reply audio_url ai_response;
            twilio_gather_verb E [];
            Say None (VStr "Are you still there?");
            Hangup]), w2).
Proof.
  intros Hne Hbye Hllm Hprint Htts. unfold twilio_gather, twilio_reply, twilio_gather_verb.
  rewrite (truthy_text _ Hne), Hbye. cbn [negb]. unfold bind, print.
  rewrite Hllm. cbn [forallb]. rewrite Hprint. cbn [andb ret]. rewrite Htts.
  destruct (truthy audio_url).
  - apply Response_xml_fixed. same_text.
  - unfold Response_xml. cbn [forallb]. rewrite Hprint. cbn [andb ret].
    unfold xml_response. do 3 f_equal. same_text.
Qed.

(** A reply that holds a surrogate stops the Twilio turn at the line that
    logs it, after the Respond call and before the Synthesize call. *)
Lemma twilio_gather_garbled (form : list (string * string)) (w : World)
    (ai_response : value) (w1 : World) :
  form_get form "SpeechResult" "" <> "" ->
  any_phrase_in twilio_goodbye_phrases
    (lower (form_get form "SpeechResult" "")) = false ->
  call_llm E (form_get form "SpeechResult" "") VNone w = (Ok ai_response, w1) ->
  printable ai_response = false ->
  twilio_gather E form w = (Raise UnicodeEncodeError, w1).
Proof.
  intros Hne Hbye Hllm Hprint. unfold twilio_gather.
  rewrite (truthy_text _ Hne), Hbye. cbn [negb]. unfold bind, print.
  rewrite Hllm. cbn [forallb]. rewrite Hprint. reflexivity.
Qed.

Lemma jambonz_gather_raises (request_json : value) (e : exn) (w : World) :
  jambonz_speech_text request_json = Raise e ->
  jambonz_gather E request_json w = (Raise e, w).
Proof.
  intros H. unfold jambonz_gather, jambonz_speech_text, bind, lift in *.
  destruct (py_get (py_or request_json (VDict [])) "speech" (VDict []))
    as [speech|]; [| congruence].
  destruct (py_get speech "alternatives" (VList [VDict []]))
    as [alternatives|]; [| congruence].
  destruct (py_index0 alternatives) as [first|]; [| congruence].
  rewrite H. reflexivity.
Qed.

(** A transcript that holds a surrogate stops the Jambonz turn at the line
    that logs it. *)
Lemma jambonz_gather_garbled (request_json speech_text : value) (w : World) :
  jambonz_speech_text request_json = Ok speech_text ->
  printable speech_text = false ->
  jambonz_gather E request_json w = (Raise UnicodeEncodeError, w).
Proof.
  intros H Hprint. decode_jambonz H. rewrite H. unfold print. cbn [forallb].
  rewrite Hprint. reflexivity.
Qed.

Lemma jambonz_gather_empty (request_json speech_text : value) (w : World) :
  jambonz_speech_text request_json = Ok speech_text ->
  truthy speech_text = false ->
  jambonz_gather E request_json w =
    (Ok (jsonify (VList
           [VDict [("verb", VStr "say");
                   ("text", VStr "I didn't catch that. Could you repeat?")];
            jambonz_turn_gather E;
            jambonz_hangup])), w).
Proof.
  intros H Hf. decode_jambonz H. rewrite H. unfold print. cbn [forallb].
  rewrite (falsy_printable _ Hf), Hf. reflexivity.
Qed.

Lemma jambonz_gather_closing (request_json : value) (text : string) (w : World)
    (audio_url : value) (w' : World) :
  jambonz_speech_text request_json = Ok (VStr text) ->
  has_lone_surrogate text = false ->
  text <> "" ->
  any_phrase_in jambonz_goodbye_phrases (lower text) = true ->
  call_tts E (VStr "Thank you for calling! Goodbye!") "en" w = (Ok audio_url, w') ->
  jambonz_gather E request_json w =
    (Ok (jsonify (VList
           [jambonz_reply audio_url (VStr "Thank you for calling! Goodbye!");
            jambonz_hangup])), w').
Proof.
  intros H Hprint Hne Hbye Htts. decode_jambonz H. unfold jambonz_reply, print.
  rewrite H. cbn [forallb printable]. rewrite Hprint, (truthy_text _ Hne), Hbye.
  cbv beta iota zeta delta [negb andb ret]. rewrite Htts.
  destruct (truthy audio_url); reflexivity.
Qed.

Lemma jambonz_gather_turn (request_json : value) (text : string) (w : World)
    (ai_response : value) (w1 : World) (audio_url : value) (w2 : World) :
  jambonz_speech_text request_json = Ok (VStr text) ->
  has_lone_surrogate text = false ->
  text <> "" ->
  any_phrase_in jambonz_goodbye_phrases (lower text) = false ->
  call_llm E text VNone w = (Ok ai_response, w1) ->
  call_tts E ai_response "en" w1 = (Ok audio_url, w2) ->
  jambonz_gather E request_json w =
    (Ok (jsonify (VList
           [jambonz_reply audio_url ai_response;
            jambonz_turn_gather E;
            jambonz_hangup])), w2).
Proof.
  intros H Hprint Hne Hbye Hllm Htts. decode_jambonz H. unfold jambonz_reply, print.
  rewrite H. cbn [forallb printable]. rewrite Hprint, (truthy_text _ Hne), Hbye.
  cbv beta iota zeta delta [negb andb ret]. rewrite Hllm, Htts.
  destruct (truthy audio_url); reflexivity.
Qed.

(** A transcript that is not a string and not falsy has no [lower]. *)
Lemma jambonz_gather_not_text (request_json speech_text : value) (w : World) :
  jambonz_speech_text request_json = Ok speech_text ->
  truthy speech_text = true ->
  is_str speech_text = false ->
  jambonz_gather E request_json w = (Raise AttributeError, w).
Proof.
  intros H Ht Hns. decode_jambonz H. rewrite H. unfold print.
  destruct speech_text; try discriminate Hns; cbn [forallb printable andb ret];
    rewrite Ht; reflexivity.
Qed.

(** The greeting of Jambonz, by what the first lines of the handler decode. *)
Lemma jambonz_webhook_raises (request_json : value) (e : exn) (w : World) :
  jambonz_call_fields request_json = Raise e ->
  jambonz_webhook E request_json w = (Raise e, w).
Proof.
  intros H. unfold jambonz_webhook, jambonz_call_fields, bind, lift in *.
  destruct (py_get (py_or request_json (VDict [])) "call_sid" _) as [call_sid|];
    [| congruence].
  destruct (py_get (py_or request_json (VDict [])) "from" _) as [from_number|];
    [discriminate H | congruence].
Qed.

Lemma jambonz_webhook_garbled (request_json : value) (fields : list value)
    (w : World) :
  jambonz_call_fields request_json = Ok fields ->
  forallb printable fields = false ->
  jambonz_webhook E request_json w = (Raise UnicodeEncodeError, w).
Proof.
  intros H Hprint. unfold jambonz_webhook, jambonz_call_fields, bind, lift, print in *.
  destruct (py_get (py_or request_json (VDict [])) "call_sid" _) as [call_sid|];
    [| discriminate H].
  destruct (py_get (py_or request_json (VDict [])) "from" _) as [from_number|];
    [| discriminate H].
  injection H as <-. rewrite Hprint. reflexivity.
Qed.

Lemma jambonz_webhook_run (request_json : value) (fields : list value)
    (w : World) (audio_url : value) (w' : World) :
  jambonz_call_fields request_json = Ok fields ->
  forallb printable fields = true ->
  call_tts E (VStr greeting) "en" w = (Ok audio_url, w') ->
  jambonz_webhook E request_json w =
    (Ok (jsonify (VList
           [if truthy audio_url
            then VDict [("verb", VStr "play"); ("url", audio_url)]
            else jambonz_say_greeting;
            jambonz_greeting_gather E;
            VDict [("verb", VStr "say");
                   ("text", VStr "I didn't hear anything. Goodbye!")];
            jambonz_hangup])), w').
Proof.
  intros H Hprint Htts.
  unfold jambonz_webhook, jambonz_call_fields, bind, lift, print in *.
  destruct (py_get (py_or request_json (VDict [])) "call_sid" _) as [call_sid|];
    [| discriminate H].
  destruct (py_get (py_or request_json (VDict [])) "from" _) as [from_number|];
    [| discriminate H].
  injection H as <-. rewrite Hprint. cbv zeta. fold greeting.
  unfold ret at 1. rewrite Htts. unfold ret, jambonz_say_greeting.
  destruct (truthy audio_url); reflexivity.
Qed.

End Turns.

(** ** The audio cache *)

(** A name of three characters or more is looked up in the directory. *)
Lemma path_lookup_regular (dir : gmap string node) (name : string) :
  (3 <= String.length name)%nat -> path_lookup dir name = dir !! name.
Proof.
  intros Hlen. unfold path_lookup, special_name.
  destruct (String.eqb_spec name "") as [->|_]; [simpl in Hlen; lia |].
  destruct (String.eqb_spec name ".") as [->|_]; [simpl in Hlen; lia |].
  destruct (String.eqb_spec name "..") as [->|_]; [simpl in Hlen; lia |].
  reflexivity.
Qed.

Lemma next_audio_name_length (E : Env) (w : World) :
  (3 <= String.length (next_audio_name E w))%nat.
Proof. unfold next_audio_name. rewrite length_append. simpl. lia. Qed.

Lemma next_audio_name_segment (E : Env) (w : World) :
  next_audio_name E w <> "" /\ contains "/" (next_audio_name E w) = false.
Proof.
  split.
  - intros Heq. pose proof (next_audio_name_length E w) as Hlen.
    rewrite Heq in Hlen. simpl in Hlen. lia.
  - apply not_slash_not_contained. unfold next_audio_name.
    rewrite all_chars_append, uuid_str_not_slash. reflexivity.
Qed.

(** A path [/audio/<name>] whose last segment is not empty and has no slash
    is routed to [serve_audio] with that segment. *)
Lemma route_audio_segment (name : string) :
  name <> "" -> contains "/" name = false ->
  route_audio ("/audio/" +:+ name) = Some name.
Proof.
  intros Hne Hslash. unfold route_audio.
  rewrite !append_cons, append_nil.
  cbn [startswith]. simpl Ascii.eqb. cbv iota.
  simpl String.length. simpl Nat.sub. simpl substring.
  rewrite Nat.sub_0_r, substring_all, Hslash.
  destruct (String.eqb_spec name ""); [contradiction | reflexivity].
Qed.

(** The parameter of the route is one segment: not empty, no slash. *)
Lemma route_audio_is_segment (path filename : string) :
  route_audio path = Some filename ->
  filename <> "" /\ contains "/" filename = false.
Proof.
  unfold route_audio. destruct (startswith "/audio/" path); [| discriminate].
  set (f := substring 7 (String.length path - 7) path).
  destruct (String.eqb_spec f "") as [|Hne]; [discriminate |].
  destruct (contains "/" f) eqn:Hc; [discriminate |].
  cbn [negb andb]. intros [= <-]. split; assumption.
Qed.

(** What [serve_audio] does, by the entry its parameter names in
    [AUDIO_DIR] and the entry that [send_file] finds. *)
Lemma serve_audio_run (E : Env) (filename : string) (w : World) :
  serve_audio E filename w =
    match path_lookup (audio_dir w) filename with
    | Some _ =>
        match served_entry E w filename with
        | Some (File data) => (Ok (HttpResponse 200 "audio/wav" (FileBytes data)), w)
        | Some Dir => (Raise IsADirectoryError, w)
        | None => (Raise FileNotFoundError, w)
        end
    | None =>
        (Ok (HttpResponse 404 "application/json"
               (Json (VDict [("error", VStr "Audio not found")]))), w)
    end.
Proof.
  unfold serve_audio, bind, path_exists, send_file, ret.
  destruct (path_lookup (audio_dir w) filename) as [entry|] eqn:Hl.
  - rewrite bool_decide_eq_true_2 by eauto. reflexivity.
  - rewrite bool_decide_eq_false_2; [reflexivity |]. intros [x Hx]. discriminate.
Qed.

(** When [send_file] looks into [AUDIO_DIR] itself, it finds what [exists]
    found. *)
Lemma served_entry_same (E : Env) (w : World) (filename : string) :
  send_file_root E = SameDirectory ->
  served_entry E w filename = path_lookup (audio_dir w) filename.
Proof. intros H. unfold served_entry. rewrite H. reflexivity. Qed.

(** Storing an entry leaves what the other names name as it was. *)
Lemma path_lookup_insert_other (dir : gmap string node) (name other : string)
    (n : node) :
  other <> name -> path_lookup (<[name := n]> dir) other = path_lookup dir other.
Proof.
  intros Hne. unfold path_lookup.
  destruct (special_name other); [reflexivity |]. apply lookup_insert_ne. congruence.
Qed.

(** What a successful [call_tts] leaves: the answer of the backend, stored
    under the next audio name, and the other entries as they were. *)
Lemma call_tts_stores (E : Env) (text : value) (language : string)
    (w w' : World) (audio_url : value) :
  call_tts E text language w = (Ok audio_url, w') ->
  truthy audio_url = true ->
  exists r,
    json_compliant text = true /\
    network E (outbox w) (tts_request E text language) = Answers r /\
    error_status r = false /\
    audio_url = VStr (BASE_URL E +:+ "/audio/" +:+ next_audio_name E w) /\
    audio_dir w' = <[next_audio_name E w := File (content r)]> (audio_dir w).
Proof.
  intros Hrun Htruthy. rewrite call_tts_run in Hrun. cbv zeta in Hrun.
  destruct (json_compliant text); [| injection Hrun as <- _; discriminate].
  destruct (network E (outbox w) _) as [r|e];
    [| injection Hrun as <- _; discriminate].
  exists r. destruct (error_status r); [injection Hrun as <- _; discriminate |].
  destruct (path_lookup (audio_dir w) _) as [[data|]|];
    injection Hrun as <- <-; try discriminate; repeat split; reflexivity.
Qed.

(** Put, then Get: the bytes the Synthesize backend sent are stored under
    the name at the end of the URL that [call_tts] returns, and, when
    [send_file] looks into [AUDIO_DIR] itself, a request for that URL's path
    is answered with these bytes as [audio/wav].  No other name is
    touched. *)
Lemma stored_audio_is_served (E : Env) (text : value) (language : string)
    (w w' : World) (audio_url : value) :
  send_file_root E = SameDirectory ->
  call_tts E text language w = (Ok audio_url, w') ->
  truthy audio_url = true ->
  exists r,
    network E (outbox w) (tts_request E text language) = Answers r /\
    audio_url = VStr (BASE_URL E +:+ "/audio/" +:+ next_audio_name E w) /\
    route_audio ("/audio/" +:+ next_audio_name E w) = Some (next_audio_name E w) /\
    serve_audio E (next_audio_name E w) w' =
      (Ok (HttpResponse 200 "audio/wav" (FileBytes (content r))), w') /\
    (forall other,
        other <> next_audio_name E w ->
        path_lookup (audio_dir w') other = path_lookup (audio_dir w) other).
Proof.
  intros Hroot Hrun Htruthy.
  pose proof (next_audio_name_segment E w) as [Hne Hslash].
  pose proof (path_lookup_regular (audio_dir w') _ (next_audio_name_length E w)) as Hreg.
  destruct (call_tts_stores E text language w w' audio_url Hrun Htruthy)
    as [r [_ [Hnet [_ [Hurl Hdir]]]]].
  exists r. split; [exact Hnet |]. split; [exact Hurl |].
  split; [apply route_audio_segment; assumption |]. split.
  - rewrite serve_audio_run, (served_entry_same E w' _ Hroot), Hreg, Hdir,
      lookup_insert_eq. reflexivity.
  - intros other Hother. rewrite Hdir. apply path_lookup_insert_other, Hother.
Qed.

(** A name that no entry has is answered with 404 and a JSON error. *)
Lemma absent_audio_is_not_found (E : Env) (filename : string) (w : World) :
  path_lookup (audio_dir w) filename = None ->
  serve_audio E filename w =
    (Ok (HttpResponse 404 "application/json"
           (Json (VDict [("error", VStr "Audio not found")]))), w).
Proof. intros H. rewrite serve_audio_run, H. reflexivity. Qed.

Lemma uuid_str_length (i : N) : (4 <= String.length (uuid_str i))%nat.
Proof. unfold uuid_str. rewrite !length_append. simpl. lia. Qed.

(** ** Names of the stored artifacts *)

Lemma hex_fixed_length (width : nat) (n : N) :
  String.length (hex_fixed width n) = width.
Proof.
  revert n. induction width as [|k IH]; intros n; [reflexivity |].
  cbn [hex_fixed]. rewrite length_append, IH. simpl. lia.
Qed.

Lemma hex_digit_injective (a b : N) :
  (a < 16)%N -> (b < 16)%N -> hex_digit a = hex_digit b -> a = b.
Proof.
  intros Ha Hb. unfold hex_digit.
  assert (Ha' : (N.to_nat a < 16)%nat) by lia.
  assert (Hb' : (N.to_nat b < 16)%nat) by lia.
  intros H. apply N2Nat.inj.
  revert Ha' Hb' H. generalize (N.to_nat a) (N.to_nat b). clear.
  intros i j Hi Hj.
  do 16 (destruct i as [|i]; [do 16 (destruct j as [|j]; [first [reflexivity | discriminate] |]); lia |]).
  lia.
Qed.

Lemma append_last_injective (a b : string) (c d : ascii) :
  String.length a = String.length b ->
  a +:+ String c "" = b +:+ String d "" -> a = b /\ c = d.
Proof.
  revert b. induction a as [|x a IH]; intros [|y b] Hlen H; try discriminate Hlen.
  - injection H as ->. split; reflexivity.
  - rewrite !append_cons in H. injection H as -> H.
    injection Hlen as Hlen. destruct (IH b Hlen H) as [-> ->]. split; reflexivity.
Qed.

Lemma hex_fixed_injective (width : nat) (n m : N) :
  hex_fixed width n = hex_fixed width m ->
  (n mod 16 ^ N.of_nat width = m mod 16 ^ N.of_nat width)%N.
Proof.
  revert n m. induction width as [|k IH]; intros n m H.
  - simpl. rewrite !N.mod_1_r. reflexivity.
  - cbn [hex_fixed] in H.
    apply append_last_injective in H as [Hhigh Hlow];
      [| rewrite !hex_fixed_length; reflexivity].
    apply IH in Hhigh.
    apply hex_digit_injective in Hlow; try (apply N.mod_lt; discriminate).
    rewrite Nat2N.inj_succ, N.pow_succ_r'.
    rewrite !N.Div0.mod_mul_r. congruence.
Qed.

Lemma uuid4_int_bound (random : N) : (uuid4_int random < 2 ^ 128)%N.
Proof.
  destruct (N.lt_ge_cases (uuid4_int random) (2 ^ 128)) as [|Hge]; [assumption |].
  exfalso.
  assert (Hpos : (uuid4_int random <> 0)%N).
  { intros H0. rewrite H0 in Hge. vm_compute in Hge. apply Hge. reflexivity. }
  assert (Hlog : (128 <= N.log2 (uuid4_int random))%N).
  { apply N.log2_le_pow2; [lia | exact Hge]. }
  pose proof (N.bit_log2 _ Hpos) as Hbit.
  unfold uuid4_int in Hbit at 1.
  cbv zeta in Hbit.
  rewrite N.lor_spec, N.ldiff_spec, N.lor_spec, N.ldiff_spec in Hbit.
  rewrite N.mod_pow2_bits_high in Hbit by exact Hlog.
  rewrite (N.bits_above_log2 (N.shiftl 32768 48)) in Hbit
    by (eapply N.lt_le_trans; [| exact Hlog]; vm_compute; reflexivity).
  rewrite (N.bits_above_log2 (N.shiftl 4 76)) in Hbit
    by (eapply N.lt_le_trans; [| exact Hlog]; vm_compute; reflexivity).
  discriminate Hbit.
Qed.

Lemma uuid_str_hex (i j : N) :
  uuid_str i = uuid_str j -> hex_fixed 32 i = hex_fixed 32 j.
Proof.
  unfold uuid_str. cbv zeta.
  pose proof (hex_fixed_length 32 i) as Hi.
  pose proof (hex_fixed_length 32 j) as Hj.
  revert Hi Hj. generalize (hex_fixed 32 i) (hex_fixed 32 j).
  intros h1 h2 H1 H2.
  do 32 (destruct h1 as [|? h1]; [discriminate H1 |]).
  destruct h1; [| discriminate H1].
  do 32 (destruct h2 as [|? h2]; [discriminate H2 |]).
  destruct h2; [| discriminate H2].
  cbn. intros H. injection H. intros. subst. reflexivity.
Qed.

Lemma uuid_names_injective (a b : N) :
  uuid_str (uuid4_int a) +:+ ".wav" = uuid_str (uuid4_int b) +:+ ".wav" ->
  uuid4_int a = uuid4_int b.
Proof.
  intros H.
  assert (Hstr : uuid_str (uuid4_int a) = uuid_str (uuid4_int b)).
  { assert (Hlen : String.length (uuid_str (uuid4_int a)) =
                   String.length (uuid_str (uuid4_int b))).
    { apply (f_equal String.length) in H. rewrite !length_append in H. lia. }
    revert Hlen H. generalize (uuid_str (uuid4_int a)) (uuid_str (uuid4_int b)).
    intros s. induction s as [|c s IH]; intros [|d t] Hlen H; try discriminate Hlen.
    - reflexivity.
    - rewrite !append_cons in H. injection H as -> H. injection Hlen as Hlen.
      rewrite (IH t Hlen H). reflexivity. }
  apply uuid_str_hex, hex_fixed_injective in Hstr.
  change (16 ^ N.of_nat 32)%N with (2 ^ 128)%N in Hstr.
  rewrite !N.mod_small in Hstr by apply uuid4_int_bound. exact Hstr.
Qed.

(** ** Letter case and closing phrases *)

Lemma lower_append (a b : string) : lower (a +:+ b) = lower a +:+ lower b.
Proof.
  induction a as [|c a IH]; [reflexivity |].
  rewrite append_cons. cbn [lower]. rewrite append_cons, IH. reflexivity.
Qed.

Lemma any_phrase_in_embedded (phrases : list string) (text before after : string) :
  any_phrase_in phrases (lower text) = true ->
  any_phrase_in phrases (lower (before +:+ text +:+ after)) = true.
Proof.
  rewrite !any_phrase_in_spec. intros [p [a [b [Hin Hab]]]].
  exists p, (lower before +:+ a), (b +:+ lower after). split; [exact Hin |].
  rewrite !lower_append, Hab, !append_associative. reflexivity.
Qed.

(** ** Surrogates and markup in the parts of a text *)

Lemma has_lone_surrogate_cons (c d : ascii) (s : string) :
  has_lone_surrogate (String c (String d s)) =
    starts_surrogate c d || has_lone_surrogate (String d s).
Proof. reflexivity. Qed.

(** A text without a surrogate has none in its parts. *)
Lemma has_lone_surrogate_append (a b : string) :
  has_lone_surrogate (a +:+ b) = false ->
  has_lone_surrogate a = false /\ has_lone_surrogate b = false.
Proof.
  induction a as [|c a IH]; intros H.
  - split; [reflexivity | exact H].
  - destruct a as [|d a].
    + split; [reflexivity |]. rewrite append_cons, append_nil in H.
      destruct b as [|d b]; [reflexivity |].
      rewrite has_lone_surrogate_cons in H.
      apply orb_false_elim in H as [_ H]. exact H.
    + rewrite !append_cons, has_lone_surrogate_cons in H.
      apply orb_false_elim in H as [Hpair H]. rewrite <- append_cons in H.
      destruct (IH H) as [Ha Hb]. split; [| exact Hb].
      rewrite has_lone_surrogate_cons, Hpair. exact Ha.
Qed.

Lemma hex_digit_plain (n : N) : plain_attr_char (hex_digit n) = true.
Proof.
  unfold hex_digit.
  assert (H : forall k, plain_attr_char
            (nth k (list_ascii_of_string "0123456789abcdef") "0"%char) = true).
  { intros k. do 17 (destruct k as [|k]; [reflexivity |]). destruct k; reflexivity. }
  apply H.
Qed.

Lemma hex_fixed_plain (width : nat) (n : N) :
  plain_attr (hex_fixed width n) = true.
Proof.
  revert n. unfold plain_attr.
  induction width as [|k IH]; intros n; simpl; [reflexivity |].
  rewrite all_chars_append, IH. simpl. rewrite hex_digit_plain. reflexivity.
Qed.

Lemma uuid_str_plain (i : N) : plain_attr (uuid_str i) = true.
Proof.
  unfold uuid_str, plain_attr.
  repeat rewrite all_chars_append.
  repeat rewrite (all_chars_substring _ _ (hex_fixed_plain 32 i)).
  reflexivity.
Qed.

(** With a [BASE_URL] that holds no markup, the action of the gather and
    the URL of an audio hold none. *)
Lemma gather_action_plain (E : Env) :
  plain_attr (BASE_URL E) = true -> plain_attr (BASE_URL E +:+ "/gather") = true.
Proof. intros H. unfold plain_attr in *. rewrite all_chars_append, H. reflexivity. Qed.

Lemma audio_url_plain (E : Env) (w : World) :
  plain_attr (BASE_URL E) = true ->
  plain_text (BASE_URL E +:+ "/audio/" +:+ next_audio_name E w) = true.
Proof.
  intros H. apply plain_attr_text. unfold plain_attr, next_audio_name in *.
  rewrite !all_chars_append, H. fold (plain_attr (uuid_str (uuid4_int (urandom E (draws w))))).
  rewrite uuid_str_plain. reflexivity.
Qed.

(** ** The steps of the documents of the Twilio handlers *)

Lemma actions_xml_response (E : Env) (doc : list twiml) :
  forallb (verb_plain E) doc = true ->
  actions (payload (xml_response E doc)) =
    map twiml_action (map (verb_read E) doc).
Proof.
  intros Hdoc. cbn [xml_response payload actions].
  rewrite (read_twiml_xml E doc Hdoc). reflexivity.
Qed.

(** The reply of a Twilio document, read back: the URL of the audio is
    played, or the text is said, as the handler wrote it. *)
Lemma twilio_reply_read (E : Env) (w0 : World) (audio_url spoken : value) :
  audio_url = VNone \/
  audio_url = VStr (BASE_URL E +:+ "/audio/" +:+ next_audio_name E w0) ->
  plain_attr (BASE_URL E) = true ->
  plain_text (py_str E spoken) = true ->
  verb_plain E (twilio_reply audio_url spoken) = true /\
  twiml_action (verb_read E (twilio_reply audio_url spoken)) =
    reply_action audio_url (VStr (py_str E spoken)).
Proof.
  intros Hshape Hbase Hspoken. unfold twilio_reply, reply_action.
  destruct Hshape as [-> | ->].
  - cbn [truthy verb_plain simple_verb_plain]. rewrite Hspoken. split; reflexivity.
  - destruct (truthy (VStr _)).
    + cbn [verb_plain simple_verb_plain py_str]. rewrite (audio_url_plain E w0 Hbase).
      split; reflexivity.
    + cbn [verb_plain simple_verb_plain]. rewrite Hspoken. split; reflexivity.
Qed.


(** A Twilio document that goes on: the reply, the gather with the verbs
    nested in it, the prompt for when it times out, the hangup. *)
Lemma twilio_gathering_document (E : Env) (w0 : World) (audio_url spoken : value)
    (nested : list twiml) (prompt : string) :
  audio_url = VNone \/
  audio_url = VStr (BASE_URL E +:+ "/audio/" +:+ next_audio_name E w0) ->
  plain_attr (BASE_URL E) = true ->
  plain_text (py_str E spoken) = true ->
  forallb (simple_verb_plain E) nested = true ->
  plain_text prompt = true ->
  actions (payload (xml_response E
             [twilio_reply audio_url spoken;
              Gather (BASE_URL E +:+ "/gather") nested;
              Say None (VStr prompt);
              Hangup])) =
    [reply_action audio_url (VStr (py_str E spoken)); DoGather;
     DoSay (VStr prompt); DoHangup].
Proof.
  intros Hshape Hbase Hspoken Hnested Hprompt.
  destruct (twilio_reply_read E w0 audio_url spoken Hshape Hbase Hspoken)
    as [Hplain Hread].
  rewrite actions_xml_response.
  - cbn [map]. rewrite Hread. reflexivity.
  - cbn [forallb verb_plain simple_verb_plain py_str].
    rewrite Hplain, (gather_action_plain E Hbase), Hnested, Hprompt. reflexivity.
Qed.

(** ** The turn, step by step *)


(** ** Closing phrases (C1) *)

(** On Twilio, an utterance that holds one of the five closing phrases ends
    the call: the farewell is played or said, then the call is hung up, and
    there is no gather. *)
Lemma twilio_gather_closing_phrase (E : Env) (w : World)
    (form : list (string * string)) (phrase before after : string) :
  In phrase ["goodbye"; "bye"; "hang up"; "end call"; "that's all"] ->
  lower (form_get form "SpeechResult" "") = before +:+ phrase +:+ after ->
  exists audio_url w',
    call_tts E (VStr "Thank you for calling! Have a great day. Goodbye!") "en" w =
      (Ok audio_url, w') /\
    twilio_gather E form w =
      (Ok (xml_response E
             [twilio_reply audio_url
                (VStr "Thank you for calling! Have a great day. Goodbye!");
              Hangup]), w').
Proof.
  intros Hin Hsub.
  destruct (call_tts_returns E
              (VStr "Thank you for calling! Have a great day. Goodbye!") "en" w)
    as [audio_url [w' [Htts _]]].
  exists audio_url, w'. split; [exact Htts |].
  apply twilio_gather_closing; [| | exact Htts].
  - intros Hempty. rewrite Hempty in Hsub.
    destruct before; [| discriminate Hsub].
    rewrite append_nil in Hsub.
    destruct Hin as [<-|[<-|[<-|[<-|[<-|[]]]]]]; discriminate Hsub.
  - apply any_phrase_in_spec. exists phrase, before, after. split; assumption.
Qed.

(** On Jambonz, the same holds for the four phrases of its own list, for a
    transcript that the handler can log (one without a surrogate). *)
Lemma jambonz_gather_closing_phrase (E : Env) (w : World)
    (request_json : value) (text phrase before after : string) :
  jambonz_speech_text request_json = Ok (VStr text) ->
  has_lone_surrogate text = false ->
  In phrase ["goodbye"; "bye"; "hang up"; "end call"] ->
  lower text = before +:+ phrase +:+ after ->
  exists audio_url w',
    call_tts E (VStr "Thank you for calling! Goodbye!") "en" w = (Ok audio_url, w') /\
    jambonz_gather E request_json w =
      (Ok (jsonify (VList
             [jambonz_reply audio_url (VStr "Thank you for calling! Goodbye!");
              jambonz_hangup])), w').
Proof.
  intros Hdec Hprint Hin Hsub.
  destruct (call_tts_returns E (VStr "Thank you for calling! Goodbye!") "en" w)
    as [audio_url [w' [Htts _]]].
  exists audio_url, w'. split; [exact Htts |].
  apply (jambonz_gather_closing E request_json text);
    [exact Hdec | exact Hprint | | | exact Htts].
  - intros Hempty. rewrite Hempty in Hsub.
    destruct before; [| discriminate Hsub].
    rewrite append_nil in Hsub.
    destruct Hin as [<-|[<-|[<-|[<-|[]]]]]; discriminate Hsub.
  - apply any_phrase_in_spec. exists phrase, before, after. split; assumption.
Qed.

(** C1 (the code misses a case).  The transcript "that's all" holds a phrase
    of the closing-phrase set, yet [jambonz_gather], whose own list lacks
    that phrase, does not end the call: it asks the Respond backend for a
    reply, has it synthesized, and answers with the reply followed by a new
    gather. *)
Theorem jambonz_gather_continues_after_thats_all (E : Env) (w : World) :
  any_phrase_in twilio_goodbye_phrases (lower "that's all") = true /\
  exists ai_response audio_url w',
    jambonz_gather E (jambonz_payload (VStr "that's all")) w =
      (Ok (jsonify (VList
             [jambonz_reply audio_url ai_response;
              jambonz_turn_gather E;
              jambonz_hangup])), w') /\
    call_llm E "that's all" VNone w =
      (Ok ai_response, sent (respond_request E "that's all") w) /\
    call_tts E ai_response "en" (sent (respond_request E "that's all") w) =
      (Ok audio_url, w') /\
    outbox w' =
      outbox (tts_sent E ai_response "en" (sent (respond_request E "that's all") w)).
Proof.
  split; [reflexivity |].
  destruct (call_llm_returns E "that's all" VNone w) as [ai_response Hllm].
  destruct (call_tts_returns E ai_response "en" (sent (respond_request E "that's all") w))
    as [audio_url [w' [Htts Hout]]].
  exists ai_response, audio_url, w'. split; [| split; [exact Hllm | split; [exact Htts | exact Hout]]].
  apply (jambonz_gather_turn E _ "that's all" w ai_response
           (sent (respond_request E "that's all") w));
    [reflexivity | reflexivity | discriminate | reflexivity | exact Hllm | exact Htts].
Qed.

(** ** Faults that leave the handler (C2) *)

(** A JSON body that is a list makes [jambonz_webhook] raise. *)
Lemma jambonz_webhook_list_raises (E : Env) (w : World) :
  jambonz_webhook E (VList [VInt 1]) w = (Raise AttributeError, w).
Proof. reflexivity. Qed.

(** C2 (the code misses a case).  For the payload
    [{"speech": {"alternatives": []}}] the handler [jambonz_gather] raises
    [IndexError] and returns no document: the default [[{}]] covers a missing
    list, not an empty one. *)
Theorem jambonz_gather_empty_alternatives_raises (E : Env) (w : World) :
  jambonz_gather E
    (VDict [("speech", VDict [("alternatives", VList [])])]) w =
    (Raise IndexError, w).
Proof. reflexivity. Qed.

(** ** Failure of the Respond call (C3) *)

(** C3 (the code misses a case).  The language-model backend answers with
    the status 200 and the body [{"response": null}], a payload that holds
    no reply text.  [call_llm] does not replace it by its apology: it
    returns [None], and the turn goes on with it.  On Twilio the caller
    hears the word "None"; on Jambonz the document says [null]. *)
Theorem respond_null_reply_is_spoken :
  call_llm Fixtures.speechless "hello" VNone Fixtures.fresh =
    (Ok VNone, sent (ollama_request Fixtures.speechless "hello") Fixtures.fresh) /\
  (exists resp,
      fst (twilio_gather Fixtures.speechless [("SpeechResult", "hello")]
             Fixtures.fresh) = Ok resp /\
      actions (payload resp) =
        [DoSay (VStr "None"); DoGather; DoSay (VStr "Are you still there?");
         DoHangup] /\
      says (payload resp) (respond_apology Fixtures.speechless) = false) /\
  (exists resp,
      fst (jambonz_gather Fixtures.speechless (jambonz_payload (VStr "hello"))
             Fixtures.fresh) = Ok resp /\
      actions (payload resp) = [DoSay VNone; DoGather; DoHangup] /\
      says (payload resp) (respond_apology Fixtures.speechless) = false).
Proof.
  split; [reflexivity |].
  split; eexists; (split; [vm_compute; reflexivity |]); split; vm_compute; reflexivity.
Qed.

(** ** Failure of the Synthesize call (C4) *)




(** ** The empty utterance (C5) *)

(** C5, counterexample.  For an empty [SpeechResult] and for an empty
    transcript the document says "I didn't catch that. Could you repeat?",
    two sentences, and not the text quoted in the claim. *)
Lemma reprompt_is_not_the_quoted_text :
  (exists resp,
      fst (twilio_gather Fixtures.offline [("SpeechResult", "")] Fixtures.fresh) =
        Ok resp /\
      says (payload resp) spec_reprompt = false /\
      says (payload resp) "I didn't catch that. Could you repeat?" = true) /\
  (exists resp,
      fst (jambonz_gather Fixtures.offline (jambonz_payload (VStr "")) Fixtures.fresh) =
        Ok resp /\
      says (payload resp) spec_reprompt = false /\
      says (payload resp) "I didn't catch that. Could you repeat?" = true).
Proof.
  split; eexists; (split; [vm_compute; reflexivity |]); split; vm_compute; reflexivity.
Qed.

(** C5, as amended.  When the decoded utterance text is the empty string,
    either turn handler returns a document that says the fixed re-prompt
    "I didn't catch that. Could you repeat?" and then gathers again, and
    leaves the world as it was: no request is sent, so the Respond backend
    is not invoked. *)
Theorem empty_utterance_is_reprompted (E : Env) (w : World) :
  (forall form,
      form_get form "SpeechResult" "" = "" ->
      twilio_gather E form w =
        (Ok (xml_response E
               [Say (Some "alice") (VStr "I didn't catch that. Could you repeat?");
                twilio_gather_verb E [];
                Say None (VStr "Still nothing. Goodbye!");
                Hangup]), w)) /\
  (forall request_json,
      jambonz_speech_text request_json = Ok (VStr "") ->
      jambonz_gather E request_json w =
        (Ok (jsonify (VList
               [VDict [("verb", VStr "say");
                       ("text", VStr "I didn't catch that. Could you repeat?")];
                jambonz_turn_gather E;
                jambonz_hangup])), w)).
Proof.
  split.
  - intros form Hform. apply twilio_gather_empty, Hform.
  - intros request_json Hdec.
    apply (jambonz_gather_empty E request_json (VStr "") w Hdec). reflexivity.
Qed.

(** A form without [SpeechResult] and a payload without [speech]. *)
Lemma empty_utterance_is_reprompted_witness :
  outbox (snd (twilio_gather Fixtures.offline [("CallSid", "CA1")] Fixtures.fresh)) = [] /\
  outbox (snd (jambonz_gather Fixtures.offline (VDict [("call_sid", VStr "c1")])
                 Fixtures.fresh)) = [].
Proof.
  destruct (empty_utterance_is_reprompted Fixtures.offline Fixtures.fresh) as [Htw Hjb].
  split.
  - rewrite (Htw [("CallSid", "CA1")]); reflexivity.
  - rewrite (Hjb (VDict [("call_sid", VStr "c1")])); reflexivity.
Defined.

(** ** The audio cache (C6, C10) *)

(** C6 (the code misses a case).  The path [/audio/.] is routed to
    [serve_audio] with the parameter [.], an id under which no artifact was
    ever stored.  [AUDIO_DIR / "."] is the cache directory itself, which
    exists, so the handler does not answer 404: it hands the path to
    [send_file], which raises (on the directory that it finds there, or on
    finding nothing when it looks at another place than [AUDIO_DIR]). *)
Theorem serve_audio_dot_raises (E : Env) (w : World) :
  route_audio "/audio/." = Some "." /\
  serve_audio E "." w =
    (Raise match send_file_root E with
           | OtherDirectory None => FileNotFoundError
           | _ => IsADirectoryError
           end, w).
Proof.
  split; [reflexivity |]. rewrite serve_audio_run. unfold served_entry.
  destruct (send_file_root E) as [|[entries|]]; reflexivity.
Qed.

(** C10 (the code misses a case).  The server runs with the default,
    relative [AUDIO_DIR] and was started in another directory than that of
    its module.  [call_tts] stores the audio in [AUDIO_DIR] below the
    working directory and returns its URL; the retrieval handler finds the
    file there ([exists] is true) and hands the same relative path to
    [send_file], which looks below the directory of the module: the request
    for the URL that was just returned is answered with an exception, not
    with the bytes of the file. *)
Theorem stored_audio_is_not_served_from_another_directory :
  exists w',
    call_tts Fixtures.started_elsewhere (VStr "Hello") "en" Fixtures.fresh =
      (Ok (VStr ("http://localhost:8080/audio/" +:+
                 "00000000-0000-4000-8000-000000000000.wav")), w') /\
    audio_dir w' !! "00000000-0000-4000-8000-000000000000.wav" =
      Some (File Fixtures.wav) /\
    route_audio "/audio/00000000-0000-4000-8000-000000000000.wav" =
      Some "00000000-0000-4000-8000-000000000000.wav" /\
    serve_audio Fixtures.started_elsewhere
      "00000000-0000-4000-8000-000000000000.wav" w' =
      (Raise FileNotFoundError, w').
Proof.
  eexists. split; [vm_compute; reflexivity |].
  split; [vm_compute; reflexivity |].
  split; [reflexivity |]. vm_compute. reflexivity.
Qed.

(** ** The workflow client (C7) *)

(** C7 (the code misses a case).  The workflow backend answers with the
    status 200 and the JSON body [{}], which holds no text.  Every [get] of
    the extraction falls back to its default, the last one to the empty
    string, and [call_langflow] returns that empty string as the reply
    instead of a fixed fallback utterance. *)
Theorem call_langflow_returns_empty_text
    (E : Env) (message : string) (w : World) :
  let E' := with_network E
              (fun _ _ => Answers (Response 200 [Byte.x7b; Byte.x7d]
                                     (Some (VDict [])))) in
  call_langflow E' message w =
    (Ok (VStr ""), sent (langflow_request E' message) w).
Proof. reflexivity. Qed.

(** ** The direct client (C8) *)

(** C8, counterexample.  The [options] object of the request that the
    direct client sends has no entry [max_tokens]; the bound on the reply
    length is sent as [num_predict]. *)
Lemma ollama_options_have_no_max_tokens :
  map (fun req => (request_option req "max_tokens",
                   request_option req "num_predict"))
    (outbox (snd (call_llm Fixtures.offline "What's the weather" VNone
                    Fixtures.fresh))) =
    [(None, Some (VInt 150))].
Proof. reflexivity. Qed.

(** C8, as amended.  With no workflow configured, [call_llm] sends one POST
    to [/api/generate] of the language-model backend with a 60-second
    timeout; its JSON body carries the model name, the prompt (persona, then
    the message), [stream] set to false, and an [options] object with
    [temperature] 0.7 and [num_predict] 150.  When the backend answers a
    JSON object without an error status, the reply is its [response] field,
    or a fixed text when the field is missing. *)
Theorem call_llm_direct_request
    (E : Env) (message : string) (history : value) (w : World) :
  LANGFLOW_FLOW_ID E = "" ->
  exists reply_text req,
    call_llm E message history w = (Ok reply_text, sent req w) /\
    req_url req = LLM_URL E +:+ "/api/generate" /\
    req_timeout req = 60 /\
    request_field req "model" = Some (VStr "llama3.1:8b") /\
    request_field req "prompt" =
      Some (VStr (SYSTEM_PROMPT E +:+ nl +:+ nl +:+ "User: " +:+ message
                    +:+ nl +:+ "Assistant:")) /\
    request_field req "stream" = Some (VBool false) /\
    request_option req "temperature" = Some (VFloat temperature) /\
    request_option req "num_predict" = Some (VInt 150) /\
    request_option req "max_tokens" = None /\
    (forall r items,
        network E (outbox w) req = Answers r ->
        error_status r = false ->
        json r = Some (VDict items) ->
        reply_text =
          match dict_lookup items "response" with
          | Some text => text
          | None => VStr "I couldn't process that."
          end).
Proof.
  intros Hid. eexists. exists (ollama_request E message).
  assert (Hreq : respond_request E message = ollama_request E message).
  { unfold respond_request. rewrite Hid. reflexivity. }
  split; [rewrite call_llm_run, Hreq; reflexivity |].
  repeat split.
  intros r items Hnet Hstatus Hjson. rewrite Hnet, Hstatus, Hjson.
  unfold respond_extract, ollama_extract. rewrite Hid. cbn [String.eqb negb py_get].
  destruct (dict_lookup items "response"); reflexivity.
Qed.

(** The language model answers "Hi there."; that is the reply. *)
Lemma call_llm_direct_request_witness :
  fst (call_llm Fixtures.not_modified "hello" VNone Fixtures.fresh) =
    Ok (VStr "Hi there.").
Proof.
  destruct (call_llm_direct_request Fixtures.not_modified "hello" VNone
              Fixtures.fresh eq_refl)
    as [reply_text [req [Hrun [Hurl [_ [_ [_ [_ [_ [_ [_ Hreply]]]]]]]]]]].
  rewrite Hrun. cbn [fst]. f_equal.
  injection Hrun as _ Hreq.
  apply (Hreply (Response 200 [] (Some (VDict [("response", VStr "Hi there.")])))
           [("response", VStr "Hi there.")]); [| reflexivity | reflexivity].
  unfold Fixtures.not_modified, with_network, Fixtures.llm_answers.
  cbn [network]. rewrite Hurl. reflexivity.
Defined.

(** ** Shape of the turn documents (C9) *)






(** ** Further properties of the handlers *)

(** The caller says "Okay GOODBYE" on Twilio while Synthesize is down. *)
Lemma twilio_gather_closing_phrase_witness :
  fst (twilio_gather Fixtures.offline [("SpeechResult", "Okay GOODBYE")]
         Fixtures.fresh) =
    Ok (xml_response Fixtures.offline
          [Say (Some "alice")
             (VStr "Thank you for calling! Have a great day. Goodbye!");
           Hangup]).
Proof.
  destruct (twilio_gather_closing_phrase Fixtures.offline Fixtures.fresh
              [("SpeechResult", "Okay GOODBYE")] "goodbye" "okay " "")
    as [audio_url [w' [Htts Hrun]]].
  - simpl. tauto.
  - reflexivity.
  - rewrite Hrun. injection Htts as <- _. reflexivity.
Defined.

(** The caller says "please hang up" on Jambonz while Synthesize is down. *)
Lemma jambonz_gather_closing_phrase_witness :
  fst (jambonz_gather Fixtures.offline (jambonz_payload (VStr "please hang up"))
         Fixtures.fresh) =
    Ok (jsonify (VList
          [VDict [("verb", VStr "say");
                  ("text", VStr "Thank you for calling! Goodbye!")];
           jambonz_hangup])).
Proof.
  destruct (jambonz_gather_closing_phrase Fixtures.offline Fixtures.fresh
              (jambonz_payload (VStr "please hang up")) "please hang up"
              "hang up" "please " "")
    as [audio_url [w' [Htts Hrun]]].
  - reflexivity.
  - reflexivity.
  - simpl. tauto.
  - reflexivity.
  - rewrite Hrun. injection Htts as <- _. reflexivity.
Defined.






(** ** The greeting webhooks *)

(** The Twilio greeting sends one request, the synthesis of the greeting,
    and answers with the same document whatever the form holds: the greeting
    played (when [call_tts] returned a URL) or said, a gather that posts to
    [/gather] with the prompt "I'm listening." nested in it, a spoken
    fallback and a hangup.  It never raises. *)
Theorem twilio_voice_greets (E : Env) (w : World) :
  exists audio_url w',
    call_tts E (VStr greeting) "en" w = (Ok audio_url, w') /\
    outbox w' = (outbox w ++ [tts_request E (VStr greeting) "en"])%list /\
    forall form,
      twilio_voice E form w =
        (Ok (xml_response E
               [twilio_reply audio_url (VStr greeting);
                Gather (BASE_URL E +:+ "/gather") [Say None (VStr "I'm listening.")];
                Say None (VStr "I didn't hear anything. Goodbye!");
                Hangup]), w').
Proof.
  destruct (call_tts_returns E (VStr greeting) "en" w) as [audio_url [w' [Htts Hout]]].
  exists audio_url, w'. split; [exact Htts |]. split; [exact Hout |].
  intros form. apply (twilio_voice_run E form w audio_url w' Htts).
Qed.



(** ** Decoding of the Jambonz payload *)

(** A Jambonz turn whose payload lacks a level of the path to the transcript
    is treated as silence: with a body that is [null] or [{}] (or another
    falsy JSON value), with no [speech], with no [alternatives] in it, or
    with no [transcript] in the first alternative, the handler answers with
    the re-prompt and sends nothing. *)
Theorem jambonz_missing_fields_reprompt (E : Env) (w : World)
    (request_json : value) :
  truthy request_json = false \/
  (exists items,
      request_json = VDict items /\ dict_lookup items "speech" = None) \/
  (exists items speech,
      request_json = VDict items /\
      dict_lookup items "speech" = Some (VDict speech) /\
      dict_lookup speech "alternatives" = None) \/
  (exists items speech first others,
      request_json = VDict items /\
      dict_lookup items "speech" = Some (VDict speech) /\
      dict_lookup speech "alternatives" = Some (VList (VDict first :: others)) /\
      dict_lookup first "transcript" = None) ->
  jambonz_gather E request_json w = (Ok (jambonz_reprompt E), w).
Proof.
  intros Hshape.
  apply (jambonz_gather_empty E request_json (VStr "") w); [| reflexivity].
  unfold jambonz_speech_text, py_or.
  destruct Hshape as [Hf | [[items [-> Hs]] | [[items [speech [-> [Hs Ha]]]]
                    | [items [speech [first [others [-> [Hs [Ha Ht]]]]]]]]]].
  - rewrite Hf. reflexivity.
  - destruct (truthy (VDict items)); cbn [py_get]; [rewrite Hs |]; reflexivity.
  - destruct (truthy (VDict items)) eqn:Htr; cbn [py_get].
    + rewrite Hs. cbn [py_get]. rewrite Ha. reflexivity.
    + destruct items; [discriminate Hs | discriminate Htr].
  - destruct (truthy (VDict items)) eqn:Htr; cbn [py_get].
    + rewrite Hs. cbn [py_get]. rewrite Ha. cbn [py_index0 py_get].
      rewrite Ht. reflexivity.
    + destruct items; [discriminate Hs | discriminate Htr].
Qed.

(** A payload with only a call id, and one whose first alternative has a
    confidence and no transcript. *)
Lemma jambonz_missing_fields_reprompt_witness :
  jambonz_gather Fixtures.offline (VDict [("call_sid", VStr "c1")]) Fixtures.fresh =
    (Ok (jambonz_reprompt Fixtures.offline), Fixtures.fresh) /\
  jambonz_gather Fixtures.offline
    (VDict [("speech",
             VDict [("alternatives", VList [VDict [("confidence", VInt 1)]])])])
    Fixtures.fresh =
    (Ok (jambonz_reprompt Fixtures.offline), Fixtures.fresh).
Proof.
  split; apply jambonz_missing_fields_reprompt.
  - right. left. eexists. split; reflexivity.
  - right. right. right. eexists _, _, _, _. repeat split.
Defined.

(** Only the transcript of the first alternative counts: a payload behaves
    as the payload that holds that transcript and nothing else, whatever its
    other fields and alternatives are. *)
Theorem jambonz_first_alternative_decides (E : Env) (w : World)
    (items speech first : list (string * value)) (others : list value)
    (transcript : value) :
  dict_lookup items "speech" = Some (VDict speech) ->
  dict_lookup speech "alternatives" = Some (VList (VDict first :: others)) ->
  dict_lookup first "transcript" = Some transcript ->
  jambonz_speech_text (VDict items) = Ok transcript /\
  jambonz_gather E (VDict items) w =
    jambonz_gather E (jambonz_payload transcript) w.
Proof.
  intros Hs Ha Ht.
  assert (Hitems : py_or (VDict items) (VDict []) = VDict items).
  { unfold py_or. destruct items; [discriminate Hs | reflexivity]. }
  split.
  - unfold jambonz_speech_text. rewrite Hitems. cbn [py_get]. rewrite Hs.
    cbn [py_get]. rewrite Ha. cbn [py_index0 py_get]. rewrite Ht. reflexivity.
  - unfold jambonz_gather, bind, lift. rewrite Hitems. cbn [py_get]. rewrite Hs.
    cbn [py_get]. rewrite Ha. cbn [py_index0 py_get]. rewrite Ht. reflexivity.
Qed.

(** A payload with a call id, a second alternative and a confidence. *)
Lemma jambonz_first_alternative_decides_witness :
  jambonz_gather Fixtures.offline
    (VDict [("call_sid", VStr "c1");
            ("speech",
             VDict [("alternatives",
                     VList [VDict [("confidence", VInt 1);
                                   ("transcript", VStr "goodbye")];
                            VDict [("transcript", VStr "good buy")]])])])
    Fixtures.fresh =
  jambonz_gather Fixtures.offline (jambonz_payload (VStr "goodbye")) Fixtures.fresh.
Proof.
  apply (proj2 (jambonz_first_alternative_decides Fixtures.offline Fixtures.fresh
                  [("call_sid", VStr "c1");
                   ("speech",
                    VDict [("alternatives",
                            VList [VDict [("confidence", VInt 1);
                                          ("transcript", VStr "goodbye")];
                                   VDict [("transcript", VStr "good buy")]])])]
                  [("alternatives",
                    VList [VDict [("confidence", VInt 1);
                                  ("transcript", VStr "goodbye")];
                           VDict [("transcript", VStr "good buy")]])]
                  [("confidence", VInt 1); ("transcript", VStr "goodbye")]
                  [VDict [("transcript", VStr "good buy")]]
                  (VStr "goodbye") eq_refl eq_refl eq_refl)).
Defined.

(** A fault of the Jambonz turn handler comes before any effect: when it
    raises, nothing was sent or stored, and the fault is one of three: the
    one of decoding the payload; the [UnicodeEncodeError] of logging a
    transcript that is a string with a surrogate; the [AttributeError] of
    calling [lower] on a transcript that is truthy and not a string. *)
Theorem jambonz_gather_faults_before_effects (E : Env) (w w' : World)
    (request_json : value) (e : exn) :
  jambonz_gather E request_json w = (Raise e, w') ->
  w' = w /\
  (jambonz_speech_text request_json = Raise e \/
   (e = UnicodeEncodeError /\
    exists transcript,
      jambonz_speech_text request_json = Ok (VStr transcript) /\
      has_lone_surrogate transcript = true) \/
   (e = AttributeError /\
    exists transcript,
      jambonz_speech_text request_json = Ok transcript /\
      truthy transcript = true /\ is_str transcript = false)).
Proof.
  intros Hrun.
  destruct (jambonz_speech_text request_json) as [speech_text|e'] eqn:Hdec.
  2: { rewrite (jambonz_gather_raises E request_json e' w Hdec) in Hrun.
       injection Hrun as <- <-. split; [reflexivity | left; reflexivity]. }
  destruct (printable speech_text) eqn:Hprint.
  2: { rewrite (jambonz_gather_garbled E request_json speech_text w Hdec Hprint)
         in Hrun.
       injection Hrun as <- <-. split; [reflexivity |]. right. left.
       split; [reflexivity |].
       destruct speech_text as [| | | |text| |]; try discriminate Hprint.
       exists text. split; [reflexivity |].
       cbn [printable] in Hprint. destruct (has_lone_surrogate text);
         [reflexivity | discriminate Hprint]. }
  destruct (truthy speech_text) eqn:Htruthy.
  2: { rewrite (jambonz_gather_empty E request_json speech_text w Hdec Htruthy)
         in Hrun. discriminate Hrun. }
  destruct (is_str speech_text) eqn:Hstr.
  - destruct speech_text as [| | | |text| |]; try discriminate Hstr.
    assert (Hne : text <> "") by (intros ->; discriminate Htruthy).
    assert (Hclean : has_lone_surrogate text = false).
    { cbn [printable] in Hprint. destruct (has_lone_surrogate text);
        [discriminate Hprint | reflexivity]. }
    destruct (any_phrase_in jambonz_goodbye_phrases (lower text)) eqn:Hbye.
    + destruct (call_tts_returns E (VStr "Thank you for calling! Goodbye!") "en" w)
        as [audio_url [w1 [Htts _]]].
      rewrite (jambonz_gather_closing E request_json text w audio_url w1
                 Hdec Hclean Hne Hbye Htts) in Hrun. discriminate Hrun.
    + destruct (call_llm_returns E text VNone w) as [ai_response Hllm].
      destruct (call_tts_returns E ai_response "en"
                  (sent (respond_request E text) w))
        as [audio_url [w2 [Htts _]]].
      rewrite (jambonz_gather_turn E request_json text w ai_response _ audio_url w2
                 Hdec Hclean Hne Hbye Hllm Htts) in Hrun. discriminate Hrun.
  - rewrite (jambonz_gather_not_text E request_json speech_text w Hdec Htruthy Hstr)
      in Hrun.
    injection Hrun as <- <-. split; [reflexivity |].
    right. right. split; [reflexivity |]. exists speech_text.
    repeat split; assumption.
Qed.

(** A transcript that is the number 5. *)
Lemma jambonz_gather_faults_before_effects_witness :
  Fixtures.fresh = Fixtures.fresh /\
  (jambonz_speech_text (jambonz_payload (VInt 5)) = Raise AttributeError \/
   (AttributeError = UnicodeEncodeError /\
    exists transcript,
      jambonz_speech_text (jambonz_payload (VInt 5)) = Ok (VStr transcript) /\
      has_lone_surrogate transcript = true) \/
   (AttributeError = AttributeError /\
    exists transcript,
      jambonz_speech_text (jambonz_payload (VInt 5)) = Ok transcript /\
      truthy transcript = true /\ is_str transcript = false)).
Proof.
  apply (jambonz_gather_faults_before_effects Fixtures.offline Fixtures.fresh
           Fixtures.fresh (jambonz_payload (VInt 5)) AttributeError).
  reflexivity.
Defined.

(** ** The two providers side by side *)



(** ** Closing phrases are looked for anywhere in the utterance *)

(** Once an utterance ends the call, so does every utterance that contains
    it, in any letter case around it, and the answer is the same, document
    and effects: what else the caller said does not matter.  This holds on
    both providers; on Jambonz, where the transcript is logged, for a
    longer utterance that holds no surrogate. *)
Theorem closing_utterance_absorbs_context (E : Env) (w : World)
    (text before after : string) :
  (any_phrase_in twilio_goodbye_phrases (lower text) = true ->
   twilio_gather E [("SpeechResult", before +:+ text +:+ after)] w =
     twilio_gather E [("SpeechResult", text)] w) /\
  (any_phrase_in jambonz_goodbye_phrases (lower text) = true ->
   has_lone_surrogate (before +:+ text +:+ after) = false ->
   jambonz_gather E (jambonz_payload (VStr (before +:+ text +:+ after))) w =
     jambonz_gather E (jambonz_payload (VStr text)) w).
Proof.
  assert (Hnonempty : forall phrases,
             ~ In "" phrases ->
             forall t, any_phrase_in phrases (lower t) = true -> t <> "").
  { intros phrases Hnot t Hbye ->. apply any_phrase_in_spec in Hbye.
    destruct Hbye as [p [a [b [Hin Hab]]]].
    destruct a; [| discriminate Hab]. destruct p; [contradiction | discriminate Hab]. }
  split.
  - intros Hbye.
    pose proof (any_phrase_in_embedded _ text before after Hbye) as Hbye'.
    assert (Hne : text <> "").
    { apply (Hnonempty twilio_goodbye_phrases); [| exact Hbye].
      simpl. intuition discriminate. }
    assert (Hne' : before +:+ text +:+ after <> "").
    { apply (Hnonempty twilio_goodbye_phrases); [| exact Hbye'].
      simpl. intuition discriminate. }
    destruct (call_tts_returns E
                (VStr "Thank you for calling! Have a great day. Goodbye!") "en" w)
      as [audio_url [w' [Htts _]]].
    rewrite (twilio_gather_closing E [("SpeechResult", before +:+ text +:+ after)]
               w audio_url w' Hne' Hbye' Htts).
    rewrite (twilio_gather_closing E [("SpeechResult", text)]
               w audio_url w' Hne Hbye Htts).
    reflexivity.
  - intros Hbye Hclean'.
    pose proof (any_phrase_in_embedded _ text before after Hbye) as Hbye'.
    assert (Hclean : has_lone_surrogate text = false).
    { apply has_lone_surrogate_append in Hclean'. destruct Hclean' as [_ Hrest].
      apply has_lone_surrogate_append in Hrest. tauto. }
    assert (Hne : text <> "").
    { apply (Hnonempty jambonz_goodbye_phrases); [| exact Hbye].
      simpl. intuition discriminate. }
    assert (Hne' : before +:+ text +:+ after <> "").
    { apply (Hnonempty jambonz_goodbye_phrases); [| exact Hbye'].
      simpl. intuition discriminate. }
    destruct (call_tts_returns E (VStr "Thank you for calling! Goodbye!") "en" w)
      as [audio_url [w' [Htts _]]].
    rewrite (jambonz_gather_closing E
               (jambonz_payload (VStr (before +:+ text +:+ after)))
               (before +:+ text +:+ after) w audio_url w'
               eq_refl Hclean' Hne' Hbye' Htts).
    rewrite (jambonz_gather_closing E (jambonz_payload (VStr text)) text w
               audio_url w' eq_refl Hclean Hne Hbye Htts).
    reflexivity.
Qed.

(** "Bye" inside a longer sentence. *)
Lemma closing_utterance_absorbs_context_witness :
  twilio_gather Fixtures.offline
    [("SpeechResult", "Tell me about Abyei")] Fixtures.fresh =
  twilio_gather Fixtures.offline [("SpeechResult", "bye")] Fixtures.fresh.
Proof.
  apply (proj1 (closing_utterance_absorbs_context Fixtures.offline Fixtures.fresh
                  "bye" "Tell me about A" "i")).
  reflexivity.
Defined.

(** ** What a webhook does to the world *)

Lemma bounded_effect_none (E : Env) (w : World) : bounded_effect E w w.
Proof.
  repeat split; try lia. exists []. rewrite app_nil_r. split; [reflexivity | simpl; lia].
Qed.

Lemma bounded_effect_sent (E : Env) (w : World) (req : request) :
  bounded_effect E w (sent req w).
Proof.
  repeat split; cbn; try lia. exists [req]. split; [reflexivity | simpl; lia].
Qed.

(** One call of [call_tts], after at most one other request, stays within
    the bound. *)
Lemma bounded_effect_after_tts (E : Env) (w w1 w' : World) (earlier : list request)
    (text : value) (language : string) (audio_url : value) :
  outbox w1 = (outbox w ++ earlier)%list ->
  (length earlier <= 1)%nat ->
  draws w1 = draws w ->
  audio_dir w1 = audio_dir w ->
  call_tts E text language w1 = (Ok audio_url, w') ->
  bounded_effect E w w'.
Proof.
  intros Hout Hlen Hdraws Hdir Hrun.
  rewrite call_tts_run in Hrun. cbv zeta in Hrun.
  assert (Hname : next_audio_name E w1 = next_audio_name E w).
  { unfold next_audio_name. rewrite Hdraws. reflexivity. }
  assert (Hcases :
            (outbox w' = outbox w1 \/
             outbox w' = (outbox w1 ++ [tts_request E text language])%list) /\
            (draws w' = draws w1 \/ draws w' = S (draws w1)) /\
            (audio_dir w' = audio_dir w1 \/
             exists data,
               audio_dir w' = <[next_audio_name E w1 := File data]> (audio_dir w1))).
  { destruct (json_compliant text); [| injection Hrun as _ <-; auto].
    destruct (network E (outbox w1) _) as [r|e].
    - destruct (error_status r).
      + injection Hrun as _ <-. cbn. auto.
      + destruct (path_lookup (audio_dir w1) _) as [[data|]|];
          injection Hrun as _ <-; cbn; (split; [| split]); eauto.
    - injection Hrun as _ <-. cbn. auto. }
  destruct Hcases as [Hout' [Hdraws' Hdir']].
  split; [| split].
  - destruct Hout' as [Hout' | Hout'].
    + exists earlier. rewrite Hout', Hout. split; [reflexivity | lia].
    + exists (earlier ++ [tts_request E text language])%list.
      rewrite Hout', Hout, <- app_assoc. split; [reflexivity |].
      rewrite length_app. simpl. lia.
  - lia.
  - intros name Hne. destruct Hdir' as [-> | [data ->]].
    + rewrite Hdir. reflexivity.
    + rewrite Hname, Hdir. apply lookup_insert_ne. congruence.
Qed.

(** Every webhook handler sends at most two requests, draws at most one
    UUID and changes at most one entry of the audio directory, the one of
    the next audio name: no stored artifact of another name is ever changed
    or removed.  This holds also when the handler raises.  Serving an
    artifact changes nothing. *)
Theorem webhooks_have_bounded_effects (E : Env) (w : World) :
  (forall form, bounded_effect E w (snd (twilio_voice E form w))) /\
  (forall form, bounded_effect E w (snd (twilio_gather E form w))) /\
  (forall request_json, bounded_effect E w (snd (jambonz_webhook E request_json w))) /\
  (forall request_json, bounded_effect E w (snd (jambonz_gather E request_json w))) /\
  (forall filename, snd (serve_audio E filename w) = w).
Proof.
  assert (Htts : forall text,
             exists audio_url w',
               call_tts E text "en" w = (Ok audio_url, w') /\
               bounded_effect E w w').
  { intros text.
    destruct (call_tts_returns E text "en" w) as [audio_url [w' [Hrun _]]].
    exists audio_url, w'. split; [exact Hrun |].
    apply (bounded_effect_after_tts E w w w' [] text "en" audio_url);
      [rewrite app_nil_r; reflexivity | simpl; lia | reflexivity | reflexivity
      | exact Hrun]. }
  assert (Hturn : forall text,
             exists ai_response audio_url w2,
               call_llm E text VNone w =
                 (Ok ai_response, sent (respond_request E text) w) /\
               call_tts E ai_response "en" (sent (respond_request E text) w) =
                 (Ok audio_url, w2) /\
               bounded_effect E w w2).
  { intros text.
    destruct (call_llm_returns E text VNone w) as [ai_response Hllm].
    destruct (call_tts_returns E ai_response "en" (sent (respond_request E text) w))
      as [audio_url [w2 [Hrun _]]].
    exists ai_response, audio_url, w2. split; [exact Hllm |]. split; [exact Hrun |].
    apply (bounded_effect_after_tts E w (sent (respond_request E text) w) w2
             [respond_request E text] ai_response "en" audio_url);
      [reflexivity | simpl; lia | reflexivity | reflexivity | exact Hrun]. }
  split; [| split; [| split; [| split]]].
  - intros form. destruct (Htts (VStr greeting)) as [audio_url [w' [Hrun Hb]]].
    rewrite (twilio_voice_run E form w audio_url w' Hrun). exact Hb.
  - intros form.
    destruct (String.eqb_spec (form_get form "SpeechResult" "") "") as [Hempty|Hne].
    + rewrite (twilio_gather_empty E form w Hempty). apply bounded_effect_none.
    + destruct (any_phrase_in twilio_goodbye_phrases
                  (lower (form_get form "SpeechResult" ""))) eqn:Hbye.
      * destruct (Htts (VStr "Thank you for calling! Have a great day. Goodbye!"))
          as [audio_url [w' [Hrun Hb]]].
        rewrite (twilio_gather_closing E form w audio_url w' Hne Hbye Hrun).
        exact Hb.
      * destruct (Hturn (form_get form "SpeechResult" ""))
          as [ai_response [audio_url [w2 [Hllm [Hrun Hb]]]]].
        destruct (printable ai_response) eqn:Hprint.
        -- rewrite (twilio_gather_turn E form w ai_response _ audio_url w2
                      Hne Hbye Hllm Hprint Hrun).
           exact Hb.
        -- rewrite (twilio_gather_garbled E form w ai_response _
                      Hne Hbye Hllm Hprint).
           apply bounded_effect_sent.
  - intros request_json.
    destruct (jambonz_call_fields request_json) as [fields|e] eqn:Hfields.
    2: { rewrite (jambonz_webhook_raises E request_json e w Hfields).
         apply bounded_effect_none. }
    destruct (forallb printable fields) eqn:Hprint.
    2: { rewrite (jambonz_webhook_garbled E request_json fields w Hfields Hprint).
         apply bounded_effect_none. }
    destruct (Htts (VStr greeting)) as [audio_url [w' [Hrun Hb]]].
    rewrite (jambonz_webhook_run E request_json fields w audio_url w'
               Hfields Hprint Hrun).
    exact Hb.
  - intros request_json.
    destruct (jambonz_speech_text request_json) as [speech_text|e] eqn:Hdec.
    2: { rewrite (jambonz_gather_raises E request_json e w Hdec).
         apply bounded_effect_none. }
    destruct (printable speech_text) eqn:Hprint.
    2: { rewrite (jambonz_gather_garbled E request_json speech_text w Hdec Hprint).
         apply bounded_effect_none. }
    destruct (truthy speech_text) eqn:Htruthy.
    2: { rewrite (jambonz_gather_empty E request_json speech_text w Hdec Htruthy).
         apply bounded_effect_none. }
    destruct (is_str speech_text) eqn:Hstr.
    + destruct speech_text as [| | | |text| |]; try discriminate Hstr.
      assert (Hne : text <> "") by (intros ->; discriminate Htruthy).
      assert (Hclean : has_lone_surrogate text = false).
      { cbn [printable] in Hprint. destruct (has_lone_surrogate text);
          [discriminate Hprint | reflexivity]. }
      destruct (any_phrase_in jambonz_goodbye_phrases (lower text)) eqn:Hbye.
      * destruct (Htts (VStr "Thank you for calling! Goodbye!"))
          as [audio_url [w' [Hrun Hb]]].
        rewrite (jambonz_gather_closing E request_json text w audio_url w'
                   Hdec Hclean Hne Hbye Hrun).
        exact Hb.
      * destruct (Hturn text) as [ai_response [audio_url [w2 [Hllm [Hrun Hb]]]]].
        rewrite (jambonz_gather_turn E request_json text w ai_response _
                   audio_url w2 Hdec Hclean Hne Hbye Hllm Hrun).
        exact Hb.
    + rewrite (jambonz_gather_not_text E request_json speech_text w
                 Hdec Htruthy Hstr).
      apply bounded_effect_none.
  - intros filename. rewrite serve_audio_run.
    destruct (path_lookup (audio_dir w) filename);
      [destruct (served_entry E w filename) as [[data|]|] |]; reflexivity.
Qed.

(** ** The backend clients *)

(** [call_tts] never raises.  It sends one request (the text and the
    language as JSON, 30 seconds of timeout), or none when the text holds a
    [NaN] or an infinity, which the serialisation of the request refuses.
    When it returns [None] the audio directory is as it was.  When it
    returns a URL, the request was sent, the backend answered without an
    error status, and the one change to the directory is the file of the
    next audio name, holding the body of the answer. *)
Theorem call_tts_stores_all_or_nothing (E : Env) (w : World) (text : value)
    (language : string) :
  exists audio_url w',
    call_tts E text language w = (Ok audio_url, w') /\
    outbox w' =
      (if json_compliant text
       then (outbox w ++ [Request (TTS_URL E +:+ "/tts")
                            (VDict [("text", text); ("language", VStr language)])
                            30])%list
       else outbox w) /\
    ((audio_url = VNone /\ audio_dir w' = audio_dir w) \/
     (exists r,
         json_compliant text = true /\
         network E (outbox w) (tts_request E text language) = Answers r /\
         error_status r = false /\
         audio_url = VStr (BASE_URL E +:+ "/audio/" +:+ next_audio_name E w) /\
         audio_dir w' =
           <[next_audio_name E w := File (content r)]> (audio_dir w))).
Proof.
  rewrite call_tts_run. cbv zeta. fold (tts_request E text language).
  destruct (json_compliant text).
  2: { eexists _, _. split; [reflexivity |]. split; [reflexivity |].
       left. split; reflexivity. }
  destruct (network E (outbox w) (tts_request E text language)) as [r|e].
  - destruct (error_status r) eqn:Hstatus.
    + eexists _, _. split; [reflexivity |]. split; [reflexivity |]. left. split; reflexivity.
    + destruct (path_lookup (audio_dir w) (next_audio_name E w)) as [[data|]|];
        (eexists _, _; split; [reflexivity |]; split; [reflexivity |]);
        [right | left | right]; try (split; reflexivity);
        exists r; (split; [reflexivity |]); (split; [reflexivity |]);
        (split; [exact Hstatus |]); split; reflexivity.
  - eexists _, _. split; [reflexivity |]. split; [reflexivity |]. left. split; reflexivity.
Qed.

(** The workflow client returns the text found at
    [outputs[0].outputs[0].results.message.text] of the answer, whatever
    else the answer holds; and it returns a fixed sentence when [outputs] is
    there and falsy (an empty list, [null]). *)
Theorem call_langflow_extracts_text (E : Env) (w : World) (message : string)
    (r : response) (items : list (string * value)) :
  network E (outbox w) (langflow_request E message) = Answers r ->
  error_status r = false ->
  json r = Some (VDict items) ->
  (forall run runs step steps results msg text,
      dict_lookup items "outputs" = Some (VList (VDict run :: runs)) ->
      dict_lookup run "outputs" = Some (VList (VDict step :: steps)) ->
      dict_lookup step "results" = Some (VDict results) ->
      dict_lookup results "message" = Some (VDict msg) ->
      dict_lookup msg "text" = Some text ->
      call_langflow E message w =
        (Ok text, sent (langflow_request E message) w)) /\
  (forall outputs,
      dict_lookup items "outputs" = Some outputs ->
      truthy outputs = false ->
      call_langflow E message w =
        (Ok (VStr "I couldn't process that through the workflow."),
         sent (langflow_request E message) w)).
Proof.
  intros Hnet Hstatus Hjson.
  split.
  - intros run runs step steps results msg text Ho Hr Hs Hm Ht.
    rewrite call_langflow_run, Hnet, Hstatus, Hjson.
    unfold langflow_extract.
    cbn [py_get]. rewrite Ho. cbn [truthy py_index0 py_get].
    rewrite Hr. cbn [py_index0 py_get]. rewrite Hs. cbn [py_get]. rewrite Hm.
    cbn [py_get]. rewrite Ht. reflexivity.
  - intros outputs Ho Hfalsy.
    rewrite call_langflow_run, Hnet, Hstatus, Hjson.
    unfold langflow_extract.
    cbn [py_get]. rewrite Ho, Hfalsy. reflexivity.
Qed.

(** The workflow answers "It is sunny."; another one answers with no
    outputs. *)
Lemma call_langflow_extracts_text_witness :
  fst (call_langflow
         (with_network Fixtures.offline
            (fun _ _ => Answers (Response 200 []
                                   (Some (langflow_body (VStr "It is sunny."))))))
         "What's the weather" Fixtures.fresh) = Ok (VStr "It is sunny.") /\
  fst (call_langflow
         (with_network Fixtures.offline
            (fun _ _ => Answers (Response 200 []
                                   (Some (VDict [("outputs", VList [])])))))
         "What's the weather" Fixtures.fresh) =
    Ok (VStr "I couldn't process that through the workflow.").
Proof.
  split.
  - destruct (call_langflow_extracts_text
                (with_network Fixtures.offline
                   (fun _ _ => Answers (Response 200 []
                                          (Some (langflow_body (VStr "It is sunny."))))))
                Fixtures.fresh "What's the weather" _ _ eq_refl eq_refl eq_refl)
      as [Htext _].
    erewrite Htext; reflexivity.
  - destruct (call_langflow_extracts_text
                (with_network Fixtures.offline
                   (fun _ _ => Answers (Response 200 []
                                          (Some (VDict [("outputs", VList [])])))))
                Fixtures.fresh "What's the weather" _ _ eq_refl eq_refl eq_refl)
      as [_ Hempty].
    erewrite Hempty; reflexivity.
Defined.

(** The health check names the backend that [call_llm] talks to: with no
    flow id it reports the workflow as "not configured" and [call_llm] posts
    to [/api/generate] of the language model; with a flow id it reports the
    workflow URL and [call_llm] posts to that workflow's run URL.  It sends
    nothing itself: it answers "ok" whether or not any backend is up. *)
Theorem health_names_the_respond_backend (E : Env) (ASR_URL : string)
    (w : World) (message : string) :
  exists resp,
    health E ASR_URL w = (Ok resp, w) /\
    status resp = 200 /\
    health_service resp "tts" = Some (VStr (TTS_URL E)) /\
    (LANGFLOW_FLOW_ID E = "" ->
     health_service resp "langflow" = Some (VStr "not configured") /\
     map req_url (outbox (snd (call_llm E message VNone w))) =
       (map req_url (outbox w) ++ [LLM_URL E +:+ "/api/generate"])%list) /\
    (LANGFLOW_FLOW_ID E <> "" ->
     health_service resp "langflow" = Some (VStr (LANGFLOW_URL E)) /\
     map req_url (outbox (snd (call_llm E message VNone w))) =
       (map req_url (outbox w) ++
          [LANGFLOW_URL E +:+ "/api/v1/run/" +:+ LANGFLOW_FLOW_ID E])%list).
Proof.
  eexists. split; [reflexivity |]. split; [reflexivity |]. split; [reflexivity |].
  destruct (call_llm_returns E message VNone w) as [text Hrun].
  rewrite Hrun. cbn [snd sent outbox]. rewrite map_app. cbn [map].
  unfold health_service, respond_request. cbn.
  split; intros Hid.
  - rewrite Hid. split; reflexivity.
  - destruct (String.eqb_spec (LANGFLOW_FLOW_ID E) ""); [contradiction |].
    split; reflexivity.
Qed.

(** The default configuration has no flow id. *)
Lemma health_names_the_respond_backend_witness :
  exists resp,
    health Fixtures.offline "http://localhost:9000" Fixtures.fresh =
      (Ok resp, Fixtures.fresh) /\
    health_service resp "langflow" = Some (VStr "not configured") /\
    map req_url (outbox (snd (call_llm Fixtures.offline "hello" VNone
                                Fixtures.fresh))) =
      ["http://localhost:11434/api/generate"].
Proof.
  destruct (health_names_the_respond_backend Fixtures.offline
              "http://localhost:9000" Fixtures.fresh "hello")
    as [resp [Hrun [_ [_ [Hdirect _]]]]].
  exists resp. split; [exact Hrun |]. apply Hdirect. reflexivity.
Defined.

(** ** Names of the stored artifacts *)

(** For a server whose [send_file] looks into [AUDIO_DIR] itself: an
    artifact stays as it was stored through every later synthesis whose
    UUID differs from its own: it is still served, byte for byte.  There is
    no check for a repeated UUID: when the later synthesis draws the same
    UUID and succeeds, the file is overwritten and the old URL serves the
    new audio. *)
Theorem artifact_survives_unless_uuid_repeats (E : Env) (w0 w w' : World)
    (data : bytes) (text : value) (language : string) (audio_url : value) :
  send_file_root E = SameDirectory ->
  audio_dir w !! next_audio_name E w0 = Some (File data) ->
  call_tts E text language w = (Ok audio_url, w') ->
  (uuid4_int (urandom E (draws w0)) <> uuid4_int (urandom E (draws w)) ->
   serve_audio E (next_audio_name E w0) w' =
     (Ok (HttpResponse 200 "audio/wav" (FileBytes data)), w')) /\
  (uuid4_int (urandom E (draws w0)) = uuid4_int (urandom E (draws w)) ->
   truthy audio_url = true ->
   exists r,
     network E (outbox w) (tts_request E text language) = Answers r /\
     serve_audio E (next_audio_name E w0) w' =
       (Ok (HttpResponse 200 "audio/wav" (FileBytes (content r))), w')).
Proof.
  intros Hroot Hstored Hrun. split.
  - intros Hdiff.
    assert (Hname : next_audio_name E w0 <> next_audio_name E w).
    { unfold next_audio_name. intros Heq. apply Hdiff.
      apply uuid_names_injective, Heq. }
    destruct (bounded_effect_after_tts E w w w' [] text language audio_url)
      as [_ [_ Hkeep]];
      [rewrite app_nil_r; reflexivity | simpl; lia | reflexivity | reflexivity
      | exact Hrun |].
    rewrite serve_audio_run, (served_entry_same E w' _ Hroot).
    rewrite (path_lookup_regular _ _ (next_audio_name_length E w0)).
    rewrite (Hkeep _ Hname), Hstored. reflexivity.
  - intros Hsame Htruthy.
    destruct (stored_audio_is_served E text language w w' audio_url Hroot Hrun Htruthy)
      as [r [Hnet [_ [_ [Hserve _]]]]].
    exists r. split; [exact Hnet |].
    unfold next_audio_name in *. rewrite Hsame. exact Hserve.
Qed.

(** Two greetings are synthesized one after the other; the first file is
    still served after the second was stored. *)
Lemma artifact_survives_unless_uuid_repeats_witness :
  exists w1 w2,
    call_tts Fixtures.synthesizing (VStr "Hello") "en" Fixtures.fresh =
      (Ok (VStr ("http://localhost:8080/audio/" +:+
                 "00000000-0000-4000-8000-000000000000.wav")), w1) /\
    call_tts Fixtures.synthesizing (VStr "Goodbye") "en" w1 =
      (Ok (VStr ("http://localhost:8080/audio/" +:+
                 "00000000-0000-4000-8000-000000000001.wav")), w2) /\
    serve_audio Fixtures.synthesizing
      "00000000-0000-4000-8000-000000000000.wav" w2 =
      (Ok (HttpResponse 200 "audio/wav" (FileBytes Fixtures.wav)), w2).
Proof.
  pose (w1 := snd (call_tts Fixtures.synthesizing (VStr "Hello") "en"
                     Fixtures.fresh)).
  pose (w2 := snd (call_tts Fixtures.synthesizing (VStr "Goodbye") "en" w1)).
  exists w1, w2. split; [vm_compute; reflexivity |].
  split; [vm_compute; reflexivity |].
  apply (proj1 (artifact_survives_unless_uuid_repeats Fixtures.synthesizing
                  Fixtures.fresh w1 w2 Fixtures.wav (VStr "Goodbye") "en"
                  (VStr ("http://localhost:8080/audio/" +:+
                         "00000000-0000-4000-8000-000000000001.wav"))
                  eq_refl
                  ltac:(vm_compute; reflexivity) ltac:(vm_compute; reflexivity))).
  vm_compute. discriminate.
Defined.

(** ** The synthesis server *)

(** [get_tts] leaves the temporary files alone. *)
Lemma get_tts_keeps_temp_files (T : TtsEnv) (s : TtsState) :
  temp_files (snd (get_tts T s)) = temp_files s.
Proof.
  unfold get_tts. destruct (model_loaded s); [reflexivity |].
  destruct (load_model T (loads s)); reflexivity.
Qed.

(** The [/tts] endpoint.  A body that is falsy or an object without [text]
    is answered 400 and the engine is not touched.  A body that is an object
    with [text] always gets an answer: 200 with exactly the bytes the engine
    wrote for that text, the speaker and the language of the body (the
    default speaker and "en" when the body has none), or 500 with the
    message of the exception.  A truthy body that is not an object is
    answered 400 or makes the handler raise [TypeError], with the state
    unchanged. *)
Theorem text_to_speech_answers (T : TtsEnv) (s : TtsState) :
  (forall data,
      truthy data = false ->
      text_to_speech T data s =
        (Ok (error_response 400 "Missing 'text' field"), s)) /\
  (forall items,
      dict_lookup items "text" = None ->
      text_to_speech T (VDict items) s =
        (Ok (error_response 400 "Missing 'text' field"), s)) /\
  (forall items text,
      dict_lookup items "text" = Some text ->
      exists resp s',
        text_to_speech T (VDict items) s = (Ok resp, s') /\
        ((exists audio,
             resp = HttpResponse 200 "audio/wav" (FileBytes audio) /\
             tts_to_file T (temp_files s) text
               (match dict_lookup items "speaker_wav" with
                | Some v => v
                | None => VStr (DEFAULT_SPEAKER T)
                end)
               (match dict_lookup items "language" with
                | Some v => v
                | None => VStr "en"
                end) = Done audio) \/
         (exists message, resp = error_response 500 message))) /\
  (forall data,
      truthy data = true -> is_dict data = false ->
      text_to_speech T data s =
        (Ok (error_response 400 "Missing 'text' field"), s) \/
      text_to_speech T data s = (Raise TypeError, s)).
Proof.
  split; [| split; [| split]].
  - intros data Hf. unfold text_to_speech. rewrite Hf. reflexivity.
  - intros items Hnone. unfold text_to_speech.
    destruct (truthy (VDict items)); [| reflexivity].
    cbn [negb py_in]. rewrite Hnone. reflexivity.
  - intros items text Htext. unfold text_to_speech.
    assert (Ht : truthy (VDict items) = true).
    { destruct items; [discriminate Htext | reflexivity]. }
    rewrite Ht. cbn [negb py_in py_getitem py_get]. rewrite Htext.
    pose proof (get_tts_keeps_temp_files T s) as Htemp.
    destruct (dict_lookup items "speaker_wav") as [speaker|];
      destruct (dict_lookup items "language") as [language|];
      destruct (get_tts T s) as [[[]|message] s1]; cbn [snd] in Htemp;
      try (eexists _, _; split; [reflexivity |]; right; eexists; reflexivity);
      cbv zeta; rewrite Htemp;
      match goal with
      | |- context [tts_to_file T ?n ?a ?b ?c] =>
          destruct (tts_to_file T n a b c) as [audio|message] eqn:Hengine
      end;
      eexists _, _; (split; [reflexivity |]);
      first [ left; eexists; split; [reflexivity | reflexivity]
            | right; eexists; reflexivity ].
  - intros data Ht Hd. unfold text_to_speech. rewrite Ht. cbn [negb].
    destruct data as [| | | |text|items|]; try discriminate Hd;
      try (right; reflexivity).
    + cbn [py_in]. destruct (contains "text" text); [right | left]; reflexivity.
    + cbn [py_in]. destruct (existsb _ items); [right | left]; reflexivity.
Qed.

(** The request of the hotline for "Hello", with the engine writing four
    bytes. *)
Lemma text_to_speech_answers_witness :
  fst (text_to_speech
         (mkTtsEnv "samples/en_sample.wav" (fun _ => Done tt)
            (fun _ _ _ _ => Done Fixtures.wav))
         (VDict [("text", VStr "Hello"); ("language", VStr "en")])
         (mkTtsState false 0 0)) =
    Ok (HttpResponse 200 "audio/wav" (FileBytes Fixtures.wav)).
Proof.
  destruct (text_to_speech_answers
              (mkTtsEnv "samples/en_sample.wav" (fun _ => Done tt)
                 (fun _ _ _ _ => Done Fixtures.wav))
              (mkTtsState false 0 0)) as [_ [_ [Hok _]]].
  destruct (Hok [("text", VStr "Hello"); ("language", VStr "en")] (VStr "Hello")
              eq_refl) as [resp [s' [Hrun [[audio [-> Heng]] | [message ->]]]]].
  - rewrite Hrun. cbn in Heng. injection Heng as <-. reflexivity.
  - discriminate Hrun.
Defined.

(** The model is loaded at most once: from a state in which it is loaded,
    no sequence of requests constructs the engine again or unloads it.  And
    temporary files only pile up: each request adds at most one and none is
    removed. *)
Theorem model_is_loaded_once (T : TtsEnv) (requests : list value) (s : TtsState) :
  (temp_files s <= temp_files (serve_all T requests s)
     <= temp_files s + length requests)%nat /\
  (model_loaded s = true ->
   model_loaded (serve_all T requests s) = true /\
   loads (serve_all T requests s) = loads s).
Proof.
  revert s. induction requests as [|data rest IH]; intros s.
  - cbn. split; [lia | auto].
  - cbn [serve_all length].
    assert (Hstep :
              (temp_files s <= temp_files (snd (text_to_speech T data s))
                 <= S (temp_files s))%nat /\
              (model_loaded s = true ->
               model_loaded (snd (text_to_speech T data s)) = true /\
               loads (snd (text_to_speech T data s)) = loads s)).
    { unfold text_to_speech.
      destruct (negb (truthy data)); [cbn; split; [lia | auto] |].
      destruct (py_in "text" data) as [[|]|]; try (cbn; split; [lia | auto]).
      destruct (py_getitem data "text"); try (cbn; split; [lia | auto]).
      destruct (py_get data "speaker_wav" _); try (cbn; split; [lia | auto]).
      destruct (py_get data "language" _); try (cbn; split; [lia | auto]).
      unfold get_tts. destruct (model_loaded s) eqn:Hloaded.
      - cbv zeta. destruct (tts_to_file T _ _ _ _); cbn; split; try lia; auto.
      - destruct (load_model T (loads s)) as [[]|message].
        + cbv zeta. cbn [temp_files model_loaded loads].
          destruct (tts_to_file T _ _ _ _); cbn; split; try lia; discriminate.
        + cbn. split; [lia | discriminate]. }
    destruct Hstep as [Htemp Hloaded].
    destruct (IH (snd (text_to_speech T data s))) as [IHtemp IHloaded].
    split; [lia |].
    intros Hl. destruct (Hloaded Hl) as [Hl' Hn].
    destruct (IHloaded Hl') as [Hl'' Hn']. split; [exact Hl'' | congruence].
Qed.

(** Three requests reach a server whose model is loaded. *)
Lemma model_is_loaded_once_witness :
  loads (serve_all
           (mkTtsEnv "samples/en_sample.wav" (fun _ => Failed "no model")
              (fun _ _ _ _ => Done Fixtures.wav))
           [VDict [("text", VStr "one")]; VNone; VDict [("text", VStr "two")]]
           (mkTtsState true 1 0)) = 1%nat.
Proof.
  apply (proj2 (model_is_loaded_once
                  (mkTtsEnv "samples/en_sample.wav" (fun _ => Failed "no model")
                     (fun _ _ _ _ => Done Fixtures.wav))
                  [VDict [("text", VStr "one")]; VNone; VDict [("text", VStr "two")]]
                  (mkTtsState true 1 0)) eq_refl).
Defined.

(** ** The hotline and the synthesis server together *)

(** When the Synthesize backend of the hotline is this server, a request
    that [call_tts] sends (its text holds no [NaN] and no infinity) always
    passes the validation of [/tts] (the answer is never 400, also for an
    empty text), and the engine is asked for the text as it is, with the
    default speaker and the language of the call.  If the model is there
    and the engine writes audio, these very bytes are stored and, by a
    hotline whose [send_file] looks into [AUDIO_DIR] itself, later served
    under the returned URL; in every other case [call_tts] returns [None],
    so the provider's own voice speaks. *)
Theorem hotline_synthesis_end_to_end (E : Env) (T : TtsEnv) (w : World)
    (s : TtsState) (text : value) (language : string) (r : response) :
  send_file_root E = SameDirectory ->
  json_compliant text = true ->
  network E (outbox w) (tts_request E text language) = Answers r ->
  (forall resp,
      fst (text_to_speech T (req_json (tts_request E text language)) s) = Ok resp ->
      carries r resp) ->
  (exists resp,
      fst (text_to_speech T (req_json (tts_request E text language)) s) = Ok resp /\
      (status resp = 200 \/ status resp = 500)) /\
  match fst (get_tts T s),
        tts_to_file T (temp_files s) text (VStr (DEFAULT_SPEAKER T)) (VStr language)
  with
  | Done _, Done audio =>
      path_lookup (audio_dir w) (next_audio_name E w) <> Some Dir ->
      exists w',
        call_tts E text language w =
          (Ok (VStr (BASE_URL E +:+ "/audio/" +:+ next_audio_name E w)), w') /\
        serve_audio E (next_audio_name E w) w' =
          (Ok (HttpResponse 200 "audio/wav" (FileBytes audio)), w')
  | _, _ =>
      call_tts E text language w =
        (Ok VNone, sent (tts_request E text language) w)
  end.
Proof.
  intros Hroot Hjson Hnet Hcarries.
  pose proof (get_tts_keeps_temp_files T s) as Htemp.
  assert (Hsent : tts_sent E text language w = sent (tts_request E text language) w).
  { unfold tts_sent. rewrite Hjson. reflexivity. }
  assert (Hserver :
            fst (text_to_speech T (req_json (tts_request E text language)) s) =
              match fst (get_tts T s) with
              | Failed message => Ok (error_response 500 message)
              | Done _ =>
                  match tts_to_file T (temp_files s) text
                          (VStr (DEFAULT_SPEAKER T)) (VStr language) with
                  | Failed message => Ok (error_response 500 message)
                  | Done audio => Ok (HttpResponse 200 "audio/wav" (FileBytes audio))
                  end
              end).
  { unfold text_to_speech, tts_request. cbn [req_json truthy negb py_in].
    cbn [dict_lookup String.eqb Ascii.eqb Bool.eqb py_getitem py_get].
    destruct (get_tts T s) as [[[]|message] s1]; cbn [fst snd] in *;
      [| reflexivity].
    cbv zeta. rewrite Htemp.
    destruct (tts_to_file T (temp_files s) text _ _); reflexivity. }
  rewrite Hserver in Hcarries |- *.
  destruct (fst (get_tts T s)) as [[]|message].
  - destruct (tts_to_file T (temp_files s) text _ _) as [audio|message].
    + split; [eexists; split; [reflexivity | left; reflexivity] |].
      intros Hnodir.
      destruct (Hcarries _ eq_refl) as [Hstatus Hcontent]. cbn in Hstatus.
      specialize (Hcontent audio eq_refl).
      assert (Hok : error_status r = false).
      { unfold error_status. rewrite Hstatus. reflexivity. }
      eexists. split.
      * rewrite call_tts_run. cbv zeta. rewrite Hjson, Hnet, Hok.
        destruct (path_lookup (audio_dir w) (next_audio_name E w)) as [[data|]|];
          [reflexivity | contradiction | reflexivity].
      * rewrite serve_audio_run, (served_entry_same E _ _ Hroot). cbn [audio_dir].
        rewrite (path_lookup_regular _ _ (next_audio_name_length E w)).
        rewrite lookup_insert_eq, Hcontent. reflexivity.
    + split; [eexists; split; [reflexivity | right; reflexivity] |].
      destruct (Hcarries _ eq_refl) as [Hstatus _]. cbn in Hstatus.
      rewrite <- Hsent.
      apply call_tts_failure. rewrite Hnet. apply synthesize_fails_status.
      unfold error_status. rewrite Hstatus. reflexivity.
  - split; [eexists; split; [reflexivity | right; reflexivity] |].
    destruct (Hcarries _ eq_refl) as [Hstatus _]. cbn in Hstatus.
    rewrite <- Hsent.
    apply call_tts_failure. rewrite Hnet. apply synthesize_fails_status.
    unfold error_status. rewrite Hstatus. reflexivity.
Qed.

(** The engine fails on an empty text: the server answers 500 and the
    hotline gets no URL. *)
Lemma hotline_synthesis_end_to_end_witness :
  call_tts
    (with_network Fixtures.offline
       (fun _ _ => Answers (Response 500 [] (Some (VDict [("error", VStr "empty text")])))))
    (VStr "") "en" Fixtures.fresh =
    (Ok VNone,
     sent (tts_request Fixtures.offline (VStr "") "en") Fixtures.fresh).
Proof.
  refine (proj2 (hotline_synthesis_end_to_end
                   (with_network Fixtures.offline
                      (fun _ _ => Answers (Response 500 []
                                             (Some (VDict [("error", VStr "empty text")])))))
                   (mkTtsEnv "samples/en_sample.wav" (fun _ => Done tt)
                      (fun _ _ _ _ => Failed "empty text"))
                   Fixtures.fresh (mkTtsState true 1 0) (VStr "") "en"
                   (Response 500 [] (Some (VDict [("error", VStr "empty text")])))
                   eq_refl eq_refl eq_refl _)).
  intros resp Hresp. injection Hresp as <-. split; [reflexivity |].
  intros audio Haudio. discriminate Haudio.
Defined.

(** ** Failure of the Respond call *)

(** For an utterance that is not empty and holds no closing phrase, a
    failed Respond call (the transport raises, the status is from 400 to
    599, the body is no JSON, or the extraction of the text from the JSON
    raises) is replaced inside the client by its fixed apology; the handler
    then sends the apology to Synthesize, returns a document that plays or
    says the apology and gathers again, and raises nothing (on Jambonz, for
    a transcript that holds no surrogate). *)
Theorem respond_failure_is_replaced_by_apology
    (E : Env) (w : World) (text : string) :
  text <> "" ->
  respond_failure E (network E (outbox w) (respond_request E text)) ->
  exists audio_url w',
    call_llm E text VNone w =
      (Ok (VStr (respond_apology E)), sent (respond_request E text) w) /\
    call_tts E (VStr (respond_apology E)) "en" (sent (respond_request E text) w) =
      (Ok audio_url, w') /\
    outbox w' =
      (outbox w ++ [respond_request E text;
                    tts_request E (VStr (respond_apology E)) "en"])%list /\
    (forall form,
        form_get form "SpeechResult" "" = text ->
        any_phrase_in twilio_goodbye_phrases (lower text) = false ->
        twilio_gather E form w =
          (Ok (xml_response E
                 [twilio_reply audio_url (VStr (respond_apology E));
                  twilio_gather_verb E [];
                  Say None (VStr "Are you still there?");
                  Hangup]), w') /\
        (plain_attr (BASE_URL E) = true ->
         actions (payload (xml_response E
                    [twilio_reply audio_url (VStr (respond_apology E));
                     twilio_gather_verb E [];
                     Say None (VStr "Are you still there?");
                     Hangup])) =
           [reply_action audio_url (VStr (respond_apology E)); DoGather;
            DoSay (VStr "Are you still there?"); DoHangup])) /\
    (forall request_json,
        jambonz_speech_text request_json = Ok (VStr text) ->
        has_lone_surrogate text = false ->
        any_phrase_in jambonz_goodbye_phrases (lower text) = false ->
        jambonz_gather E request_json w =
          (Ok (jsonify (VList
                 [jambonz_reply audio_url (VStr (respond_apology E));
                  jambonz_turn_gather E;
                  jambonz_hangup])), w')).
Proof.
  intros Hne Hfail.
  pose proof (call_llm_failure E text VNone w Hfail) as Hllm.
  destruct (call_tts_returns E (VStr (respond_apology E)) "en"
              (sent (respond_request E text) w)) as [audio_url [w' [Htts Hout]]].
  assert (Hprint : printable (VStr (respond_apology E)) = true).
  { unfold respond_apology. destruct (String.eqb _ _); reflexivity. }
  assert (Hplain : plain_text (py_str E (VStr (respond_apology E))) = true).
  { unfold respond_apology. destruct (String.eqb _ _); reflexivity. }
  exists audio_url, w'. split; [exact Hllm |]. split; [exact Htts |].
  split; [| split].
  - rewrite Hout. cbn [tts_sent json_compliant sent outbox].
    rewrite <- app_assoc. reflexivity.
  - intros form Hform Hbye. subst text. split.
    + apply (twilio_gather_turn E form w _ _ _ _ Hne Hbye Hllm Hprint Htts).
    + intros Hbase.
      apply (twilio_gathering_document E _ audio_url (VStr (respond_apology E)) []
               "Are you still there?"
               (call_tts_printable E _ _ _ _ w' Htts) Hbase Hplain eq_refl eq_refl).
  - intros request_json Hdec Hclean Hbye.
    apply (jambonz_gather_turn E request_json text w _ _ _ _
             Hdec Hclean Hne Hbye Hllm Htts).
Qed.

(** With every backend down, the caller who says "hello" hears the apology
    in the provider's own voice and is asked again. *)
Lemma respond_failure_is_replaced_by_apology_witness :
  exists w',
    twilio_gather Fixtures.offline [("SpeechResult", "hello")] Fixtures.fresh =
      (Ok (xml_response Fixtures.offline
             [Say (Some "alice") (VStr (respond_apology Fixtures.offline));
              twilio_gather_verb Fixtures.offline [];
              Say None (VStr "Are you still there?");
              Hangup]), w') /\
    outbox w' =
      [respond_request Fixtures.offline "hello";
       tts_request Fixtures.offline
         (VStr (respond_apology Fixtures.offline)) "en"].
Proof.
  destruct (respond_failure_is_replaced_by_apology Fixtures.offline Fixtures.fresh
              "hello")
    as [audio_url [w' [_ [Htts [Hout [Htwilio _]]]]]].
  - discriminate.
  - apply respond_fails_transport.
  - exists w'. split; [| exact Hout].
    destruct (Htwilio [("SpeechResult", "hello")] eq_refl eq_refl) as [Hrun _].
    rewrite Hrun. revert Htts. vm_compute. intros [= <- _]. reflexivity.
Defined.

(** ** The identifier of an artifact *)

(** For a server whose [send_file] looks into [AUDIO_DIR] itself.  The
    identifier that a stored artifact is retrieved by is the whole file
    name, the UUID followed by [.wav]: it is the last segment of the URL
    that [call_tts] returns, the route hands it to [serve_audio] as it is,
    and the UUID alone is answered 404 (unless it named an entry before).
    What [serve_audio] sends with the status 200 is the content of the file
    of exactly that name in the audio directory, as [audio/wav] and
    unchanged; and every file of the directory is served so, whatever its
    name ends with. *)
Theorem audio_id_is_the_wav_filename (E : Env) (w : World) :
  send_file_root E = SameDirectory ->
  (forall text language audio_url w',
      call_tts E text language w = (Ok audio_url, w') ->
      truthy audio_url = true ->
      exists r,
        network E (outbox w) (tts_request E text language) = Answers r /\
        audio_url = VStr (BASE_URL E +:+ "/audio/" +:+ next_uuid E w +:+ ".wav") /\
        route_audio ("/audio/" +:+ next_uuid E w +:+ ".wav") =
          Some (next_uuid E w +:+ ".wav") /\
        serve_audio E (next_uuid E w +:+ ".wav") w' =
          (Ok (HttpResponse 200 "audio/wav" (FileBytes (content r))), w') /\
        (path_lookup (audio_dir w) (next_uuid E w) = None ->
         serve_audio E (next_uuid E w) w' =
           (Ok (HttpResponse 404 "application/json"
                  (Json (VDict [("error", VStr "Audio not found")]))), w'))) /\
  (forall filename resp w',
      serve_audio E filename w = (Ok resp, w') ->
      status resp = 200 ->
      exists data,
        audio_dir w !! filename = Some (File data) /\
        resp = HttpResponse 200 "audio/wav" (FileBytes data) /\
        w' = w) /\
  (forall filename data,
      special_name filename = false ->
      audio_dir w !! filename = Some (File data) ->
      serve_audio E filename w =
        (Ok (HttpResponse 200 "audio/wav" (FileBytes data)), w)).
Proof.
  intros Hroot. repeat apply conj.
  - intros text language audio_url w' Hrun Htruthy.
    destruct (stored_audio_is_served E text language w w' audio_url Hroot Hrun Htruthy)
      as [r [Hnet [Hurl [Hroute [Hserve Hother]]]]].
    exists r. repeat split; try assumption.
    intros Habsent. apply absent_audio_is_not_found.
    rewrite Hother; [exact Habsent |].
    unfold next_audio_name, next_uuid. intros Heq.
    apply (f_equal String.length) in Heq. rewrite length_append in Heq.
    simpl in Heq. lia.
  - intros filename resp w' Hrun Hstatus.
    rewrite serve_audio_run, (served_entry_same E w filename Hroot) in Hrun.
    destruct (path_lookup (audio_dir w) filename) as [[data|]|] eqn:Hl.
    + injection Hrun as <- <-. exists data. repeat split.
      unfold path_lookup in Hl.
      destruct (special_name filename); [discriminate Hl | exact Hl].
    + discriminate Hrun.
    + injection Hrun as <- _. discriminate Hstatus.
  - intros filename data Hname Hfile.
    rewrite serve_audio_run, (served_entry_same E w filename Hroot).
    unfold path_lookup. rewrite Hname, Hfile. reflexivity.
Qed.

(** Synthesize answers with four bytes; they are stored as
    [00000000-0000-4000-8000-000000000000.wav] and served from there. *)
Lemma audio_id_is_the_wav_filename_witness :
  exists w',
    call_tts Fixtures.synthesizing (VStr "Hello") "en" Fixtures.fresh =
      (Ok (VStr ("http://localhost:8080/audio/" +:+
                 "00000000-0000-4000-8000-000000000000.wav")), w') /\
    serve_audio Fixtures.synthesizing
      "00000000-0000-4000-8000-000000000000.wav" w' =
      (Ok (HttpResponse 200 "audio/wav" (FileBytes Fixtures.wav)), w') /\
    serve_audio Fixtures.synthesizing "00000000-0000-4000-8000-000000000000" w' =
      (Ok (HttpResponse 404 "application/json"
             (Json (VDict [("error", VStr "Audio not found")]))), w').
Proof.
  eexists. split; [vm_compute; reflexivity |].
  destruct (audio_id_is_the_wav_filename Fixtures.synthesizing Fixtures.fresh eq_refl)
    as [Hput _].
  destruct (Hput (VStr "Hello") "en" _ _ ltac:(vm_compute; reflexivity)
              ltac:(reflexivity))
    as [r [Hnet [_ [_ [Hserve Hbare]]]]].
  injection Hnet as <-.
  split; [exact Hserve | apply Hbare; reflexivity].
Defined.

(** ** Markup in a reply *)




(** ** A reply that does not encode *)

(** The language model answers with the one code point U+D800 (JSON
    [\ud800]) while Synthesize is down.  The Twilio turn handler raises
    [UnicodeEncodeError] at the line that logs the reply, after the Respond
    request and before any synthesis.  The Jambonz turn handler does not log
    the reply: it returns the document that says it. *)
Theorem unprintable_reply_raises_on_twilio :
  twilio_gather Fixtures.garbled [("SpeechResult", "hello")] Fixtures.fresh =
    (Raise UnicodeEncodeError,
     sent (respond_request Fixtures.garbled "hello") Fixtures.fresh) /\
  fst (jambonz_gather Fixtures.garbled (jambonz_payload (VStr "hello"))
         Fixtures.fresh) =
    Ok (jsonify (VList
          [VDict [("verb", VStr "say"); ("text", VStr Fixtures.surrogate)];
           jambonz_turn_gather Fixtures.garbled;
           jambonz_hangup])).
Proof. split; vm_compute; reflexivity. Qed.

(** ** Where the retrieval handler reads *)

(** When [send_file] looks at another directory than [AUDIO_DIR] (a
    relative [AUDIO_DIR], the server started elsewhere than in the
    directory of its module), the retrieval handler decides on the entry of
    [AUDIO_DIR] whether to answer at all, and then answers from the other
    directory: with the bytes of the file of that name there, which no
    synthesis stored, or with an exception when there is none. *)
Theorem serve_audio_reads_the_other_directory (E : Env) (w : World)
    (entries : gmap string node) (filename : string) (stored : bytes) :
  send_file_root E = OtherDirectory (Some entries) ->
  special_name filename = false ->
  audio_dir w !! filename = Some (File stored) ->
  serve_audio E filename w =
    match entries !! filename with
    | Some (File other) =>
        (Ok (HttpResponse 200 "audio/wav" (FileBytes other)), w)
    | Some Dir => (Raise IsADirectoryError, w)
    | None => (Raise FileNotFoundError, w)
    end.
Proof.
  intros Hroot Hname Hstored. rewrite serve_audio_run.
  unfold served_entry, path_lookup. rewrite Hroot, Hname, Hstored.
  destruct (entries !! filename) as [[other|]|]; reflexivity.
Qed.

(** The cache holds four bytes as [a.wav]; the directory below the module
    holds one other byte under that name, and that byte is served. *)
Lemma serve_audio_reads_the_other_directory_witness :
  serve_audio
    (with_send_file_root Fixtures.offline
       (OtherDirectory (Some {[ "a.wav" := File [Byte.x00] ]})))
    "a.wav" (mkWorld {[ "a.wav" := File Fixtures.wav ]} [] 0) =
    (Ok (HttpResponse 200 "audio/wav" (FileBytes [Byte.x00])),
     mkWorld {[ "a.wav" := File Fixtures.wav ]} [] 0).
Proof.
  rewrite (serve_audio_reads_the_other_directory
             (with_send_file_root Fixtures.offline
                (OtherDirectory (Some {[ "a.wav" := File [Byte.x00] ]})))
             (mkWorld {[ "a.wav" := File Fixtures.wav ]} [] 0)
             {[ "a.wav" := File [Byte.x00] ]} "a.wav" Fixtures.wav);
    [| reflexivity | reflexivity | vm_compute; reflexivity].
  vm_compute. reflexivity.
Defined.
